(** * RIP-7560 / RIP-7712 state processor: a shallow embedding

    The development follows the Go sources of the native account-abstraction
    pipeline: the transaction data type ([core/types], package [Types] below),
    the nonce-manager message ([core/rip7712_nonce.go]) and the state
    processor ([core/state_processor_rip7560.go], package [Core] below).

    Conventions.  A [uint64] is a [Z] kept in [0, 2^64) by [wrap64]; a
    [uint256.Int] is a [Z] kept in [0, 2^256) by [wrap256]; a [*big.Int] is an
    unbounded [Z] ([option Z] where the code tests it against [nil]).  A byte
    is a [Z] in [0, 256).  An address is the 160-bit number its 20 bytes
    spell in big-endian order.  State is passed explicitly; the EVM is an
    oracle that maps a call to its result, its post-state and the call-entry
    events it reports to the tracer. *)

From Stdlib Require Import ZArith List Lia Bool String.
From stdpp Require Import base gmap strings list.

Local Open Scope Z_scope.

(** ** Machine integers *)

Definition wrap64 (z : Z) : Z := z mod 2 ^ 64.
Definition wrap256 (z : Z) : Z := z mod 2 ^ 256.

Definition MaxUint64 : Z := 2 ^ 64 - 1.

Definition add64 (a b : Z) : Z := wrap64 (a + b).
Definition sub64 (a b : Z) : Z := wrap64 (a - b).
Definition mul64 (a b : Z) : Z := wrap64 (a * b).

Definition add256 (a b : Z) : Z := wrap256 (a + b).
Definition sub256 (a b : Z) : Z := wrap256 (a - b).
Definition mul256 (a b : Z) : Z := wrap256 (a * b).

(** [uint256.FromBig]: the low 256 bits of the two's complement of [b], and
    whether the magnitude of [b] needs more than four 64-bit words. *)
Definition FromBig (b : Z) : Z * bool := (wrap256 b, 2 ^ 256 <=? Z.abs b).

(** [int64(x)] for a [uint64] [x]: the same bits read as a signed number. *)
Definition int64_of_uint64 (x : Z) : Z :=
  if x <? 2 ^ 63 then x else x - 2 ^ 64.

(** ** Bytes and big-endian encodings *)

Definition byte := Z.
Definition Address := Z.
Definition Hash := Z.

(** The [n] low-order bytes of [v], most significant first. *)
Fixpoint be_bytes (n : nat) (v : Z) : list byte :=
  match n with
  | O => []
  | S k => (v / 256 ^ Z.of_nat k) mod 256 :: be_bytes k v
  end.

(** [big.Int.BitLen]: length in bits of the absolute value. *)
Definition BitLen (x : Z) : Z :=
  if Z.abs x =? 0 then 0 else Z.log2 (Z.abs x) + 1.

(** [big.Int.Bytes]: the absolute value as a minimal big-endian slice. *)
Definition BigBytes (x : Z) : list byte :=
  be_bytes (Z.to_nat ((BitLen x + 7) / 8)) (Z.abs x).

(** [math.PaddedBigBytes]: at least [n] bytes; the absolute value of a
    number that does not fit in [n] bytes is returned at its own length. *)
Definition PaddedBigBytes (bigint : Z) (n : Z) : list byte :=
  if n <=? BitLen bigint / 8 then BigBytes bigint
  else be_bytes (Z.to_nat n) (Z.abs bigint).

(** [common.Address.Bytes]: the 20 bytes of the address. *)
Definition AddressBytes (a : Address) : list byte := be_bytes 20 a.

Definition zeroAddress : Address := 0.

(** ** Errors *)

Inductive VMError :=
| ErrExecutionReverted
| ErrOutOfGas
| ErrVMOther (msg : string).

(** The sentinel errors of package [core] that the processor wraps. *)
Inductive Sentinel :=
| ErrInsufficientFunds
| ErrGasLimitReached
| ErrNonceTooHigh
| ErrNonceTooLow
| ErrNonceMax.

(** A Go [error] that is not a [*ValidationPhaseError].  Format arguments
    (addresses, sizes) are left out of the messages. *)
Inductive BaseError :=
| Wrapped (s : Sentinel)                       (* fmt.Errorf("%w: ...", ErrX, ...) *)
| Msg (m : string)                             (* errors.New / fmt.Errorf *)
| VM (e : VMError)                             (* the error of an EVM call *)
| MsgVM (m : string) (e : VMError).            (* fmt.Errorf("...: %w", vmErr) *)

Record ValidationPhaseError := mkVPE {
  vpe_inner : option BaseError;
  vpe_reason : list byte;
  revertEntityName : option string;
  frameReverted : bool
}.

Inductive error :=
| Base (b : BaseError)
| Vpe (v : ValidationPhaseError).

(** Results of functions that return [(value, error)], and of those that can
    also panic. *)
Inductive outcome (A : Type) :=
| Ok (a : A)
| Err (e : error)
| Panicked (msg : string).
Arguments Ok {A} a.
Arguments Err {A} e.
Arguments Panicked {A} msg.

#[global] Instance outcome_ret : MRet outcome := fun A a => Ok a.
#[global] Instance outcome_bind : MBind outcome := fun A B f x =>
  match x with
  | Ok a => f a
  | Err e => Err e
  | Panicked m => Panicked m
  end.

(** The value of a [(uint64, error)] result whose error the caller drops
    ([v, _ := f()]): the functions below return 0 next to an error. *)
Definition dropErr (x : outcome Z) : Z :=
  match x with Ok v => v | _ => 0 end.

(** [newValidationPhaseError]: an inner error that already is a
    [*ValidationPhaseError] is returned as it is. *)
Definition newValidationPhaseError (innerErr : option error)
    (revertReason : list byte) (entity : option string) (reverted : bool) : error :=
  match innerErr with
  | Some (Vpe v) => Vpe v
  | Some (Base b) => Vpe (mkVPE (Some b) revertReason entity reverted)
  | None => Vpe (mkVPE None revertReason entity reverted)
  end.

Definition wrapError (innerErr : error) : error :=
  newValidationPhaseError (Some innerErr) [] None false.

(** ** Protocol parameters (package [params]) *)

Module Params.

(** Modelled from the spec: the calldata and access-list prices of section
    4.1 and the refund quotient of section 4.4; package [params] is not among
    the sources. *)
Definition TxDataNonZeroGasEIP2028 : Z := 16.
Definition TxDataZeroGas : Z := 4.
Definition TxAccessListAddressGas : Z := 2400.
Definition TxAccessListStorageKeyGas : Z := 1900.
Definition RefundQuotientEIP3529 : Z := 5.

End Params.

(** ** The transaction type (package [types]) *)

Module Types.

Record AccessTuple := {
  at_Address : Address;
  at_StorageKeys : list Hash
}.

Record Rip7560AccountAbstractionTx := {
  ChainID : Z;
  Nonce : Z;                                  (* uint64 *)
  GasTipCap : Z;                              (* *big.Int *)
  GasFeeCap : Z;                              (* *big.Int *)
  Gas : Z;                                    (* uint64 *)
  AccessList : list AccessTuple;
  Sender : Address;
  AuthorizationData : list byte;
  ExecutionData : list byte;
  Paymaster : option Address;
  PaymasterData : list byte;
  Deployer : option Address;
  DeployerData : list byte;
  BuilderFee : Z;
  ValidationGasLimit : Z;                     (* uint64 *)
  PaymasterValidationGasLimit : Z;            (* uint64 *)
  PostOpGas : Z;                              (* uint64 *)
  NonceKey : option Z                         (* *big.Int, may be nil *)
}.

(** The 64-bit fields hold 64-bit values. *)
Definition wf_tx (tx : Rip7560AccountAbstractionTx) : Prop :=
  0 <= Nonce tx < 2 ^ 64 /\ 0 <= Gas tx < 2 ^ 64 /\
  0 <= ValidationGasLimit tx < 2 ^ 64 /\
  0 <= PaymasterValidationGasLimit tx < 2 ^ 64 /\
  0 <= PostOpGas tx < 2 ^ 64.

Definition GasPayer (tx : Rip7560AccountAbstractionTx) : Address :=
  match Paymaster tx with
  | Some p => if negb (p =? zeroAddress) then p else Sender tx
  | None => Sender tx
  end.

Fixpoint SumGas_from (sum : Z) (vals : list Z) : outcome Z :=
  match vals with
  | [] => Ok sum
  | val :: rest =>
      if 2 ^ 62 <? val then Err (Base (Msg "invalid gas values"))
      else SumGas_from (add64 sum val) rest
  end.

Definition SumGas (vals : list Z) : outcome Z := SumGas_from 0 vals.

Fixpoint countZero (data : list byte) : Z :=
  match data with
  | [] => 0
  | b :: rest => (if b =? 0 then 1 else 0) + countZero rest
  end.

Definition callDataCost (data : list byte) : Z :=
  let z := wrap64 (countZero data) in
  let nz := sub64 (wrap64 (Z.of_nat (length data))) z in
  add64 (mul64 nz Params.TxDataNonZeroGasEIP2028) (mul64 z Params.TxDataZeroGas).

Definition callDataGasCost (tx : Rip7560AccountAbstractionTx) : outcome Z :=
  SumGas [ callDataCost (AuthorizationData tx);
           callDataCost (DeployerData tx);
           callDataCost (ExecutionData tx);
           callDataCost (PaymasterData tx) ].

Definition StorageKeys (al : list AccessTuple) : Z :=
  fold_left (fun sum tuple => sum + Z.of_nat (length (at_StorageKeys tuple))) al 0.

Definition accessListGasCost (tx : Rip7560AccountAbstractionTx) : Z :=
  let gas := mul64 (wrap64 (Z.of_nat (length (AccessList tx)))) Params.TxAccessListAddressGas in
  add64 gas (mul64 (wrap64 (StorageKeys (AccessList tx))) Params.TxAccessListStorageKeyGas).

Definition eip7702CodeInsertionsGasCost (tx : Rip7560AccountAbstractionTx) : Z := 0.

(** [IsRip7712Nonce]: the key is set and compares greater than zero. *)
Definition IsRip7712Nonce (tx : Rip7560AccountAbstractionTx) : bool :=
  match NonceKey tx with
  | Some k => 0 <? k
  | None => false
  end.

(** [effectiveGasPrice] on [*big.Int]; [baseFee] is [None] for a nil base fee. *)
Definition EffectiveGasPrice (tx : Rip7560AccountAbstractionTx) (baseFee : option Z) : Z :=
  match baseFee with
  | None => GasFeeCap tx
  | Some bf =>
      let tip := GasFeeCap tx - bf in
      let tip := if GasTipCap tx <? tip then GasTipCap tx else tip in
      tip + bf
  end.

Section WithBaseGas.

(** The constant [params.Rip7560TxGas], whose declaration is not among the
    sources. *)
Variable Rip7560TxGas : Z.

Definition PreTransactionGasCost (tx : Rip7560AccountAbstractionTx) : outcome Z :=
  calldataGasCost ← callDataGasCost tx;
  let accessListGasCost := accessListGasCost tx in
  let eip7702 := eip7702CodeInsertionsGasCost tx in
  Ok (add64 (add64 (add64 Rip7560TxGas calldataGasCost) accessListGasCost) eip7702).

Definition TotalGasLimit (tx : Rip7560AccountAbstractionTx) : outcome Z :=
  SumGas [ Rip7560TxGas; Gas tx; ValidationGasLimit tx;
           PaymasterValidationGasLimit tx; PostOpGas tx ].

End WithBaseGas.

End Types.

(** ** The state processor (package [core]) *)

Module Core.
Import Types.

Definition PaymasterMaxContextSize : Z := 65536.
Definition Rip7560AbiVersion : Z := 0.
Definition AA_ENTRY_POINT : Address := 0x7560.
Definition AA_SENDER_CREATOR : Address := 0xffff7560.
Definition AA_NONCE_MANAGER : Address := 0x4200000000000000000000000000000000000024.
Definition AA_GAS_PENALTY_PCT : Z := 10.

Definition ExecutionStatusSuccess : Z := 0.
Definition ExecutionStatusExecutionFailure : Z := 1.
Definition ExecutionStatusPostOpFailure : Z := 2.
Definition ExecutionStatusExecutionAndPostOpFailure : Z := 3.

Definition ReceiptStatusFailed : Z := 0.
Definition ReceiptStatusSuccessful : Z := 1.
Definition Rip7560Type : Z := 4.

(** *** The state database and the gas pool *)

Record Log := {
  log_Address : Address;
  log_Topics : list Hash;
  log_Data : list byte;
  log_BlockNumber : Z;
  log_TxHash : Hash
}.

(** Modelled from the spec: the state database of section 6 ([core/state] is
    not among the sources) as the balances, nonces, code sizes and storage of
    the accounts, the refund counter, the logs and the current transaction
    context.  A snapshot is a saved copy; reverting restores it. *)
Record StateDB := {
  balances : gmap Address Z;
  nonces : gmap Address Z;
  codeSizes : gmap Address Z;
  storage : gmap (Address * Hash) Z;
  refund : Z;
  logs : list Log;
  thash : Hash;
  txIndex : Z
}.

Definition GetBalance (s : StateDB) (a : Address) : Z := default 0 (balances s !! a).
Definition GetNonce (s : StateDB) (a : Address) : Z := default 0 (nonces s !! a).
Definition GetCodeSize (s : StateDB) (a : Address) : Z := default 0 (codeSizes s !! a).
Definition GetRefund (s : StateDB) : Z := refund s.

Definition setBalance (s : StateDB) (a : Address) (v : Z) : StateDB :=
  {| balances := <[a := v]> (balances s); nonces := nonces s;
     codeSizes := codeSizes s; storage := storage s; refund := refund s;
     logs := logs s; thash := thash s; txIndex := txIndex s |}.

Definition SubBalance (s : StateDB) (a : Address) (amount : Z) : StateDB :=
  setBalance s a (sub256 (GetBalance s a) amount).

Definition AddBalance (s : StateDB) (a : Address) (amount : Z) : StateDB :=
  setBalance s a (add256 (GetBalance s a) amount).

Definition SetNonce (s : StateDB) (a : Address) (n : Z) : StateDB :=
  {| balances := balances s; nonces := <[a := n]> (nonces s);
     codeSizes := codeSizes s; storage := storage s; refund := refund s;
     logs := logs s; thash := thash s; txIndex := txIndex s |}.

Definition AddLog (s : StateDB) (l : Log) : StateDB :=
  {| balances := balances s; nonces := nonces s;
     codeSizes := codeSizes s; storage := storage s; refund := refund s;
     logs := logs s ++ [ {| log_Address := log_Address l; log_Topics := log_Topics l;
                            log_Data := log_Data l; log_BlockNumber := log_BlockNumber l;
                            log_TxHash := thash s |} ];
     thash := thash s; txIndex := txIndex s |}.

Definition GetLogs (s : StateDB) (h : Hash) : list Log :=
  filter (fun l => log_TxHash l = h) (logs s).

Definition SetTxContext (s : StateDB) (h : Hash) (ti : Z) : StateDB :=
  {| balances := balances s; nonces := nonces s;
     codeSizes := codeSizes s; storage := storage s; refund := refund s;
     logs := logs s; thash := h; txIndex := ti |}.

(** [Finalise] closes the journal and resets the refund counter. *)
Definition Finalise (s : StateDB) : StateDB :=
  {| balances := balances s; nonces := nonces s;
     codeSizes := codeSizes s; storage := storage s; refund := 0;
     logs := logs s; thash := thash s; txIndex := txIndex s |}.

Definition Snapshot (s : StateDB) : StateDB := s.
Definition RevertToSnapshot (s snapshot : StateDB) : StateDB := snapshot.

(** Modelled from the spec: the block gas pool of section 4.4 ([GasPool] is
    not among the sources), a [uint64] counter.  [SubGas] reserves or fails
    with the gas-limit-reached error; [AddGas] returns gas and panics above
    [uint64]. *)
Definition GasPool := Z.

Definition SubGas (gp : GasPool) (amount : Z) : outcome GasPool :=
  if gp <? amount then Err (Base (Wrapped ErrGasLimitReached))
  else Ok (gp - amount).

Definition AddGas (gp : GasPool) (amount : Z) : outcome GasPool :=
  if MaxUint64 - amount <? gp then Panicked "gas pool pushed above uint64"
  else Ok (gp + amount).

(** *** The EVM as an oracle *)

(** One call-entry event, as the tracer's [OnEnter] hook receives it. *)
Record CallEnter := {
  ce_from : Address;
  ce_to : Address;
  ce_input : list byte
}.

(** What [evm.Call] gives back: return data, gas left, error, the state
    after the call, and the call entries it reported to the tracer, in
    order. *)
Record EvmCallResult := {
  evm_ret : list byte;
  evm_gasRemaining : Z;
  evm_err : option VMError;
  evm_state : StateDB;
  evm_entered : list CallEnter
}.

(** [evm.Call(caller, to, data, gasLimit, 0)] on a state. *)
Definition EVM := StateDB -> Address -> Address -> list byte -> Z -> EvmCallResult.

Record ExecutionResult := {
  ReturnData : list byte;
  UsedGas : Z;
  ResErr : option VMError;
  RefundedGas : Z
}.

Definition Failed (r : ExecutionResult) : bool :=
  match ResErr r with Some _ => true | None => false end.

Record StateTransition := {
  initialGas : Z;
  gasRemaining : Z
}.

(** [CallFrame]: a frame in the context of a state transition.  The fourth
    component is the sequence of call entries the tracer saw meanwhile. *)
Definition CallFrame (evm : EVM) (st : StateTransition) (statedb : StateDB)
    (from to : Address) (data : list byte) (gasLimit : Z)
  : ExecutionResult * StateTransition * StateDB * list CallEnter :=
  let r := evm statedb from to data gasLimit in
  let usedGas := sub64 gasLimit (evm_gasRemaining r) in
  ({| ReturnData := evm_ret r; UsedGas := usedGas; ResErr := evm_err r; RefundedGas := 0 |},
   {| initialGas := initialGas st; gasRemaining := sub64 (gasRemaining st) usedGas |},
   evm_state r,
   evm_entered r).

(** *** The EntryPoint callback interceptor *)

(** [EntryPointCall]: the captured callback.  [epc_Input] is [None] for a
    nil slice.  The chained hook [OnEnterSuper] only observes and is left
    out. *)
Record EntryPointCall := {
  epc_Input : option (list byte);
  epc_From : Address;
  epc_err : option error
}.

(** [&EntryPointCall{}], and the buffer after the three clearing
    assignments that follow the account frame. *)
Definition newEntryPointCall : EntryPointCall :=
  {| epc_Input := None; epc_From := zeroAddress; epc_err := None |}.

Definition clearEntryPointCall (epc : EntryPointCall) : EntryPointCall :=
  let epc := {| epc_Input := epc_Input epc; epc_From := epc_From epc; epc_err := None |} in
  let epc := {| epc_Input := None; epc_From := epc_From epc; epc_err := epc_err epc |} in
  {| epc_Input := epc_Input epc; epc_From := zeroAddress; epc_err := epc_err epc |}.

Definition OnEnter (epc : EntryPointCall) (c : CallEnter) : EntryPointCall :=
  let isRip7560EntryPoint := ce_to c =? AA_ENTRY_POINT in
  if negb isRip7560EntryPoint then epc
  else match epc_Input epc with
       | Some _ =>
           {| epc_Input := epc_Input epc; epc_From := epc_From epc;
              epc_err := Some (Base (Msg "illegal repeated call to the EntryPoint callback")) |}
       | None =>
           {| epc_Input := Some (ce_input c); epc_From := ce_from c; epc_err := epc_err epc |}
       end.

(** The hook applied to the call entries of a frame, in order. *)
Definition traceFrame (epc : EntryPointCall) (entered : list CallEnter) : EntryPointCall :=
  fold_left OnEnter entered epc.

(** A frame of the validation phase: [CallFrame] with the interceptor
    installed as the tracer's [OnEnter]. *)
Definition CallFrameTraced (evm : EVM) (st : StateTransition) (statedb : StateDB)
    (epc : EntryPointCall) (from to : Address) (data : list byte) (gasLimit : Z)
  : ExecutionResult * StateTransition * StateDB * EntryPointCall :=
  let '(res, st, statedb, entered) := CallFrame evm st statedb from to data gasLimit in
  (res, st, statedb, traceFrame epc entered).

(** *** Validity time range *)

Definition validateValidityTimeRange (time validAfter validUntil : Z) : option error :=
  if (validUntil =? 0) && (validAfter =? 0) then None
  else if validUntil <? validAfter then
    Some (Base (Msg "RIP-7560 transaction validity range invalid"))
  else if validUntil <? time then
    Some (Base (Msg "RIP-7560 transaction validity expired"))
  else if time <? validAfter then
    Some (Base (Msg "RIP-7560 transaction validity not reached yet"))
  else None.

(** *** Refund cap *)

Definition capRefund (getRefund gasUsed : Z) : Z :=
  let refund := gasUsed / Params.RefundQuotientEIP3529 in
  if getRefund <? refund then getRefund else refund.

(** *** The nonce-manager message ([rip7712_nonce.go]) *)

(** [slices.Concat] of the sender, the padded key and the padded
    [big.NewInt(int64(tx.Nonce))]; a nil key is a nil dereference. *)
Definition prepareNonceManagerMessage (tx : Rip7560AccountAbstractionTx) : outcome (list byte) :=
  match NonceKey tx with
  | None => Panicked "invalid memory address or nil pointer dereference"
  | Some nonceKey =>
      Ok (AddressBytes (Sender tx)
          ++ PaddedBigBytes nonceKey 24
          ++ PaddedBigBytes (int64_of_uint64 (Nonce tx)) 8)
  end.

(** *** ABI data and the interfaces the processor relies on *)

Record AcceptAccountData := {
  aad_ValidAfter : Z;
  aad_ValidUntil : Z
}.

Record AcceptPaymasterData := {
  apd_ValidAfter : Z;
  apd_ValidUntil : Z;
  apd_Context : list byte
}.

(** [big.Int.Uint64]: the low 64 bits of the absolute value. *)
Definition BigUint64 (x : Z) : Z := wrap64 (Z.abs x).

(** A value handed to the ABI packer: a [*big.Int] or a byte string. *)
Inductive AbiValue :=
| AbiBigInt (z : option Z)
| AbiBytes (b : list byte).

(** The ABI library ([accounts/abi]), the signer and the transaction hash:
    external collaborators, used through their interface. *)
Class AbiCodec := {
  MethodById : list byte -> outcome string;
  UnpackAcceptAccount : string -> list byte -> outcome AcceptAccountData;
  UnpackAcceptPaymaster : string -> list byte -> outcome AcceptPaymasterData;
  PackValidateTransaction : Rip7560AccountAbstractionTx -> Hash -> outcome (list byte);
  PackValidatePaymasterTransaction : Rip7560AccountAbstractionTx -> Hash -> outcome (list byte);
  PackPostPaymasterTransaction : bool -> Z -> list byte -> outcome (list byte);
  EventID : string -> Hash;
  PackNonIndexed : string -> list AbiValue -> outcome (list byte);
  SignerHash : Rip7560AccountAbstractionTx -> Hash;
  TxHash : Rip7560AccountAbstractionTx -> Hash
}.

(** The chain configuration and the [vm.Config] flags the processor reads. *)
Record ChainConfig := {
  IsLondon : Z -> bool;
  IsRIP7712 : Z -> bool
}.

Record Header := {
  BaseFee : option Z;
  Number : Z;
  Time : Z
}.

Record VmConfig := {
  NoBaseFee : bool
}.

(** *** The processor's state and its monad *)

(** What the phases read and write: the state database, the block gas
    pool, the state transition's gas counters and the interceptor. *)
Record Machine := {
  m_statedb : StateDB;
  m_gp : GasPool;
  m_st : StateTransition;
  m_epc : EntryPointCall
}.

Definition V (A : Type) : Type := Machine -> outcome A * Machine.

#[global] Instance V_ret : MRet V := fun A a m => (Ok a, m).
#[global] Instance V_bind : MBind V := fun A B f x m =>
  match x m with
  | (Ok a, m') => f a m'
  | (Err e, m') => (Err e, m')
  | (Panicked p, m') => (Panicked p, m')
  end.

Definition throw {A} (e : error) : V A := fun m => (Err e, m).
Definition panic {A} (msg : string) : V A := fun m => (Panicked msg, m).
Definition pure {A} (x : outcome A) : V A := fun m => (x, m).
Definition getStatedb : V StateDB := fun m => (Ok (m_statedb m), m).
Definition getSt : V StateTransition := fun m => (Ok (m_st m), m).
Definition getEpc : V EntryPointCall := fun m => (Ok (m_epc m), m).

Definition setStatedb (s : StateDB) : V unit := fun m =>
  (Ok tt, {| m_statedb := s; m_gp := m_gp m; m_st := m_st m; m_epc := m_epc m |}).
Definition setGp (g : GasPool) : V unit := fun m =>
  (Ok tt, {| m_statedb := m_statedb m; m_gp := g; m_st := m_st m; m_epc := m_epc m |}).
Definition setSt (t : StateTransition) : V unit := fun m =>
  (Ok tt, {| m_statedb := m_statedb m; m_gp := m_gp m; m_st := t; m_epc := m_epc m |}).
Definition setEpc (e : EntryPointCall) : V unit := fun m =>
  (Ok tt, {| m_statedb := m_statedb m; m_gp := m_gp m; m_st := m_st m; m_epc := e |}).

(** [if err != nil { return nil, wrap(err) }] *)
Definition orReturn (wrap : error -> error) (e : option error) : V unit :=
  match e with
  | Some e => throw (wrap e)
  | None => mret tt
  end.

(** [v, err := f(); if err != nil { return nil, wrap(err) }] for a pure [f]. *)
Definition attempt {A} (wrap : error -> error) (x : outcome A) : V A :=
  match x with
  | Ok a => mret a
  | Err e => throw (wrap e)
  | Panicked p => panic p
  end.

(** [gp.AddGas] on the machine's pool. *)
Definition addGas (amount : Z) : V GasPool := fun m => (AddGas (m_gp m) amount, m).

(** [CallFrame] during validation, where the interceptor is the tracer. *)
Definition callFrameTraced (evm : EVM) (from to : Address) (data : list byte)
    (gasLimit : Z) : V ExecutionResult := fun m =>
  let '(res, st', statedb', epc') :=
    CallFrameTraced evm (m_st m) (m_statedb m) (m_epc m) from to data gasLimit in
  (Ok res, {| m_statedb := statedb'; m_gp := m_gp m; m_st := st'; m_epc := epc' |}).

(** [CallFrame] during execution, where the tracer is the caller's own. *)
Definition callFrame (evm : EVM) (from to : Address) (data : list byte)
    (gasLimit : Z) : V ExecutionResult := fun m =>
  let '(res, st', statedb', _) :=
    CallFrame evm (m_st m) (m_statedb m) from to data gasLimit in
  (Ok res, {| m_statedb := statedb'; m_gp := m_gp m; m_st := st'; m_epc := m_epc m |}).

Section Processor.

Context {abi : AbiCodec}.
Variable Rip7560TxGas : Z.
Variable chainConfig : ChainConfig.

(** *** Decoding the callbacks ([rip7560_abi.go]) *)

Definition decodeMethodParamsToInterface {A} (unpack : string -> list byte -> outcome A)
    (methodName : string) (input : list byte) : outcome A :=
  match MethodById input with
  | Ok m =>
      if negb (String.eqb methodName m) then
        Err (Base (Msg ("unable to decode " ++ methodName ++ ": got wrong method " ++ m)))
      else
        match unpack m (drop 4 input) with
        | Ok params => Ok params
        | Err _ => Err (Base (Msg ("unable to decode " ++ methodName)))
        | Panicked p => Panicked p
        end
  | Err _ => Err (Base (Msg ("unable to decode " ++ methodName)))
  | Panicked p => Panicked p
  end.

Definition isErr {A} (x : outcome A) : bool :=
  match x with Err _ => true | _ => false end.

Definition abiDecodeAcceptAccount (input : list byte) (allowSigFail : bool)
  : outcome AcceptAccountData :=
  let r := decodeMethodParamsToInterface UnpackAcceptAccount "acceptAccount" input in
  let r := if isErr r && allowSigFail
           then decodeMethodParamsToInterface UnpackAcceptAccount "sigFailAccount" input
           else r in
  r.

Definition abiDecodeAcceptPaymaster (input : list byte) (allowSigFail : bool)
  : outcome AcceptPaymasterData :=
  let r := decodeMethodParamsToInterface UnpackAcceptPaymaster "acceptPaymaster" input in
  let r := if isErr r && allowSigFail
           then decodeMethodParamsToInterface UnpackAcceptPaymaster "sigFailPaymaster" input
           else r in
  acceptPaymasterData ← r;
  if PaymasterMaxContextSize <? Z.of_nat (length (apd_Context acceptPaymasterData))
  then Err (Base (Msg "paymaster return data: context too large"))
  else Ok acceptPaymasterData.

Definition validateAccountEntryPointCall (epc : EntryPointCall) (sender : Address)
  : outcome AcceptAccountData :=
  match epc_err epc with
  | Some e => Err e
  | None =>
      match epc_Input epc with
      | None =>
          Err (Base (Msg "account validation did not call the EntryPoint 'acceptAccount' callback"))
      | Some input =>
          if negb (epc_From epc =? sender) then
            Err (Base (Msg "invalid call to EntryPoint contract from a wrong account address"))
          else abiDecodeAcceptAccount input false
      end
  end.

Definition validatePaymasterEntryPointCall (epc : EntryPointCall) (paymaster : Address)
  : outcome AcceptPaymasterData :=
  match epc_err epc with
  | Some e => Err e
  | None =>
      match epc_Input epc with
      | None =>
          Err (Base (Msg "paymaster validation did not call the EntryPoint 'acceptPaymaster' callback"))
      | Some input =>
          if negb (epc_From epc =? paymaster) then
            Err (Base (Msg "invalid call to EntryPoint contract from a wrong paymaster address"))
          else abiDecodeAcceptPaymaster input false
      end
  end.

(** *** Static checks *)

Definition isSome {A} (o : option A) : bool :=
  match o with Some _ => true | None => false end.

Definition performStaticValidation (aatx : Rip7560AccountAbstractionTx) (statedb : StateDB)
  : option error :=
  let hasPaymaster := isSome (Paymaster aatx) in
  let hasPaymasterData := negb (Nat.eqb (length (PaymasterData aatx)) 0) in
  let hasPaymasterGasLimit := negb (PaymasterValidationGasLimit aatx =? 0) in
  let hasDeployer := isSome (Deployer aatx) in
  let hasDeployerData := negb (Nat.eqb (length (DeployerData aatx)) 0) in
  let hasCodeSender := negb (GetCodeSize statedb (Sender aatx) =? 0) in
  if negb hasDeployer && hasDeployerData then
    Some (wrapError (Base (Msg "deployer data of size %d is provided but deployer address is not set")))
  else if negb hasPaymaster && (hasPaymasterData || hasPaymasterGasLimit) then
    Some (wrapError (Base (Msg "paymaster data of size %d (or a gas limit: %d) is provided but paymaster address is not set")))
  else
    let paymasterCheck :=
      match Paymaster aatx with
      | Some paymaster =>
          if negb hasPaymasterGasLimit then
            Some (wrapError (Base (Msg "paymaster address  %s is provided but 'paymasterVerificationGasLimit' is zero")))
          else if negb (negb (GetCodeSize statedb paymaster =? 0)) then
            Some (wrapError (Base (Msg "paymaster address %s is provided but contract has no code deployed")))
          else None
      | None => None
      end in
    match paymasterCheck with
    | Some e => Some e
    | None =>
        let deployerCheck :=
          match Deployer aatx with
          | Some deployer =>
              if negb (negb (GetCodeSize statedb deployer =? 0)) then
                Some (wrapError (Base (Msg "deployer address %s is provided but contract has no code deployed")))
              else if hasCodeSender then
                Some (wrapError (Base (Msg "sender address %s and deployer address %s are provided but sender is already deployed")))
              else None
          | None => None
          end in
        match deployerCheck with
        | Some e => Some e
        | None =>
            let preTransactionGasCost := dropErr (PreTransactionGasCost Rip7560TxGas aatx) in
            if ValidationGasLimit aatx <? preTransactionGasCost then
              Some (wrapError (Base (Msg "insufficient ValidationGasLimit(%d) to cover PreTransactionGasCost(%d)")))
            else if negb hasDeployer && negb hasCodeSender then
              Some (wrapError (Base (Msg "account is not deployed and no deployer is specified, account:%s")))
            else None
        end
    end.

(** *** The gas ledger *)

(** [BuyGasRip7560Transaction], with the state and the pool it leaves
    behind, also when it returns an error. *)
Definition BuyGasRip7560Transaction (tx : Rip7560AccountAbstractionTx) (state : StateDB)
    (gasPrice : Z) (gp : GasPool) : outcome (Z * Z) * StateDB * GasPool :=
  match TotalGasLimit Rip7560TxGas tx with
  | Err e => (Err e, state, gp)
  | Panicked p => (Panicked p, state, gp)
  | Ok gasLimit =>
      let preCharge := wrap256 gasLimit in
      let preCharge := mul256 preCharge gasPrice in
      let chargeFrom := GasPayer tx in
      if GetBalance state chargeFrom <? preCharge then
        (Err (Base (Wrapped ErrInsufficientFunds)), state, gp)
      else
        let state := SubBalance state chargeFrom preCharge in
        match SubGas gp gasLimit with
        | Err e =>
            (Err (newValidationPhaseError (Some e) [] (Some "block gas limit"%string) false),
             state, gp)
        | Panicked p => (Panicked p, state, gp)
        | Ok gp' => (Ok (gasLimit, preCharge), state, gp')
        end
  end.

Definition buyGas (tx : Rip7560AccountAbstractionTx) (gasPrice : Z) : V (Z * Z) := fun m =>
  let '(r, state, pool) := BuyGasRip7560Transaction tx (m_statedb m) gasPrice (m_gp m) in
  (r, {| m_statedb := state; m_gp := pool; m_st := m_st m; m_epc := m_epc m |}).

(** The part of [ValidationPhaseResult] that the execution phase reads. *)
Record ValidationPhaseResult := {
  vpr_Tx : Rip7560AccountAbstractionTx;
  vpr_TxHash : Hash;
  PaymasterContext : list byte;
  PreCharge : Z;
  EffectiveGasPriceU256 : Z;
  vpr_PreTransactionGasCost : Z;
  ValidationRefund : Z;
  NonceManagerUsedGas : Z;
  DeploymentUsedGas : Z;
  ValidationUsedGas : Z;
  PmValidationUsedGas : Z;
  SenderValidAfter : Z;
  SenderValidUntil : Z;
  PmValidAfter : Z;
  PmValidUntil : Z;
  vpr_TxIndex : Z
}.

Definition validationPhaseUsedGas (vpr : ValidationPhaseResult) : outcome Z :=
  SumGas [ vpr_PreTransactionGasCost vpr; NonceManagerUsedGas vpr;
           DeploymentUsedGas vpr; ValidationUsedGas vpr; PmValidationUsedGas vpr ].

(** The amount [refundPayer] adds to the payer's balance. *)
Definition payerRefund (vpr : ValidationPhaseResult) (gasUsed : Z) : Z :=
  let actualGasCost := mul256 (EffectiveGasPriceU256 vpr) (wrap256 gasUsed) in
  sub256 (PreCharge vpr) actualGasCost.

Definition refundPayer (vpr : ValidationPhaseResult) (state : StateDB) (gasUsed : Z) : StateDB :=
  let chargeFrom := GasPayer (vpr_Tx vpr) in
  AddBalance state chargeFrom (payerRefund vpr gasUsed).

(** *** The nonce *)

Definition performNonceCheckFrameRip7712 (evm : EVM) (blockNumber : Z)
    (tx : Rip7560AccountAbstractionTx) : V Z :=
  if negb (IsRIP7712 chainConfig blockNumber) then
    throw (wrapError (Base (Msg "RIP-7712 nonce is disabled")))
  else
    nonceManagerMessageData ← pure (prepareNonceManagerMessage tx);
    st ← getSt;
    resultNonceManager ← callFrameTraced evm AA_ENTRY_POINT AA_NONCE_MANAGER
                            nonceManagerMessageData (gasRemaining st);
    match ResErr resultNonceManager with
    | Some e =>
        throw (newValidationPhaseError
                 (Some (Base (MsgVM "RIP-7712 nonce validation failed" e)))
                 (ReturnData resultNonceManager) (Some "NonceManager"%string) true)
    | None => mret (UsedGas resultNonceManager)
    end.

Definition CheckNonceRip7560 (evm : EVM) (blockNumber : Z)
    (tx : Rip7560AccountAbstractionTx) : V Z :=
  if IsRip7712Nonce tx then performNonceCheckFrameRip7712 evm blockNumber tx
  else
    statedb ← getStatedb;
    let stNonce := GetNonce statedb (Sender tx) in
    let msgNonce := Nonce tx in
    if stNonce <? msgNonce then throw (Base (Wrapped ErrNonceTooHigh))
    else if msgNonce <? stNonce then throw (Base (Wrapped ErrNonceTooLow))
    else if add64 stNonce 1 <? stNonce then throw (Base (Wrapped ErrNonceMax))
    else mret 0.

(** *** The paymaster validation frame *)

Definition preparePaymasterValidationMessage (tx : Rip7560AccountAbstractionTx)
    (signingHash : Hash) : outcome (option (list byte)) :=
  match Paymaster tx with
  | None => Ok None
  | Some p =>
      if p =? zeroAddress then Ok None
      else msg ← PackValidatePaymasterTransaction tx signingHash; Ok (Some msg)
  end.

Definition applyPaymasterValidationFrame (evm : EVM) (aatx : Rip7560AccountAbstractionTx)
    (signingHash : Hash) (header : Header) : V (list byte * Z * Z * Z) :=
  paymasterMsg ← attempt wrapError (preparePaymasterValidationMessage aatx signingHash);
  match paymasterMsg, Paymaster aatx with
  | None, _ => mret ([], 0, 0, 0)
  | Some _, None => panic "invalid memory address or nil pointer dereference"
  | Some paymasterMsg, Some paymaster =>
      resultPm ← callFrameTraced evm AA_ENTRY_POINT paymaster paymasterMsg
                   (PaymasterValidationGasLimit aatx);
      match ResErr resultPm with
      | Some e =>
          throw (newValidationPhaseError (Some (Base (VM e))) (ReturnData resultPm)
                   (Some "paymaster"%string) true)
      | None =>
          let pmValidationUsedGas := UsedGas resultPm in
          epc ← getEpc;
          apd ← attempt wrapError (validatePaymasterEntryPointCall epc paymaster);
          _ ← orReturn wrapError
                (validateValidityTimeRange (Time header)
                   (BigUint64 (apd_ValidAfter apd)) (BigUint64 (apd_ValidUntil apd)));
          if (0 <? Z.of_nat (length (apd_Context apd))) && (PostOpGas aatx =? 0) then
            throw (wrapError (Base (Msg "paymaster returned a context of size %d but the paymasterPostOpGasLimit is 0")))
          else
            mret (apd_Context apd, pmValidationUsedGas,
                  BigUint64 (apd_ValidAfter apd), BigUint64 (apd_ValidUntil apd))
      end
  end.

(** *** The validation phases *)

(** [uint256.MustFromBig] *)
Definition MustFromBig (b : Z) : outcome Z :=
  let '(z, overflow) := FromBig b in
  if overflow then Panicked "overflow" else Ok z.

(** An action whose error the caller wraps before returning it. *)
Definition wrapping {A} (wrap : error -> error) (act : V A) : V A := fun m =>
  match act m with
  | (Err e, m') => (Err (wrap e), m')
  | r => r
  end.

Definition prepareAccountValidationMessage (tx : Rip7560AccountAbstractionTx)
    (signingHash : Hash) : outcome (list byte) :=
  PackValidateTransaction tx signingHash.

(** The deployer frame, or the nonce increment that takes its place. *)
Definition deployerFrame (evm : EVM) (aatx : Rip7560AccountAbstractionTx)
    (preTransactionGasCost : Z) : V Z :=
  let sender := Sender aatx in
  match Deployer aatx with
  | Some deployer =>
      let deployerGasLimit := sub64 (ValidationGasLimit aatx) preTransactionGasCost in
      resultDeployer ← callFrameTraced evm AA_SENDER_CREATOR deployer (DeployerData aatx)
                         deployerGasLimit;
      match ResErr resultDeployer with
      | Some e =>
          throw (newValidationPhaseError (Some (Base (VM e))) (ReturnData resultDeployer)
                   (Some "deployer"%string) true)
      | None =>
          statedb ← getStatedb;
          if GetCodeSize statedb sender =? 0 then
            throw (wrapError (Base (Msg "sender not deployed by the deployer, sender:%s deployer:%s")))
          else mret (UsedGas resultDeployer)
      end
  | None =>
      if negb (IsRip7712Nonce aatx) then
        statedb ← getStatedb;
        _ ← setStatedb (SetNonce statedb sender (add64 (GetNonce statedb sender) 1));
        mret 0
      else mret 0
  end.

Definition ApplyRip7560ValidationPhases (evm : EVM) (header : Header)
    (tx : Rip7560AccountAbstractionTx) : V ValidationPhaseResult :=
  let aatx := tx in
  statedb ← getStatedb;
  _ ← orReturn wrapError (performStaticValidation aatx statedb);
  let gasPrice := EffectiveGasPrice aatx (BaseFee header) in
  effectiveGasPrice ← pure (MustFromBig gasPrice);
  '(gasLimit, preCharge) ← wrapping wrapError (buyGas aatx effectiveGasPrice);
  let sender := Sender aatx in
  (* statedb.Prepare warms the access list; it leaves the fields above alone *)
  _ ← setEpc newEntryPointCall;
  _ ← setSt {| initialGas := gasLimit; gasRemaining := gasLimit |};
  preTransactionGasCost ← pure (PreTransactionGasCost Rip7560TxGas aatx);
  (*** Nonce Manager Frame ***)
  nonceManagerUsedGas ← CheckNonceRip7560 evm (Number header) aatx;
  (*** Deployer Frame ***)
  deploymentUsedGas ← deployerFrame evm aatx preTransactionGasCost;
  (*** Account Validation Frame ***)
  let signingHash := SignerHash tx in
  accountValidationMsg ← attempt wrapError (prepareAccountValidationMessage aatx signingHash);
  let accountGasLimit :=
    sub64 (sub64 (ValidationGasLimit aatx) preTransactionGasCost) deploymentUsedGas in
  resultAccountValidation ← callFrameTraced evm AA_ENTRY_POINT sender accountValidationMsg
                              accountGasLimit;
  match ResErr resultAccountValidation with
  | Some e =>
      throw (newValidationPhaseError (Some (Base (VM e))) (ReturnData resultAccountValidation)
               (Some "account"%string) true)
  | None =>
      epc ← getEpc;
      aad ← attempt wrapError (validateAccountEntryPointCall epc sender);
      (* clear the EntryPoint calls array after parsing *)
      _ ← setEpc (clearEntryPointCall epc);
      _ ← orReturn wrapError
            (validateValidityTimeRange (Time header)
               (BigUint64 (aad_ValidAfter aad)) (BigUint64 (aad_ValidUntil aad)));
      '(paymasterContext, pmValidationUsedGas, pmValidAfter, pmValidUntil) ←
        applyPaymasterValidationFrame evm aatx signingHash header;
      statedb ← getStatedb;
      let gasRefund := GetRefund statedb in
      let vpr := {|
        vpr_Tx := tx;
        vpr_TxHash := TxHash tx;
        PaymasterContext := paymasterContext;
        PreCharge := preCharge;
        EffectiveGasPriceU256 := effectiveGasPrice;
        vpr_PreTransactionGasCost := preTransactionGasCost;
        ValidationRefund := gasRefund;
        NonceManagerUsedGas := nonceManagerUsedGas;
        DeploymentUsedGas := deploymentUsedGas;
        ValidationUsedGas := UsedGas resultAccountValidation;
        PmValidationUsedGas := pmValidationUsedGas;
        SenderValidAfter := BigUint64 (aad_ValidAfter aad);
        SenderValidUntil := BigUint64 (aad_ValidUntil aad);
        PmValidAfter := pmValidAfter;
        PmValidUntil := pmValidUntil;
        vpr_TxIndex := 0
      |} in
      _ ← setStatedb (Finalise statedb);
      mret vpr
  end.

(** *** Events ([rip7560_abi.go]) *)

Definition abiEncodeRIP7560TransactionEvent (aatx : Rip7560AccountAbstractionTx)
    (executionStatus : Z) : outcome (list Hash * list byte) :=
  let id := EventID "RIP7560TransactionEvent" in
  let paymaster := default zeroAddress (Paymaster aatx) in
  data ← PackNonIndexed "RIP7560TransactionEvent"
           [ AbiBigInt (NonceKey aatx);
             AbiBigInt (Some (int64_of_uint64 (Nonce aatx)));
             AbiBigInt (Some (int64_of_uint64 executionStatus)) ];
  Ok ([id; Sender aatx; paymaster], data).

Definition abiEncodeRIP7560AccountDeployedEvent (aatx : Rip7560AccountAbstractionTx)
  : outcome (list Hash * list byte) :=
  let id := EventID "RIP7560AccountDeployed" in
  let paymaster := default zeroAddress (Paymaster aatx) in
  let deployer := default zeroAddress (Deployer aatx) in
  Ok ([id; Sender aatx; paymaster; deployer], []).

Definition abiEncodeRIP7560TransactionRevertReasonEvent (aatx : Rip7560AccountAbstractionTx)
    (revertData : list byte) : outcome (list Hash * list byte) :=
  let id := EventID "RIP7560TransactionRevertReason" in
  data ← PackNonIndexed "RIP7560TransactionRevertReason"
           [ AbiBigInt (NonceKey aatx);
             AbiBigInt (Some (int64_of_uint64 (Nonce aatx)));
             AbiBytes revertData ];
  Ok ([id; Sender aatx], data).

Definition abiEncodeRIP7560TransactionPostOpRevertReasonEvent
    (aatx : Rip7560AccountAbstractionTx) (revertData : list byte)
  : outcome (list Hash * list byte) :=
  let id := EventID "RIP7560TransactionPostOpRevertReason" in
  let paymaster := default zeroAddress (Paymaster aatx) in
  data ← PackNonIndexed "RIP7560TransactionPostOpRevertReason"
           [ AbiBigInt (NonceKey aatx);
             AbiBigInt (Some (int64_of_uint64 (Nonce aatx)));
             AbiBytes revertData ];
  Ok ([id; Sender aatx; paymaster], data).

Definition injectEvent (topics : list Hash) (data : list byte) (blockNumber : Z) : V unit :=
  statedb ← getStatedb;
  setStatedb (AddLog statedb {| log_Address := AA_ENTRY_POINT; log_Topics := topics;
                                log_Data := data; log_BlockNumber := blockNumber;
                                log_TxHash := 0 |}).

Definition injectRIP7560TransactionEvent (aatx : Rip7560AccountAbstractionTx)
    (executionStatus : Z) (header : Header) : V unit :=
  '(topics, data) ← pure (abiEncodeRIP7560TransactionEvent aatx executionStatus);
  injectEvent topics data (BigUint64 (Number header)).

Definition injectRIP7560AccountDeployedEvent (aatx : Rip7560AccountAbstractionTx)
    (header : Header) : V unit :=
  '(topics, data) ← pure (abiEncodeRIP7560AccountDeployedEvent aatx);
  injectEvent topics data (BigUint64 (Number header)).

Definition injectRIP7560TransactionRevertReasonEvent (aatx : Rip7560AccountAbstractionTx)
    (revertData : list byte) (header : Header) : V unit :=
  '(topics, data) ← pure (abiEncodeRIP7560TransactionRevertReasonEvent aatx revertData);
  injectEvent topics data (BigUint64 (Number header)).

Definition injectRIP7560TransactionPostOpRevertReasonEvent
    (aatx : Rip7560AccountAbstractionTx) (revertData : list byte) (header : Header) : V unit :=
  '(topics, data) ← pure (abiEncodeRIP7560TransactionPostOpRevertReasonEvent aatx revertData);
  injectEvent topics data (BigUint64 (Number header)).

(** *** Paying the coinbase *)

(** [math.BigMin] *)
Definition BigMin (x y : Z) : Z := if y <? x then y else x.

(** The fee [payCoinbase] credits, [None] when the payment is skipped. *)
Definition coinbaseFee (cfg : VmConfig) (header : Header)
    (msg : Rip7560AccountAbstractionTx) (gasUsed : Z) : outcome (option Z) :=
  effectiveTip ←
    (if IsLondon chainConfig (Number header) then
       match BaseFee header with
       | Some baseFee => Ok (BigMin (GasTipCap msg) (GasFeeCap msg - baseFee))
       | None => Panicked "invalid memory address or nil pointer dereference"
       end
     else Ok (GasTipCap msg));
  let effectiveTipU256 := fst (FromBig effectiveTip) in
  if NoBaseFee cfg && (GasFeeCap msg =? 0) && (GasTipCap msg =? 0) then Ok None
  else
    let fee := wrap256 gasUsed in
    let fee := mul256 fee effectiveTipU256 in
    Ok (Some fee).

Definition payCoinbase (cfg : VmConfig) (header : Header) (coinbase : Address)
    (msg : Rip7560AccountAbstractionTx) (gasUsed : Z) : V unit :=
  fee ← pure (coinbaseFee cfg header msg gasUsed);
  match fee with
  | None => mret tt
  | Some fee =>
      statedb ← getStatedb;
      setStatedb (AddBalance statedb coinbase fee)
  end.

(** *** The execution phase *)

Record Receipt := {
  rcpt_Type : Z;
  rcpt_TxHash : Hash;
  rcpt_GasUsed : Z;
  rcpt_CumulativeGasUsed : Z;
  rcpt_Status : Z;
  rcpt_Logs : list Log;
  rcpt_TransactionIndex : Z
}.

Definition abiEncodePostPaymasterTransaction (success : bool) (actualGasCost : Z)
    (context : list byte) : outcome (list byte) :=
  match PackPostPaymasterTransaction success (int64_of_uint64 actualGasCost) context with
  | Ok postOpData => Ok postOpData
  | _ => Panicked "unable to encode postPaymasterTransaction"
  end.

Definition preparePostOpMessage (vpr : ValidationPhaseResult) (success : bool)
    (gasUsed : Z) : outcome (list byte) :=
  abiEncodePostPaymasterTransaction success gasUsed (PaymasterContext vpr).

Definition applyPaymasterPostOpFrame (evm : EVM) (aatx : Rip7560AccountAbstractionTx)
    (vpr : ValidationPhaseResult) (success : bool) (gasUsed : Z) : V ExecutionResult :=
  paymasterPostOpMsg ← pure (preparePostOpMessage vpr success gasUsed);
  match Paymaster aatx with
  | None => panic "invalid memory address or nil pointer dereference"
  | Some paymaster =>
      callFrame evm AA_ENTRY_POINT paymaster paymasterPostOpMsg (PostOpGas aatx)
  end.

(** The values the post-op block of [ApplyRip7560ExecutionPhase] leaves in
    the function's local variables. *)
Record PostOpLocals := {
  paymasterPostOpResult : option ExecutionResult;
  po_gasUsed : Z;
  po_gasRefund : Z;
  po_receiptStatus : Z;
  po_executionStatus : Z
}.

Definition postOpBlock (evm : EVM) (aatx : Rip7560AccountAbstractionTx)
    (vpr : ValidationPhaseResult) (beforeExecSnapshotId : StateDB)
    (executionResult : ExecutionResult)
    (gasUsed gasRefund receiptStatus executionStatus : Z) : V PostOpLocals :=
  if negb (Nat.eqb (length (PaymasterContext vpr)) 0) then
    paymasterPostOpResult ← applyPaymasterPostOpFrame evm aatx vpr
                              (negb (Failed executionResult)) (sub64 gasUsed gasRefund);
    let postOpGasUsed := UsedGas paymasterPostOpResult in
    let gasRefund :=
      add64 gasRefund (capRefund (RefundedGas paymasterPostOpResult) postOpGasUsed) in
    (* PostOp failed, reverting execution changes *)
    '(receiptStatus, executionStatus) ←
      (if Failed paymasterPostOpResult then
         statedb ← getStatedb;
         _ ← setStatedb (RevertToSnapshot statedb beforeExecSnapshotId);
         let receiptStatus := ReceiptStatusFailed in
         let executionStatus :=
           if executionStatus =? ExecutionStatusExecutionFailure
           then ExecutionStatusExecutionAndPostOpFailure
           else executionStatus in
         let executionStatus := ExecutionStatusPostOpFailure in
         mret (receiptStatus, executionStatus)
       else mret (receiptStatus, executionStatus));
    let postOpGasPenalty :=
      mul64 (sub64 (PostOpGas aatx) postOpGasUsed) AA_GAS_PENALTY_PCT / 100 in
    let postOpGasUsed := add64 postOpGasUsed postOpGasPenalty in
    let gasUsed := add64 gasUsed postOpGasUsed in
    mret {| paymasterPostOpResult := Some paymasterPostOpResult; po_gasUsed := gasUsed;
            po_gasRefund := gasRefund; po_receiptStatus := receiptStatus;
            po_executionStatus := executionStatus |}
  else
    mret {| paymasterPostOpResult := None; po_gasUsed := gasUsed;
            po_gasRefund := gasRefund; po_receiptStatus := receiptStatus;
            po_executionStatus := executionStatus |}.

(** [ApplyRip7560ExecutionPhase]; [usedGas] is the block's running total,
    returned next to the receipt. *)
Definition ApplyRip7560ExecutionPhase (evm : EVM) (vpr : ValidationPhaseResult)
    (author : Address) (header : Header) (cfg : VmConfig) (usedGas : Z)
  : V (Receipt * Z) :=
  let aatx := vpr_Tx vpr in
  let sender := Sender aatx in
  _ ← setSt {| initialGas := MaxUint64; gasRemaining := MaxUint64 |};
  let accountExecutionMsg := ExecutionData aatx in
  statedb ← getStatedb;
  let beforeExecSnapshotId := Snapshot statedb in
  executionResult ← callFrame evm AA_ENTRY_POINT sender accountExecutionMsg (Gas aatx);
  let receiptStatus := ReceiptStatusSuccessful in
  let executionStatus := ExecutionStatusSuccess in
  statedb ← getStatedb;
  let execRefund := capRefund (GetRefund statedb) (UsedGas executionResult) in
  let receiptStatus :=
    if Failed executionResult then ReceiptStatusFailed else receiptStatus in
  let executionStatus :=
    if Failed executionResult then ExecutionStatusExecutionFailure else executionStatus in
  let executionGasPenalty :=
    mul64 (sub64 (Gas aatx) (UsedGas executionResult)) AA_GAS_PENALTY_PCT / 100 in
  let validationPhaseUsedGas := dropErr (validationPhaseUsedGas vpr) in
  let gasUsed :=
    add64 (add64 validationPhaseUsedGas (UsedGas executionResult)) executionGasPenalty in
  let gasRefund := capRefund (add64 execRefund (ValidationRefund vpr)) gasUsed in
  po ← postOpBlock evm aatx vpr beforeExecSnapshotId executionResult
         gasUsed gasRefund receiptStatus executionStatus;
  let gasUsed := sub64 (po_gasUsed po) (po_gasRefund po) in
  statedb ← getStatedb;
  _ ← setStatedb (refundPayer vpr statedb gasUsed);
  _ ← payCoinbase cfg header author aatx gasUsed;
  (* Also return remaining gas to the block gas counter so it is
     available for the next transaction. *)
  let totalGasLimit := dropErr (TotalGasLimit Rip7560TxGas aatx) in
  if totalGasLimit <? gasUsed then panic "cannot spend more gas than the total limit"
  else
    let gasRemaining := sub64 totalGasLimit gasUsed in
    pool ← addGas gasRemaining;
    _ ← setGp pool;
    _ ← injectRIP7560TransactionEvent aatx (po_executionStatus po) header;
    _ ← (if isSome (Deployer aatx) then injectRIP7560AccountDeployedEvent aatx header
         else mret tt);
    _ ← (if Failed executionResult
         then injectRIP7560TransactionRevertReasonEvent aatx (ReturnData executionResult) header
         else mret tt);
    _ ← (match paymasterPostOpResult po with
         | Some r =>
             if Failed r
             then injectRIP7560TransactionPostOpRevertReasonEvent aatx (ReturnData r) header
             else mret tt
         | None => mret tt
         end);
    let usedGas := add64 usedGas gasUsed in
    statedb ← getStatedb;
    mret ({| rcpt_Type := Rip7560Type; rcpt_TxHash := TxHash (vpr_Tx vpr);
             rcpt_GasUsed := gasUsed; rcpt_CumulativeGasUsed := usedGas;
             rcpt_Status := po_receiptStatus po;
             rcpt_Logs := GetLogs statedb (vpr_TxHash vpr);
             rcpt_TransactionIndex := vpr_TxIndex vpr |}, usedGas).

(** *** The batch driver *)

Inductive Transaction :=
| Rip7560Tx (aatx : Rip7560AccountAbstractionTx)
| OtherTx (txType : Z).

(** [RevertData] is the error's message for a plain error and the revert
    reason for a [*ValidationPhaseError]. *)
Record Rip7560TransactionDebugInfo := {
  di_TxHash : Hash;
  di_RevertEntityName : string;
  di_FrameReverted : bool;
  di_RevertData : BaseError + list byte
}.

Definition debugInfoOf (tx : Rip7560AccountAbstractionTx) (vpe : error)
  : Rip7560TransactionDebugInfo :=
  match vpe with
  | Base b =>
      {| di_TxHash := TxHash tx; di_RevertEntityName := "n/a";
         di_FrameReverted := false; di_RevertData := inl b |}
  | Vpe vpeCast =>
      {| di_TxHash := TxHash tx;
         di_RevertEntityName := default ""%string (revertEntityName vpeCast);
         di_FrameReverted := frameReverted vpeCast;
         di_RevertData := inr (vpe_reason vpeCast) |}
  end.

Record BatchResult := {
  validatedTransactions : list Rip7560AccountAbstractionTx;
  receipts : list Receipt;
  validationFailureInfos : list Rip7560TransactionDebugInfo;
  allLogs : list Log;
  batch_usedGas : Z
}.

(** [r, err := act; if err != nil { ... }]: the caller inspects the error
    instead of returning it. *)
Definition caseResult {A B} (act : V A) (onErr : error -> V B) (onOk : A -> V B)
  : V B := fun m =>
  match act m with
  | (Ok a, m') => onOk a m'
  | (Err e, m') => onErr e m'
  | (Panicked p, m') => (Panicked p, m')
  end.

(** The loop of [handleRip7560Transactions] over [transactions[index:]];
    [i] counts the iterations. *)
Fixpoint handleLoop (evm : EVM) (coinbase : Address) (header : Header) (cfg : VmConfig)
    (skipInvalid : bool) (index : Z) (txs : list Transaction) (i : Z)
    (acc : BatchResult) : V BatchResult :=
  match txs with
  | [] => mret acc
  | OtherTx _ :: _ => mret acc
  | Rip7560Tx tx :: rest =>
      statedb ← getStatedb;
      _ ← setStatedb (SetTxContext statedb (TxHash tx) (index + i));
      statedb ← getStatedb;
      let beforeValidationSnapshotId := Snapshot statedb in
      caseResult (ApplyRip7560ValidationPhases evm header tx)
        (fun vpe =>
           if skipInvalid then
             let debugInfo := debugInfoOf tx vpe in
             let acc' := {| validatedTransactions := validatedTransactions acc;
                            receipts := receipts acc;
                            validationFailureInfos := validationFailureInfos acc ++ [debugInfo];
                            allLogs := allLogs acc;
                            batch_usedGas := batch_usedGas acc |} in
             statedb ← getStatedb;
             _ ← setStatedb (RevertToSnapshot statedb beforeValidationSnapshotId);
             handleLoop evm coinbase header cfg skipInvalid index rest (i + 1) acc'
           else throw vpe)
        (fun vpr =>
           '(receipt, usedGas) ← ApplyRip7560ExecutionPhase evm vpr coinbase header cfg
                                   (batch_usedGas acc);
           statedb ← getStatedb;
           _ ← setStatedb (Finalise statedb);
           let acc' := {| validatedTransactions := validatedTransactions acc ++ [tx];
                          receipts := receipts acc ++ [receipt];
                          validationFailureInfos := validationFailureInfos acc;
                          allLogs := allLogs acc ++ rcpt_Logs receipt;
                          batch_usedGas := usedGas |} in
           handleLoop evm coinbase header cfg skipInvalid index rest (i + 1) acc')
  end.

(** [transactions[index:]] panics for an index outside [0, len]. *)
Definition handleRip7560Transactions (evm : EVM) (transactions : list Transaction)
    (index : Z) (coinbase : Address) (header : Header) (cfg : VmConfig)
    (skipInvalid : bool) (usedGas : Z) : V BatchResult :=
  if (index <? 0) || (Z.of_nat (length transactions) <? index) then
    panic "slice bounds out of range"
  else
    handleLoop evm coinbase header cfg skipInvalid index
      (drop (Z.to_nat index) transactions) 0
      {| validatedTransactions := []; receipts := []; validationFailureInfos := [];
         allLogs := []; batch_usedGas := usedGas |}.

(** The exported entry point: the inner results appended to fresh slices,
    the failure infos passed on, and nothing but the error on failure. *)
Definition HandleRip7560Transactions (evm : EVM) (transactions : list Transaction)
    (index : Z) (coinbase : Address) (header : Header) (cfg : VmConfig)
    (skipInvalid : bool) (usedGas : Z) : V BatchResult :=
  r ← handleRip7560Transactions evm transactions index coinbase header cfg skipInvalid usedGas;
  mret {| validatedTransactions := [] ++ validatedTransactions r;
          receipts := [] ++ receipts r;
          validationFailureInfos := validationFailureInfos r;
          allLogs := [] ++ allLogs r;
          batch_usedGas := batch_usedGas r |}.

End Processor.

End Core.

(** ** The nonce-manager message of the earlier processor

    An earlier revision of [rip7712_nonce.go] builds a whole [Message] for
    the nonce-manager frame and fills the key and the nonce with
    [uint256.Int.WriteToSlice], which writes the low-order bytes of the
    number into the slice, most significant first. *)

Module Legacy.
Import Types Core.

Definition AA_NONCE_MANAGER : Address := 0x63f63e798f5F6A934Acf0a3FD1C01f3Fac851fF0.

Record Message := {
  msg_From : Address;
  msg_To : option Address;
  msg_Value : Z;
  msg_GasLimit : Z;
  msg_GasPrice : Z;
  msg_GasFeeCap : Z;
  msg_GasTipCap : Z;
  msg_Data : list byte;
  msg_AccessList : list AccessTuple;
  msg_SkipAccountChecks : bool;
  msg_IsRip7560Frame : bool
}.

(** [z.WriteToSlice(dest)] for a [dest] of [n <= 32] bytes. *)
Definition WriteToSlice (z : Z) (n : nat) : list byte := be_bytes n z.

Definition prepareNonceManagerMessage (tx : Rip7560AccountAbstractionTx) : outcome Message :=
  match NonceKey tx with
  | None => Panicked "invalid memory address or nil pointer dereference"
  | Some key =>
      let nonceKey256 := fst (FromBig key) in
      let nonce256 := Nonce tx in
      let nonceKey := WriteToSlice nonceKey256 24 in
      let nonce := WriteToSlice nonce256 8 in
      let nonceManagerData := [] in
      let nonceManagerData := nonceManagerData ++ AddressBytes (Sender tx) in
      let nonceManagerData := nonceManagerData ++ nonceKey in
      let nonceManagerData := nonceManagerData ++ nonce in
      Ok {| msg_From := AA_ENTRY_POINT;
            msg_To := Some AA_NONCE_MANAGER;
            msg_Value := 0;
            msg_GasLimit := 100000;
            msg_GasPrice := GasFeeCap tx;
            msg_GasFeeCap := GasFeeCap tx;
            msg_GasTipCap := GasTipCap tx;
            msg_Data := nonceManagerData;
            msg_AccessList := [];
            msg_SkipAccountChecks := true;
            msg_IsRip7560Frame := true |}
  end.

End Legacy.

(** ** The gas estimator (package [gasestimator])

    The two estimators search for the smallest gas limit at which a phase
    runs.  A probe runs the processor on a copy of the state with one gas
    limit replaced; the processor it calls is the one of the estimator's own
    revision and is used through its result.  The error ratio is a
    [float64]: the two tests the code makes on it are fields of [Options].
    The loops are given fuel, and run out of it where the code would go on
    probing. *)

Module GasEstimator.
Import Types Core.

(** [big.Int.Div]: Euclidean division, for a divisor that is not zero. *)
Definition BigDiv (x y : Z) : Z := if y <? 0 then - (x / - y) else x / y.

(** [big.Int.IsUint64] *)
Definition IsUint64 (x : Z) : bool := (0 <=? x) && (x <? 2 ^ 64).

Definition withValidationGasLimit (st : Rip7560AccountAbstractionTx) (gas : Z)
  : Rip7560AccountAbstractionTx :=
  {| ChainID := ChainID st; Nonce := Nonce st; GasTipCap := GasTipCap st;
     GasFeeCap := GasFeeCap st; Gas := Gas st; AccessList := AccessList st;
     Sender := Sender st; AuthorizationData := AuthorizationData st;
     ExecutionData := ExecutionData st; Paymaster := Paymaster st;
     PaymasterData := PaymasterData st; Deployer := Deployer st;
     DeployerData := DeployerData st; BuilderFee := BuilderFee st;
     ValidationGasLimit := gas;
     PaymasterValidationGasLimit := PaymasterValidationGasLimit st;
     PostOpGas := PostOpGas st; NonceKey := NonceKey st |}.

Definition withGas (st : Rip7560AccountAbstractionTx) (gas : Z)
  : Rip7560AccountAbstractionTx :=
  {| ChainID := ChainID st; Nonce := Nonce st; GasTipCap := GasTipCap st;
     GasFeeCap := GasFeeCap st; Gas := gas; AccessList := AccessList st;
     Sender := Sender st; AuthorizationData := AuthorizationData st;
     ExecutionData := ExecutionData st; Paymaster := Paymaster st;
     PaymasterData := PaymasterData st; Deployer := Deployer st;
     DeployerData := DeployerData st; BuilderFee := BuilderFee st;
     ValidationGasLimit := ValidationGasLimit st;
     PaymasterValidationGasLimit := PaymasterValidationGasLimit st;
     PostOpGas := PostOpGas st; NonceKey := NonceKey st |}.

(** [Options]; [opt_State] and [opt_ValidationPhaseResult] are pointers and
    may be nil. *)
Record Options := {
  opt_HeaderGasLimit : Z;                       (* opts.Header.GasLimit *)
  opt_State : option StateDB;
  ErrorRatioPositive : bool;                    (* opts.ErrorRatio > 0 *)
  belowErrorRatio : Z -> Z -> bool;             (* float64(hi-lo)/float64(hi) < opts.ErrorRatio *)
  opt_ValidationPhaseResult : option ValidationPhaseResult
}.

(** [ExecutionResult.Revert]: the return data of a reverted call. *)
Definition Revert (r : ExecutionResult) : option (list byte) :=
  match ResErr r with
  | Some ErrExecutionReverted => Some (ReturnData r)
  | _ => None
  end.

Definition isErrOutOfGas (e : option VMError) : bool :=
  match e with Some ErrOutOfGas => true | _ => false end.

(** What [EstimateRip7560Execution] returns: the estimate, or the revert
    data and the error. *)
Inductive Estimate :=
| Estimated (hi : Z)
| Failure (revert : option (list byte)) (err : error + VMError).

Section Estimator.

(** [params.Rip7560TxGas], [params.TxGas] and [params.CallStipend], whose
    declarations are not among the sources. *)
Variable Rip7560TxGas : Z.
Variable TxGas : Z.
Variable CallStipend : Z.

(** The processor as the estimator's revision calls it, on a copy of the
    state: the validation phases return a result and the state they leave,
    the execution phase the results of the execution and post-op frames. *)
Variable applyValidationPhases :
  Rip7560AccountAbstractionTx -> StateDB -> outcome (ValidationPhaseResult * StateDB).
Variable applyExecutionPhase :
  Rip7560AccountAbstractionTx -> ValidationPhaseResult -> StateDB
  -> outcome (ExecutionResult * option ExecutionResult).

(** [errors.Is(err, vm.ErrOutOfGas)] and [errors.Is(err, core.ErrIntrinsicGas)]. *)
Variable errIsOutOfGas : error -> bool.
Variable errIsIntrinsicGas : error -> bool.

Definition executeRip7560Validation (st : Rip7560AccountAbstractionTx) (opts : Options)
    (gasLimit : Z) : outcome (option (ValidationPhaseResult * StateDB)) :=
  let st := withValidationGasLimit st gasLimit in
  match opt_State opts with
  | None => Panicked "invalid memory address or nil pointer dereference"
  | Some state =>
      match applyValidationPhases st state with
      | Err err =>
          if errIsOutOfGas err then Ok None (* Special case, raise gas limit *)
          else Err err (* Bail out *)
      | Panicked p => Panicked p
      | Ok (vpr, dirtyState) => Ok (Some (vpr, dirtyState))
      end
  end.

(** The highest gas limit an estimate may use: the transaction's own limit
    when it reaches [params.TxGas] and the block's otherwise, capped by what
    the payer can fund and by the caller's cap. *)
Definition highestGasLimit (st : Rip7560AccountAbstractionTx) (opts : Options)
    (gasCap gasLimit : Z) : outcome Z :=
  let hi := opt_HeaderGasLimit opts in
  let hi := if TxGas <=? gasLimit then gasLimit else hi in
  let feeCap := GasFeeCap st in
  hi ← (if negb (BitLen feeCap =? 0) then
          let payment := match Paymaster st with
                         | None => Sender st
                         | Some paymaster => paymaster
                         end in
          match opt_State opts with
          | None => Panicked "invalid memory address or nil pointer dereference"
          | Some state =>
              let balance := GetBalance state payment in
              let allowance := BigDiv balance feeCap in
              if IsUint64 allowance && (BigUint64 allowance <? hi)
              then Ok (BigUint64 allowance)
              else Ok hi
          end
        else Ok hi);
  Ok (if negb (gasCap =? 0) && (gasCap <? hi) then gasCap else hi).

(** The binary search of [EstimateRip7560Validation]; [last] is the result
    of the latest probe.  [None] when the fuel runs out. *)
Fixpoint searchValidation (fuel : nat) (st : Rip7560AccountAbstractionTx) (opts : Options)
    (lo hi : Z) (last : option (ValidationPhaseResult * StateDB))
  : option (outcome (Z * option (ValidationPhaseResult * StateDB))) :=
  match fuel with
  | O => None
  | S fuel =>
      if add64 lo 1 <? hi then
        if ErrorRatioPositive opts && belowErrorRatio opts hi lo then Some (Ok (hi, last))
        else
          let mid := add64 hi lo / 2 in
          let mid := if mul64 lo 2 <? mid then mul64 lo 2 else mid in
          match executeRip7560Validation st opts mid with
          | Err err => Some (Err err)
          | Panicked p => Some (Panicked p)
          | Ok None => searchValidation fuel st opts mid hi None
          | Ok (Some r) => searchValidation fuel st opts lo mid (Some r)
          end
      else Some (Ok (hi, last))
  end.

Definition EstimateRip7560Validation (fuel : nat) (st : Rip7560AccountAbstractionTx)
    (opts : Options) (gasCap : Z) : option (outcome (Z * Options)) :=
  match TotalGasLimit Rip7560TxGas st with
  | Err err => Some (Err err)
  | Panicked p => Some (Panicked p)
  | Ok totalGasLimit =>
      let gasLimit := sub64 totalGasLimit (PostOpGas st) in
      match highestGasLimit st opts gasCap gasLimit with
      | Err err => Some (Err err)
      | Panicked p => Some (Panicked p)
      | Ok hi =>
          match executeRip7560Validation st opts hi with
          | Err err => Some (Err err)
          | Panicked p => Some (Panicked p)
          | Ok None => Some (Err (Base (Msg "gas required exceeds allowance (%d)")))
          | Ok (Some (vpr, statedb)) =>
              let vpUsedGas := dropErr (validationPhaseUsedGas vpr) in
              let lo := sub64 vpUsedGas 1 in
              let optimisticGasLimit := mul64 (add64 vpUsedGas CallStipend) 64 / 63 in
              let searched :=
                if optimisticGasLimit <? hi then
                  match executeRip7560Validation st opts optimisticGasLimit with
                  | Err err => Some (Err err)
                  | Panicked p => Some (Panicked p)
                  | Ok None => searchValidation fuel st opts optimisticGasLimit hi None
                  | Ok (Some r) =>
                      searchValidation fuel st opts lo optimisticGasLimit (Some r)
                  end
                else searchValidation fuel st opts lo hi (Some (vpr, statedb)) in
              match searched with
              | None => None
              | Some (Err err) => Some (Err err)
              | Some (Panicked p) => Some (Panicked p)
              | Some (Ok (hi, last)) =>
                  Some (Ok (hi,
                            {| opt_HeaderGasLimit := opt_HeaderGasLimit opts;
                               opt_State := snd <$> last;
                               ErrorRatioPositive := ErrorRatioPositive opts;
                               belowErrorRatio := belowErrorRatio opts;
                               opt_ValidationPhaseResult := fst <$> last |}))
              end
          end
      end
  end.

(** [executeRip7560Execution]: whether the probe failed, the two results,
    and the error. *)
Definition executeRip7560Execution (st : Rip7560AccountAbstractionTx) (opts : Options)
    (gasLimit : Z)
  : outcome (bool * option ExecutionResult * option ExecutionResult * option error) :=
  let st := withGas st gasLimit in
  match opt_State opts, opt_ValidationPhaseResult opts with
  | None, _ => Panicked "invalid memory address or nil pointer dereference"
  | Some state, None => Panicked "invalid memory address or nil pointer dereference"
  | Some state, Some vpr =>
      match applyExecutionPhase st vpr state with
      | Err err =>
          if errIsIntrinsicGas err then Ok (true, None, None, None)
          else Ok (true, None, None, Some err)
      | Panicked p => Panicked p
      | Ok (exr, ppr) => Ok (false, Some exr, ppr, None)
      end
  end.

Fixpoint searchExecution (fuel : nat) (st : Rip7560AccountAbstractionTx) (opts : Options)
    (lo hi : Z) : option (outcome Estimate) :=
  match fuel with
  | O => None
  | S fuel =>
      if add64 lo 1 <? hi then
        if ErrorRatioPositive opts && belowErrorRatio opts hi lo then Some (Ok (Estimated hi))
        else
          let mid := add64 hi lo / 2 in
          let mid := if mul64 lo 2 <? mid then mul64 lo 2 else mid in
          match executeRip7560Execution st opts mid with
          | Err err => Some (Err err)
          | Panicked p => Some (Panicked p)
          | Ok (_, _, _, Some err) => Some (Ok (Failure None (inl err)))
          | Ok (failed, _, _, None) =>
              if failed then searchExecution fuel st opts mid hi
              else searchExecution fuel st opts lo mid
          end
      else Some (Ok (Estimated hi))
  end.

Definition EstimateRip7560Execution (fuel : nat) (opts : Options) (gasCap : Z)
  : option (outcome Estimate) :=
  match opt_ValidationPhaseResult opts with
  | None => Some (Panicked "invalid memory address or nil pointer dereference")
  | Some vpr =>
      let st := vpr_Tx vpr in
      let gasLimit := add64 (Gas st) (PostOpGas st) in
      match highestGasLimit st opts gasCap gasLimit with
      | Err err => Some (Err err)
      | Panicked p => Some (Panicked p)
      | Ok hi =>
          match executeRip7560Execution st opts hi with
          | Err err => Some (Err err)
          | Panicked p => Some (Panicked p)
          | Ok (_, _, _, Some err) => Some (Ok (Failure None (inl err)))
          | Ok (true, exr, ppr, None) =>
              match exr, ppr with
              | Some exr, Some ppr =>
                  if negb (isErrOutOfGas (ResErr exr)) then
                    match ResErr exr with
                    | Some e => Some (Ok (Failure (Revert exr) (inr e)))
                    | None => Some (Ok (Estimated 0))
                    end
                  else if negb (isErrOutOfGas (ResErr ppr)) then
                    match ResErr ppr with
                    | Some e => Some (Ok (Failure (Revert ppr) (inr e)))
                    | None => Some (Ok (Estimated 0))
                    end
                  else Some (Ok (Failure None
                                   (inl (Base (Msg "gas required exceeds allowance (%d)")))))
              | _, _ =>
                  Some (Ok (Failure None
                              (inl (Base (Msg "gas required exceeds allowance (%d)")))))
              end
          | Ok (false, None, _, None) =>
              Some (Panicked "invalid memory address or nil pointer dereference")
          | Ok (false, Some exr, ppr, None) =>
              let lo := match ppr with
                        | None => sub64 (UsedGas exr) 1
                        | Some ppr => sub64 (add64 (UsedGas exr) (UsedGas ppr)) 1
                        end in
              let optimisticGasLimit :=
                match ppr with
                | None =>
                    mul64 (add64 (add64 (UsedGas exr) (RefundedGas exr)) CallStipend) 64 / 63
                | Some ppr =>
                    mul64 (add64 (add64 (add64 (add64 (UsedGas exr) (RefundedGas exr))
                                           (UsedGas ppr)) (RefundedGas ppr)) CallStipend)
                      64 / 63
                end in
              if optimisticGasLimit <? hi then
                match executeRip7560Execution st opts optimisticGasLimit with
                | Err err => Some (Err err)
                | Panicked p => Some (Panicked p)
                | Ok (_, _, _, Some err) => Some (Ok (Failure None (inl err)))
                | Ok (failed, _, _, None) =>
                    if failed then searchExecution fuel st opts optimisticGasLimit hi
                    else searchExecution fuel st opts lo optimisticGasLimit
                end
              else searchExecution fuel st opts lo hi
          end
      end
  end.

End Estimator.

End GasEstimator.

(** * Specification-side definitions and example inputs *)

Import Types Core.

(** The three rejections of the validity window, by kind. *)
Definition errInvalidRange : option error :=
  Some (Base (Msg "RIP-7560 transaction validity range invalid")).
Definition errExpired : option error :=
  Some (Base (Msg "RIP-7560 transaction validity expired")).
Definition errNotReached : option error :=
  Some (Base (Msg "RIP-7560 transaction validity not reached yet")).

(** A transaction with empty data fields and no access list. *)
Definition mkTx (nonce tip feeCap gas : Z) (sender : Address)
    (paymaster deployer : option Address) (validationGas paymasterGas postOpGas : Z)
    (nonceKey : option Z) : Rip7560AccountAbstractionTx :=
  {| ChainID := 1; Nonce := nonce; GasTipCap := tip; GasFeeCap := feeCap; Gas := gas;
     AccessList := []; Sender := sender; AuthorizationData := []; ExecutionData := [];
     Paymaster := paymaster; PaymasterData := []; Deployer := deployer; DeployerData := [];
     BuilderFee := 0; ValidationGasLimit := validationGas;
     PaymasterValidationGasLimit := paymasterGas; PostOpGas := postOpGas;
     NonceKey := nonceKey |}.

(** The sum the loop of [SumGas] would compute without wrap-around. *)
Definition sumZ (vals : list Z) : Z := fold_right Z.add 0 vals.

(** Every gas limit at the bound [SumGas] allows. *)
Definition txGasAtBound : Rip7560AccountAbstractionTx :=
  mkTx 0 1 1 (2 ^ 62) 0x1111 (Some 0x2222) None (2 ^ 62) (2 ^ 62) (2 ^ 62) None.

(** A state with the given balances, nonces and code sizes and nothing else. *)
Definition mkState (bal nonce code : list (Address * Z)) : StateDB :=
  {| balances := list_to_map bal; nonces := list_to_map nonce;
     codeSizes := list_to_map code; storage := ∅; refund := 0; logs := [];
     thash := 0; txIndex := 0 |}.

Definition exSender : Address := 0x1111.
Definition exPaymaster : Address := 0x2222.
Definition exDeployer : Address := 0x3333.
Definition exCoinbase : Address := 0xc0ffee.

(** A deployed sender that pays for itself: gas 100000, validation gas
    200000, fee cap 2, tip 1. *)
Definition txSimple : Rip7560AccountAbstractionTx :=
  mkTx 0 1 2 100000 exSender None None 200000 0 0 None.

Definition stateSimple : StateDB :=
  mkState [(exSender, 1000000000)] [] [(exSender, 1)].

(** *** A toy ABI codec and scripted EVMs for the examples *)

(** Selectors are one byte followed by three zero bytes; the arguments are
    one byte each. *)
Definition exMethodById (input : list byte) : outcome string :=
  match input with
  | 1 :: _ => Ok "acceptAccount"%string
  | 2 :: _ => Ok "acceptPaymaster"%string
  | 3 :: _ => Ok "sigFailAccount"%string
  | 4 :: _ => Ok "sigFailPaymaster"%string
  | _ => Err (Base (Msg "no method with id"))
  end.

Definition exPackValue (v : AbiValue) : Z :=
  match v with
  | AbiBigInt (Some z) => z
  | AbiBigInt None => 0
  | AbiBytes b => Z.of_nat (length b)
  end.

Definition exAbi : AbiCodec :=
  {| MethodById := exMethodById;
     UnpackAcceptAccount := fun _ args =>
       Ok {| aad_ValidAfter := nth 0 args 0; aad_ValidUntil := nth 1 args 0 |};
     UnpackAcceptPaymaster := fun _ args =>
       Ok {| apd_ValidAfter := nth 0 args 0; apd_ValidUntil := nth 1 args 0;
             apd_Context := drop 2 args |};
     PackValidateTransaction := fun _ _ => Ok [9];
     PackValidatePaymasterTransaction := fun _ _ => Ok [8];
     PackPostPaymasterTransaction := fun success _ context =>
       Ok (7 :: (if success then 1 else 0) :: context);
     EventID := fun name => Z.of_nat (String.length name);
     PackNonIndexed := fun _ values => Ok (map exPackValue values);
     SignerHash := fun _ => 0x5151;
     TxHash := fun tx => 0xabc + Nonce tx |}.

(** The calldata of the toy callbacks: [acceptAccount(0, 0)] and
    [acceptPaymaster(0, 0, context)]. *)
Definition exAcceptAccount : list byte := [1; 0; 0; 0; 0; 0].
Definition exAcceptPaymaster (context : list byte) : list byte :=
  [2; 0; 0; 0; 0; 0] ++ context.

(** What a scripted contract does when called: the gas it uses, its error,
    the further calls it enters, and its effect on the state. *)
Record Behaviour := {
  b_gas : Z;
  b_err : option VMError;
  b_calls : list CallEnter;
  b_effect : StateDB -> StateDB
}.

Definition idle : Behaviour :=
  {| b_gas := 0; b_err := None; b_calls := []; b_effect := fun s => s |}.

(** The EVM that runs a script: the call itself is the first call entry,
    the gas used is capped by the limit, and a failed call leaves the state
    as it was. *)
Definition scripted (script : Address -> list byte -> Behaviour) : EVM :=
  fun s from to data gasLimit =>
    let b := script to data in
    {| evm_ret := [];
       evm_gasRemaining := gasLimit - Z.min (b_gas b) gasLimit;
       evm_err := b_err b;
       evm_state := match b_err b with Some _ => s | None => b_effect b s end;
       evm_entered := {| ce_from := from; ce_to := to; ce_input := data |} :: b_calls b |}.

Definition exHeader : Header := {| BaseFee := Some 1; Number := 100; Time := 1000 |}.
Definition exConfig : ChainConfig :=
  {| IsLondon := fun _ => true; IsRIP7712 := fun _ => true |}.
Definition exVmConfig : VmConfig := {| NoBaseFee := false |}.

Definition mkMachine (s : StateDB) (pool : GasPool) : Machine :=
  {| m_statedb := s; m_gp := pool;
     m_st := {| initialGas := 0; gasRemaining := 0 |};
     m_epc := newEntryPointCall |}.

(** A sponsored transaction whose paymaster returns the context [[5]]. *)
Definition txSponsored : Rip7560AccountAbstractionTx :=
  mkTx 0 1 2 100000 exSender (Some exPaymaster) None 200000 50000 20000 None.

Definition stateSponsored : StateDB :=
  mkState [(exPaymaster, 1000000000)] [] [(exSender, 1); (exPaymaster, 1)].

Definition callbackFrom (entity : Address) (input : list byte) : CallEnter :=
  {| ce_from := entity; ce_to := AA_ENTRY_POINT; ce_input := input |}.

(** Validation succeeds (account 50000 gas, paymaster 30000 gas); the
    execution frame credits 7 to address [0x77] and then fails or not, and
    so does the post-op frame. *)
Definition scriptSponsored (execFails postOpFails : bool) (to : Address)
    (data : list byte) : Behaviour :=
  if to =? exSender then
    match data with
    | [9] => {| b_gas := 50000; b_err := None;
                b_calls := [callbackFrom exSender exAcceptAccount];
                b_effect := fun s => s |}
    | _ => {| b_gas := 70000;
              b_err := if execFails then Some ErrExecutionReverted else None;
              b_calls := []; b_effect := fun s => AddBalance s 0x77 7 |}
    end
  else if to =? exPaymaster then
    match data with
    | [8] => {| b_gas := 30000; b_err := None;
                b_calls := [callbackFrom exPaymaster (exAcceptPaymaster [5])];
                b_effect := fun s => s |}
    | _ => {| b_gas := 5000;
              b_err := if postOpFails then Some ErrExecutionReverted else None;
              b_calls := []; b_effect := fun s => s |}
    end
  else idle.

(** Validation followed by execution, as the batch driver chains them. *)
Definition validateThenExecute {abi : AbiCodec} (base : Z) (config : ChainConfig)
    (evm : EVM) (header : Header) (cfg : VmConfig) (coinbase : Address)
    (tx : Rip7560AccountAbstractionTx) : V (ValidationPhaseResult * Receipt) :=
  statedb ← getStatedb;
  _ ← setStatedb (SetTxContext statedb (TxHash tx) 0);
  vpr ← ApplyRip7560ValidationPhases base config evm header tx;
  '(receipt, _) ← ApplyRip7560ExecutionPhase base config evm vpr coinbase header cfg 0;
  mret (vpr, receipt).

(** The execution status the toy codec wrote into a [RIP7560TransactionEvent]
    log: the third packed value. *)
Definition loggedStatus (l : Log) : Z := nth 2 (log_Data l) (-1).

(** The validation result of [txSponsored] under [scriptSponsored]. *)
Definition vprSponsored : ValidationPhaseResult :=
  {| vpr_Tx := txSponsored; vpr_TxHash := 0xabc; PaymasterContext := [5];
     PreCharge := 770000; EffectiveGasPriceU256 := 2;
     vpr_PreTransactionGasCost := 15000; ValidationRefund := 0;
     NonceManagerUsedGas := 0; DeploymentUsedGas := 0; ValidationUsedGas := 50000;
     PmValidationUsedGas := 30000; SenderValidAfter := 0; SenderValidUntil := 0;
     PmValidAfter := 0; PmValidUntil := 0; vpr_TxIndex := 0 |}.

(** The post-op block entered after a failed execution frame, with a post-op
    frame that fails too. *)
Definition exPostOpAfterFailedExecution : outcome PostOpLocals * Machine :=
  postOpBlock (abi := exAbi) (scripted (scriptSponsored true true)) txSponsored
    vprSponsored stateSponsored
    {| ReturnData := []; UsedGas := 70000; ResErr := Some ErrExecutionReverted;
       RefundedGas := 0 |}
    168000 0 ReceiptStatusFailed ExecutionStatusExecutionFailure
    (mkMachine (AddBalance stateSponsored 0x77 7) 1000000).

(** The whole pipeline on [txSponsored]: validation, then execution. *)
Definition exSponsoredRun (execFails postOpFails : bool)
  : outcome (ValidationPhaseResult * Receipt) * Machine :=
  validateThenExecute (abi := exAbi) 15000 exConfig
    (scripted (scriptSponsored execFails postOpFails)) exHeader exVmConfig exCoinbase
    txSponsored (mkMachine stateSponsored 1000000).

(** *** Congruence modulo [2^256] *)

Definition eqm256 (a b : Z) : Prop := wrap256 a = wrap256 b.

#[local] Instance eqm256_equiv : Equivalence eqm256.
Proof. unfold eqm256. split; red; intros; congruence. Qed.

#[local] Instance add_eqm256 : Proper (eqm256 ==> eqm256 ==> eqm256) Z.add.
Proof.
  unfold eqm256, wrap256. intros a a' Ha b b' Hb.
  rewrite (Zplus_mod a), (Zplus_mod a'), Ha, Hb. reflexivity.
Qed.

#[local] Instance sub_eqm256 : Proper (eqm256 ==> eqm256 ==> eqm256) Z.sub.
Proof.
  unfold eqm256, wrap256. intros a a' Ha b b' Hb.
  rewrite (Zminus_mod a), (Zminus_mod a'), Ha, Hb. reflexivity.
Qed.

#[local] Instance mul_eqm256 : Proper (eqm256 ==> eqm256 ==> eqm256) Z.mul.
Proof.
  unfold eqm256, wrap256. intros a a' Ha b b' Hb.
  rewrite (Zmult_mod a), (Zmult_mod a'), Ha, Hb. reflexivity.
Qed.

#[local] Instance wrap256_eqm256 : Proper (eqm256 ==> eq) wrap256.
Proof. unfold eqm256. intros a a' Ha. exact Ha. Qed.

(** The amount the settlement neither refunds nor pays to the coinbase:
    [pre_charge - final_refund - coinbase_fee] in 256-bit arithmetic. *)
Definition unsettled (vpr : ValidationPhaseResult) (gasUsed fee : Z) : Z :=
  sub256 (sub256 (PreCharge vpr) (payerRefund vpr gasUsed)) fee.

(** *** A two-dimensional nonce whose nonce-manager frame uses 30000 gas *)

Definition txTwoDimensional : Rip7560AccountAbstractionTx :=
  mkTx 3 1 2 100000 exSender None None 200000 0 0 (Some 7).

(** The nonce manager uses 30000 gas; the account uses its whole budget in
    validation (where it makes its callback) and in execution. *)
Definition scriptGreedy (to : Address) (data : list byte) : Behaviour :=
  if to =? AA_NONCE_MANAGER then
    {| b_gas := 30000; b_err := None; b_calls := []; b_effect := fun s => s |}
  else if to =? exSender then
    match data with
    | [9] => {| b_gas := MaxUint64; b_err := None;
                b_calls := [callbackFrom exSender exAcceptAccount];
                b_effect := fun s => s |}
    | _ => {| b_gas := MaxUint64; b_err := None; b_calls := [];
              b_effect := fun s => s |}
    end
  else idle.

Definition exTwoDimensionalValidation : outcome ValidationPhaseResult * Machine :=
  ApplyRip7560ValidationPhases (abi := exAbi) 15000 exConfig (scripted scriptGreedy)
    exHeader txTwoDimensional (mkMachine stateSimple 1000000).

(** *** A deployer frame in which the new account calls the EntryPoint *)

Definition txDeploy : Rip7560AccountAbstractionTx :=
  mkTx 0 1 2 100000 exSender None (Some exDeployer) 200000 0 0 None.

Definition stateDeploy : StateDB :=
  mkState [(exSender, 1000000000)] [] [(exDeployer, 1)].

Definition setCodeSize (a : Address) (size : Z) (s : StateDB) : StateDB :=
  {| balances := balances s; nonces := nonces s;
     codeSizes := <[a := size]> (codeSizes s); storage := storage s;
     refund := refund s; logs := logs s; thash := thash s; txIndex := txIndex s |}.

(** The deployer creates the account, and during the deployer frame a call
    to the EntryPoint is entered from [duringDeployment]; the account's own
    validation frame enters the calls [duringValidation]. *)
Definition scriptDeploy (duringDeployment duringValidation : list CallEnter)
    (to : Address) (data : list byte) : Behaviour :=
  if to =? exDeployer then
    {| b_gas := 60000; b_err := None; b_calls := duringDeployment;
       b_effect := setCodeSize exSender 1 |}
  else if to =? exSender then
    match data with
    | [9] => {| b_gas := 50000; b_err := None; b_calls := duringValidation;
                b_effect := fun s => s |}
    | _ => idle
    end
  else idle.

Definition exDeployValidation (duringDeployment duringValidation : list CallEnter)
  : outcome ValidationPhaseResult * Machine :=
  ApplyRip7560ValidationPhases (abi := exAbi) 15000 exConfig
    (scripted (scriptDeploy duringDeployment duringValidation))
    exHeader txDeploy (mkMachine stateDeploy 1000000).

(** The calls to the EntryPoint among the call entries of a frame. *)
Definition entryPointCalls (entered : list CallEnter) : list CallEnter :=
  filter (fun c => ce_to c = AA_ENTRY_POINT) entered.

(** An EVM whose calls leave the nonce of account [a] as it was. *)
Definition evmKeepsNonce (evm : EVM) (a : Address) : Prop :=
  forall s from to data gasLimit,
    GetNonce (evm_state (evm s from to data gasLimit)) a = GetNonce s a.

(** An action that, when it succeeds, leaves an observation of the machine
    as it was. *)
Definition keeps {T A} (observe : Machine -> T) (act : V A) : Prop :=
  forall m x m', act m = (Ok x, m') -> observe m' = observe m.

(** The nonce of account [a], as an observation of the machine. *)
Definition nonceOf (a : Address) (m : Machine) : Z := GetNonce (m_statedb m) a.

(** Every contract uses 50000 gas, changes nothing, and enters the
    account's callback. *)
Definition scriptPlain (to : Address) (data : list byte) : Behaviour :=
  {| b_gas := 50000; b_err := None;
     b_calls := [callbackFrom exSender exAcceptAccount];
     b_effect := fun s => s |}.

Definition exSimpleValidation : outcome ValidationPhaseResult * Machine :=
  ApplyRip7560ValidationPhases (abi := exAbi) 15000 exConfig (scripted scriptPlain)
    exHeader txSimple (mkMachine stateSimple 1000000).

(** The nonce-manager calldata in the spec's words: the sender's 20 bytes,
    the nonce key in 24 bytes and the nonce in 8 bytes, big-endian. *)
Definition nonceManagerCalldata (sender : Address) (nonceKey nonce : Z) : list byte :=
  be_bytes 20 sender ++ be_bytes 24 nonceKey ++ be_bytes 8 nonce.

(** A two-dimensional nonce with the largest 64-bit nonce value. *)
Definition txMaxNonce : Rip7560AccountAbstractionTx :=
  mkTx (2 ^ 64 - 1) 1 2 100000 exSender None None 200000 0 0 (Some 7).

(** The error the interceptor sets on a second call to the EntryPoint. *)
Definition errRepeated : option error :=
  Some (Base (Msg "illegal repeated call to the EntryPoint callback")).

(** A sender that cannot pay the pre-charge, and the batch of one
    transaction processed in build mode. *)
Definition statePoor : StateDB := mkState [(exSender, 5)] [] [(exSender, 1)].

Definition emptyBatch : BatchResult :=
  {| validatedTransactions := []; receipts := []; validationFailureInfos := [];
     allLogs := []; batch_usedGas := 0 |}.

Definition exSkippedBatch : outcome BatchResult * Machine :=
  handleLoop (abi := exAbi) 15000 exConfig (scripted scriptPlain) exCoinbase exHeader
    exVmConfig true 0 [Rip7560Tx txSimple] 0 emptyBatch (mkMachine statePoor 1000000).

(** *** The steps of a successful validation *)

(** The intermediate values of [ApplyRip7560ValidationPhases]: the machine
    after each frame and what each step returned. *)
Record ValidationTrace := {
  vt_price : Z;
  vt_gasLimit : Z;
  vt_preCharge : Z;
  vt_afterBuyGas : Machine;
  vt_preTransactionGasCost : Z;
  vt_nonceManagerUsedGas : Z;
  vt_afterNonce : Machine;
  vt_deploymentUsedGas : Z;
  vt_afterDeployer : Machine;
  vt_accountValidationMsg : list byte;
  vt_resultAccountValidation : ExecutionResult;
  vt_afterAccount : Machine;
  vt_aad : AcceptAccountData;
  vt_paymaster : list byte * Z * Z * Z;
  vt_afterPaymaster : Machine
}.

(** The machine in which the nonce frame starts: the interceptor is fresh
    and the state transition holds the total gas limit. *)
Definition enterFrames (m : Machine) (gasLimit : Z) : Machine :=
  {| m_statedb := m_statedb m; m_gp := m_gp m;
     m_st := {| initialGas := gasLimit; gasRemaining := gasLimit |};
     m_epc := newEntryPointCall |}.

(** The machine in which the paymaster frame starts: the interceptor has
    been cleared. *)
Definition enterPaymaster (m : Machine) : Machine :=
  {| m_statedb := m_statedb m; m_gp := m_gp m; m_st := m_st m;
     m_epc := clearEntryPointCall (m_epc m) |}.

Definition finalised (m : Machine) : Machine :=
  {| m_statedb := Finalise (m_statedb m); m_gp := m_gp m; m_st := m_st m;
     m_epc := m_epc m |}.

(** [t] records a run of the validation phases from [m] that ends well,
    with result [vpr] in machine [m']. *)
Definition validationSteps {abi : AbiCodec} (base : Z) (config : ChainConfig) (evm : EVM)
    (header : Header) (tx : Rip7560AccountAbstractionTx) (m : Machine)
    (t : ValidationTrace) (vpr : ValidationPhaseResult) (m' : Machine) : Prop :=
  performStaticValidation base tx (m_statedb m) = None /\
  MustFromBig (EffectiveGasPrice tx (BaseFee header)) = Ok (vt_price t) /\
  buyGas base tx (vt_price t) m = (Ok (vt_gasLimit t, vt_preCharge t), vt_afterBuyGas t) /\
  PreTransactionGasCost base tx = Ok (vt_preTransactionGasCost t) /\
  CheckNonceRip7560 config evm (Number header) tx
    (enterFrames (vt_afterBuyGas t) (vt_gasLimit t))
    = (Ok (vt_nonceManagerUsedGas t), vt_afterNonce t) /\
  deployerFrame evm tx (vt_preTransactionGasCost t) (vt_afterNonce t)
    = (Ok (vt_deploymentUsedGas t), vt_afterDeployer t) /\
  prepareAccountValidationMessage tx (SignerHash tx) = Ok (vt_accountValidationMsg t) /\
  callFrameTraced evm AA_ENTRY_POINT (Sender tx) (vt_accountValidationMsg t)
    (sub64 (sub64 (ValidationGasLimit tx) (vt_preTransactionGasCost t))
       (vt_deploymentUsedGas t))
    (vt_afterDeployer t)
    = (Ok (vt_resultAccountValidation t), vt_afterAccount t) /\
  ResErr (vt_resultAccountValidation t) = None /\
  validateAccountEntryPointCall (m_epc (vt_afterAccount t)) (Sender tx) = Ok (vt_aad t) /\
  validateValidityTimeRange (Time header) (BigUint64 (aad_ValidAfter (vt_aad t)))
    (BigUint64 (aad_ValidUntil (vt_aad t))) = None /\
  applyPaymasterValidationFrame evm tx (SignerHash tx) header
    (enterPaymaster (vt_afterAccount t))
    = (Ok (vt_paymaster t), vt_afterPaymaster t) /\
  m' = finalised (vt_afterPaymaster t) /\
  vpr = {| vpr_Tx := tx;
           vpr_TxHash := TxHash tx;
           PaymasterContext := (vt_paymaster t).1.1.1;
           PreCharge := vt_preCharge t;
           EffectiveGasPriceU256 := vt_price t;
           vpr_PreTransactionGasCost := vt_preTransactionGasCost t;
           ValidationRefund := GetRefund (m_statedb (vt_afterPaymaster t));
           NonceManagerUsedGas := vt_nonceManagerUsedGas t;
           DeploymentUsedGas := vt_deploymentUsedGas t;
           ValidationUsedGas := UsedGas (vt_resultAccountValidation t);
           PmValidationUsedGas := (vt_paymaster t).1.1.2;
           SenderValidAfter := BigUint64 (aad_ValidAfter (vt_aad t));
           SenderValidUntil := BigUint64 (aad_ValidUntil (vt_aad t));
           PmValidAfter := (vt_paymaster t).1.2;
           PmValidUntil := (vt_paymaster t).2;
           vpr_TxIndex := 0 |}.

(** An observation that the frames' bookkeeping and the calls of [evm]
    leave as it was. *)
Definition frameStable {T} (observe : Machine -> T) (evm : EVM) : Prop :=
  (forall e, keeps observe (setEpc e)) /\
  (forall t, keeps observe (setSt t)) /\
  (forall from to data gasLimit, keeps observe (callFrameTraced evm from to data gasLimit)).

(** The two phases of [txSponsored] taken apart, both frames succeeding. *)
Definition exSponsoredValidation : outcome ValidationPhaseResult * Machine :=
  ApplyRip7560ValidationPhases (abi := exAbi) 15000 exConfig
    (scripted (scriptSponsored false false)) exHeader txSponsored
    (mkMachine stateSponsored 1000000).

Definition exSponsoredExecution (vpr : ValidationPhaseResult) (m : Machine)
  : outcome (Receipt * Z) * Machine :=
  ApplyRip7560ExecutionPhase (abi := exAbi) 15000 exConfig
    (scripted (scriptSponsored false false)) vpr exCoinbase exHeader exVmConfig 0 m.

Definition raises {A} (P : error -> Prop) (act : V A) : Prop :=
  forall m e m', act m = (Err e, m') -> P e.

Definition isValidationPhaseError (e : error) : Prop := exists v, e = Vpe v.

Definition isNonceError (e : error) : Prop :=
  e = Base (Wrapped ErrNonceTooHigh) \/ e = Base (Wrapped ErrNonceTooLow) \/
  e = Base (Wrapped ErrNonceMax).

Definition exPoorValidation : outcome ValidationPhaseResult * Machine :=
  ApplyRip7560ValidationPhases (abi := exAbi) 15000 exConfig (scripted scriptPlain)
    exHeader txSimple (mkMachine statePoor 1000000).

(** An EVM that gives back no more gas than it was given. *)
Definition evmRespectsGas (evm : EVM) : Prop :=
  forall s from to data gasLimit,
    0 <= gasLimit ->
    0 <= evm_gasRemaining (evm s from to data gasLimit) <= gasLimit.

(** The RIP-7560 transactions at the head of a list, up to the first
    transaction of another type. *)
Fixpoint rip7560Prefix (txs : list Transaction) : list Rip7560AccountAbstractionTx :=
  match txs with
  | Rip7560Tx tx :: rest => tx :: rip7560Prefix rest
  | _ => []
  end.

(** The running block total after the receipts of a batch. *)
Definition cumulativeGas (usedGas : Z) (rs : list Receipt) : Z :=
  fold_left (fun u r => add64 u (rcpt_GasUsed r)) rs usedGas.

(** A batch of one RIP-7560 transaction followed by a transaction of another
    type and a further RIP-7560 transaction, run in import mode. *)
Definition exBatch : list Transaction :=
  [Rip7560Tx txSimple; OtherTx 2; Rip7560Tx txSimple].

Definition exBatchRun : outcome BatchResult * Machine :=
  HandleRip7560Transactions (abi := exAbi) 15000 exConfig (scripted scriptPlain) exBatch 0
    exCoinbase exHeader exVmConfig false 0 (mkMachine stateSimple 1000000).


(** A transaction with calldata and an access list, and one whose paymaster
    is the zero address. *)
Definition txWithCalldata : Rip7560AccountAbstractionTx :=
  {| ChainID := 1; Nonce := 0; GasTipCap := 1; GasFeeCap := 2; Gas := 100000;
     AccessList := [ {| at_Address := 0x77; at_StorageKeys := [1; 2] |} ];
     Sender := exSender; AuthorizationData := [0; 1; 2]; ExecutionData := [0; 0; 5];
     Paymaster := None; PaymasterData := []; Deployer := None; DeployerData := [];
     BuilderFee := 0; ValidationGasLimit := 200000; PaymasterValidationGasLimit := 0;
     PostOpGas := 0; NonceKey := None |}.

Definition txZeroPaymaster : Rip7560AccountAbstractionTx :=
  mkTx 0 1 2 100000 exSender (Some zeroAddress) None 200000 50000 0 None.

(** *** Example probes for the gas estimator *)

(** A validation result that reports [used] gas, all of it as the
    pre-transaction cost. *)
Definition exVpr (st : Rip7560AccountAbstractionTx) (used : Z) : ValidationPhaseResult :=
  {| vpr_Tx := st; vpr_TxHash := 0; PaymasterContext := []; PreCharge := 0;
     EffectiveGasPriceU256 := 0; vpr_PreTransactionGasCost := used;
     ValidationRefund := 0; NonceManagerUsedGas := 0; DeploymentUsedGas := 0;
     ValidationUsedGas := 0; PmValidationUsedGas := 0; SenderValidAfter := 0;
     SenderValidUntil := 0; PmValidAfter := 0; PmValidUntil := 0; vpr_TxIndex := 0 |}.

(** Validation phases that run out of gas below a validation gas limit of
    [need] and use [used] gas otherwise; an execution phase that lacks
    intrinsic gas below a gas limit of [need]. *)
Definition exApplyValidationPhases (need used : Z) (st : Rip7560AccountAbstractionTx)
    (state : StateDB) : outcome (ValidationPhaseResult * StateDB) :=
  if ValidationGasLimit st <? need then Err (Base (VM ErrOutOfGas))
  else Ok (exVpr st used, state).

Definition exApplyExecutionPhase (need used : Z) (st : Rip7560AccountAbstractionTx)
    (vpr : ValidationPhaseResult) (state : StateDB)
  : outcome (ExecutionResult * option ExecutionResult) :=
  if Gas st <? need then Err (Base (Msg "intrinsic gas too low"))
  else Ok ({| ReturnData := []; UsedGas := used; ResErr := None; RefundedGas := 0 |}, None).

Definition exErrIsOutOfGas (e : error) : bool :=
  match e with
  | Base (VM ErrOutOfGas) | Base (MsgVM _ ErrOutOfGas) => true
  | _ => false
  end.

Definition exErrIsIntrinsicGas (e : error) : bool :=
  match e with
  | Base (Msg m) => String.eqb m "intrinsic gas too low"
  | _ => false
  end.

(** Options over [stateSimple], with a block gas limit of 30000000 and no
    error ratio. *)
Definition exOptions (vpr : option ValidationPhaseResult) : GasEstimator.Options :=
  {| GasEstimator.opt_HeaderGasLimit := 30000000;
     GasEstimator.opt_State := Some stateSimple;
     GasEstimator.ErrorRatioPositive := false;
     GasEstimator.belowErrorRatio := fun _ _ => false;
     GasEstimator.opt_ValidationPhaseResult := vpr |}.

(** The validation estimate of [txSimple] under a cap of 50000, when
    validation needs all of the cap. *)
Definition exEstimateValidation : option (outcome (Z * GasEstimator.Options)) :=
  GasEstimator.EstimateRip7560Validation 15000 21000 2300
    (exApplyValidationPhases 50000 30000) exErrIsOutOfGas 64 txSimple (exOptions None) 50000.

(** The execution estimate of [txSimple] under a cap of 50000, when
    execution needs 40000 gas. *)
Definition exEstimateExecution : option (outcome GasEstimator.Estimate) :=
  GasEstimator.EstimateRip7560Execution 21000 2300
    (exApplyExecutionPhase 40000 30000) exErrIsIntrinsicGas 64
    (exOptions (Some (exVpr txSimple 30000))) 50000.

(** *** Statements about the gas estimator *)

(** What the search of [EstimateRip7560Execution] may return below [bound]:
    a gas limit at which a probe did not fail, or the error of a probe,
    without revert data. *)
Definition soundEstimate
    (applyExecutionPhase : Rip7560AccountAbstractionTx -> ValidationPhaseResult -> StateDB
                           -> outcome (ExecutionResult * option ExecutionResult))
    (errIsIntrinsicGas : error -> bool)
    (st : Rip7560AccountAbstractionTx) (opts : GasEstimator.Options) (bound : Z)
    (res : GasEstimator.Estimate) : Prop :=
  match res with
  | GasEstimator.Estimated hi =>
      0 <= hi <= bound /\
      exists exr ppr,
        GasEstimator.executeRip7560Execution applyExecutionPhase errIsIntrinsicGas st opts hi
        = Ok (false, Some exr, ppr, None)
  | GasEstimator.Failure revert err =>
      revert = None /\
      exists g e,
        GasEstimator.executeRip7560Execution applyExecutionPhase errIsIntrinsicGas st opts g
        = Ok (true, None, None, Some e) /\ err = inl e
  end.

(** The validation phases of [st] run through from a gas limit of [need] on
    and run out of gas below it. *)
Definition validationThreshold
    (applyValidationPhases : Rip7560AccountAbstractionTx -> StateDB
                             -> outcome (ValidationPhaseResult * StateDB))
    (errIsOutOfGas : error -> bool)
    (st : Rip7560AccountAbstractionTx) (opts : GasEstimator.Options) (need : Z) : Prop :=
  forall g, 0 <= g < 2 ^ 64 ->
    (need <= g ->
     exists r, GasEstimator.executeRip7560Validation applyValidationPhases errIsOutOfGas
                 st opts g = Ok (Some r)) /\
    (g < need ->
     GasEstimator.executeRip7560Validation applyValidationPhases errIsOutOfGas st opts g
     = Ok None).

(** * Properties *)

(** ** Machine arithmetic *)

Lemma wrap64_small (z : Z) : 0 <= z < 2 ^ 64 -> wrap64 z = z.
Proof. intros H. unfold wrap64. apply Z.mod_small. exact H. Qed.

Lemma wrap256_small (z : Z) : 0 <= z < 2 ^ 256 -> wrap256 z = z.
Proof. intros H. unfold wrap256. apply Z.mod_small. exact H. Qed.

Lemma wrap64_range (z : Z) : 0 <= wrap64 z < 2 ^ 64.
Proof. unfold wrap64. apply Z.mod_pos_bound. lia. Qed.

Lemma wrap256_range (z : Z) : 0 <= wrap256 z < 2 ^ 256.
Proof. unfold wrap256. apply Z.mod_pos_bound. lia. Qed.

(** ** Validity time range *)

(** C9.  [validateValidityTimeRange] accepts exactly the zero window and the
    times with [validAfter <= time <= validUntil]: the zero window is always
    valid; a window with [validUntil < validAfter] is rejected as invalid;
    for any other window a time above [validUntil] is rejected as expired, a
    time below [validAfter] as not reached yet, and a time equal to either
    bound is accepted. *)
Theorem validateValidityTimeRange_window (time validAfter validUntil : Z) :
  (validateValidityTimeRange time validAfter validUntil = None <->
     (validAfter = 0 /\ validUntil = 0) \/ validAfter <= time <= validUntil) /\
  validateValidityTimeRange time 0 0 = None /\
  (validUntil < validAfter ->
     validateValidityTimeRange time validAfter validUntil = errInvalidRange) /\
  (validAfter <= validUntil -> ~ (validAfter = 0 /\ validUntil = 0) ->
     validUntil < time ->
     validateValidityTimeRange time validAfter validUntil = errExpired) /\
  (validAfter <= validUntil -> ~ (validAfter = 0 /\ validUntil = 0) ->
     time < validAfter ->
     validateValidityTimeRange time validAfter validUntil = errNotReached) /\
  (validAfter <= validUntil ->
     validateValidityTimeRange validAfter validAfter validUntil = None /\
     validateValidityTimeRange validUntil validAfter validUntil = None).
Proof.
  unfold validateValidityTimeRange, errInvalidRange, errExpired, errNotReached.
  repeat split.
  - destruct (validUntil =? 0) eqn:E1, (validAfter =? 0) eqn:E2; simpl;
      try (intros _; left; lia);
      destruct (validUntil <? validAfter) eqn:E3; try discriminate;
      destruct (validUntil <? time) eqn:E4; try discriminate;
      destruct (time <? validAfter) eqn:E5; try discriminate;
      intros _; right; lia.
  - intros [[-> ->] | H]; [reflexivity |].
    destruct (validUntil =? 0), (validAfter =? 0); simpl; try reflexivity;
      (destruct (validUntil <? validAfter) eqn:E3; [lia |]);
      (destruct (validUntil <? time) eqn:E4; [lia |]);
      (destruct (time <? validAfter) eqn:E5; [lia | reflexivity]).
  - intros H.
    destruct (validUntil =? 0) eqn:E1, (validAfter =? 0) eqn:E2; simpl;
      try lia; (destruct (validUntil <? validAfter) eqn:E3; [reflexivity | lia]).
  - intros H Hz Ht.
    destruct (validUntil =? 0) eqn:E1, (validAfter =? 0) eqn:E2; simpl;
      try (exfalso; apply Hz; lia);
      (destruct (validUntil <? validAfter) eqn:E3; [lia |]);
      (destruct (validUntil <? time) eqn:E4; [reflexivity | lia]).
  - intros H Hz Ht.
    destruct (validUntil =? 0) eqn:E1, (validAfter =? 0) eqn:E2; simpl;
      try (exfalso; apply Hz; lia);
      (destruct (validUntil <? validAfter) eqn:E3; [lia |]);
      (destruct (validUntil <? time) eqn:E4; [lia |]);
      (destruct (time <? validAfter) eqn:E5; [reflexivity | lia]).
  - destruct (validUntil =? 0), (validAfter =? 0); simpl; try reflexivity;
      (destruct (validUntil <? validAfter) eqn:E3; [lia |]);
      (destruct (validUntil <? validAfter) eqn:E4; [lia |]);
      (destruct (validAfter <? validAfter) eqn:E5; [lia | reflexivity]).
  - destruct (validUntil =? 0), (validAfter =? 0); simpl; try reflexivity;
      (destruct (validUntil <? validAfter) eqn:E3; [lia |]);
      (destruct (validUntil <? validUntil) eqn:E4; [lia |]);
      (destruct (validUntil <? validAfter) eqn:E5; [lia | reflexivity]).
Qed.

(** ** Sums of gas values *)

Lemma SumGas_from_exact (vals : list Z) : forall acc,
  0 <= acc ->
  Forall (fun v => 0 <= v <= 2 ^ 62) vals ->
  acc + sumZ vals < 2 ^ 64 ->
  SumGas_from acc vals = Ok (acc + sumZ vals).
Proof.
  induction vals as [| v rest IH]; intros acc Hacc Hall Hsum; simpl in *.
  - f_equal. lia.
  - inversion Hall as [| ? ? Hv Hrest]; subst.
    assert (Hnn : 0 <= sumZ rest).
    { clear -Hrest. induction Hrest; simpl; lia. }
    destruct (2 ^ 62 <? v) eqn:E; [lia |].
    unfold add64. rewrite wrap64_small by lia.
    rewrite IH by (try assumption; lia). f_equal. lia.
Qed.

(** [SumGas] is exact when the values are within the bound and their sum
    fits in 64 bits. *)
Lemma SumGas_exact (vals : list Z) :
  Forall (fun v => 0 <= v <= 2 ^ 62) vals ->
  sumZ vals < 2 ^ 64 ->
  SumGas vals = Ok (sumZ vals).
Proof.
  intros Hall Hsum. unfold SumGas.
  rewrite SumGas_from_exact by (try assumption; lia). reflexivity.
Qed.

Lemma SumGas_exact_witness : SumGas [15000; 100000; 200000] = Ok 315000.
Proof.
  apply (SumGas_exact [15000; 100000; 200000]).
  - repeat constructor; lia.
  - vm_compute. reflexivity.
Defined.

(** C3.  With each of the four gas limits at [2^62] and any base constant
    within the same bound, [TotalGasLimit] returns no error and the base
    constant alone: the 64-bit sum has wrapped around, the mathematical sum
    being [2^64] more. *)
Theorem TotalGasLimit_wraps_at_bound (Rip7560TxGas : Z) :
  0 <= Rip7560TxGas <= 2 ^ 62 ->
  Forall (fun v => 0 <= v <= 2 ^ 62)
    [ Rip7560TxGas; Gas txGasAtBound; ValidationGasLimit txGasAtBound;
      PaymasterValidationGasLimit txGasAtBound; PostOpGas txGasAtBound ] /\
  TotalGasLimit Rip7560TxGas txGasAtBound = Ok Rip7560TxGas /\
  sumZ [ Rip7560TxGas; Gas txGasAtBound; ValidationGasLimit txGasAtBound;
         PaymasterValidationGasLimit txGasAtBound; PostOpGas txGasAtBound ]
    = Rip7560TxGas + 2 ^ 64.
Proof.
  intros Hb. split; [| split].
  - simpl. repeat constructor; lia.
  - unfold TotalGasLimit, SumGas. simpl.
    destruct (2 ^ 62 <? Rip7560TxGas) eqn:E; [lia |].
    change (4611686018427387904 <? 4611686018427387904) with false. cbv iota.
    f_equal. unfold add64, wrap64.
    rewrite !Zplus_mod_idemp_l.
    rewrite (Z.mod_small (0 + Rip7560TxGas)) by lia.
    rewrite (Z.mod_small (0 + Rip7560TxGas + 2 ^ 62 + 2 ^ 62)) by lia.
    symmetry. apply (Z.mod_unique_pos _ _ 1); lia.
  - simpl. lia.
Qed.

Lemma TotalGasLimit_wraps_at_bound_witness :
  TotalGasLimit 15000 txGasAtBound = Ok 15000.
Proof.
  apply (TotalGasLimit_wraps_at_bound 15000). lia.
Defined.

Lemma SumGas_from_range (vals : list Z) : forall acc s,
  0 <= acc < 2 ^ 64 -> SumGas_from acc vals = Ok s -> 0 <= s < 2 ^ 64.
Proof.
  induction vals as [| v rest IH]; intros acc s Hacc H; simpl in H.
  - inversion H; subst. exact Hacc.
  - destruct (2 ^ 62 <? v); [discriminate |].
    eapply IH; [| exact H]. apply wrap64_range.
Qed.

Lemma SumGas_range (vals : list Z) (s : Z) : SumGas vals = Ok s -> 0 <= s < 2 ^ 64.
Proof. apply SumGas_from_range. lia. Qed.

(** ** The gas payer and the pre-charge *)

Lemma GasPayer_paymaster (tx : Rip7560AccountAbstractionTx) (p : Address) :
  Paymaster tx = Some p -> p <> zeroAddress -> GasPayer tx = p.
Proof.
  intros Hp Hnz. unfold GasPayer. rewrite Hp.
  destruct (p =? zeroAddress) eqn:E; [| reflexivity].
  apply Z.eqb_eq in E. contradiction.
Qed.

Lemma GasPayer_sender (tx : Rip7560AccountAbstractionTx) :
  Paymaster tx = None \/ Paymaster tx = Some zeroAddress -> GasPayer tx = Sender tx.
Proof. intros [H | H]; unfold GasPayer; rewrite H; reflexivity. Qed.

Lemma GetBalance_SubBalance (s : StateDB) (a : Address) (amount : Z) :
  GetBalance (SubBalance s a amount) a = sub256 (GetBalance s a) amount.
Proof.
  unfold SubBalance, setBalance, GetBalance. simpl.
  rewrite lookup_insert_eq. reflexivity.
Qed.

Lemma GetBalance_SubBalance_other (s : StateDB) (a b : Address) (amount : Z) :
  a <> b -> GetBalance (SubBalance s a amount) b = GetBalance s b.
Proof.
  intros Hne. unfold SubBalance, setBalance, GetBalance. simpl.
  rewrite lookup_insert_ne by exact Hne. reflexivity.
Qed.

Lemma GetBalance_AddBalance (s : StateDB) (a : Address) (amount : Z) :
  GetBalance (AddBalance s a amount) a = add256 (GetBalance s a) amount.
Proof.
  unfold AddBalance, setBalance, GetBalance. simpl.
  rewrite lookup_insert_eq. reflexivity.
Qed.

Lemma GetBalance_AddBalance_other (s : StateDB) (a b : Address) (amount : Z) :
  a <> b -> GetBalance (AddBalance s a amount) b = GetBalance s b.
Proof.
  intros Hne. unfold AddBalance, setBalance, GetBalance. simpl.
  rewrite lookup_insert_ne by exact Hne. reflexivity.
Qed.

(** The three ways [BuyGasRip7560Transaction] ends once the total gas limit
    is computed. *)
Lemma BuyGas_cases (base : Z) (tx : Rip7560AccountAbstractionTx) (state : StateDB)
    (gasPrice : Z) (gp : GasPool) (gasLimit : Z) :
  TotalGasLimit base tx = Ok gasLimit ->
  let preCharge := wrap256 (gasLimit * gasPrice) in
  let payer := GasPayer tx in
  BuyGasRip7560Transaction base tx state gasPrice gp =
    if GetBalance state payer <? preCharge then
      (Err (Base (Wrapped ErrInsufficientFunds)), state, gp)
    else if gp <? gasLimit then
      (Err (Vpe (mkVPE (Some (Wrapped ErrGasLimitReached)) []
                   (Some "block gas limit"%string) false)),
       SubBalance state payer preCharge, gp)
    else (Ok (gasLimit, preCharge), SubBalance state payer preCharge, gp - gasLimit).
Proof.
  intros HL preCharge payer. unfold BuyGasRip7560Transaction. rewrite HL.
  assert (HR : 0 <= gasLimit < 2 ^ 64) by (eapply SumGas_range; exact HL).
  assert (Hpre : mul256 (wrap256 gasLimit) gasPrice = preCharge).
  { unfold preCharge, mul256. rewrite (wrap256_small gasLimit) by lia. reflexivity. }
  rewrite Hpre. fold payer.
  destruct (GetBalance state payer <? preCharge); [reflexivity |].
  unfold SubGas. destruct (gp <? gasLimit); reflexivity.
Qed.

(** C6.  Once the total gas limit [gasLimit] is computed, the payer of
    [BuyGasRip7560Transaction] is the paymaster when one is set and non-zero
    and the sender otherwise; the pre-charge is [gasLimit * gasPrice] in
    256-bit arithmetic; a payer balance below it fails with the
    insufficient-funds error; otherwise a pool below [gasLimit] fails with
    the gas-limit-reached error; otherwise the pre-charge is subtracted from
    the payer's balance, every other balance is kept, and [gasLimit] is
    taken from the pool. *)
Theorem BuyGas_precharge (base : Z) (tx : Rip7560AccountAbstractionTx)
    (state : StateDB) (gasPrice : Z) (gp : GasPool) (gasLimit : Z) :
  TotalGasLimit base tx = Ok gasLimit ->
  let payer := GasPayer tx in
  let preCharge := wrap256 (gasLimit * gasPrice) in
  let balance := GetBalance state payer in
  let result := BuyGasRip7560Transaction base tx state gasPrice gp in
  (forall p, Paymaster tx = Some p -> p <> zeroAddress -> payer = p) /\
  (Paymaster tx = None \/ Paymaster tx = Some zeroAddress -> payer = Sender tx) /\
  (0 <= gasLimit * gasPrice < 2 ^ 256 -> preCharge = gasLimit * gasPrice) /\
  (balance < preCharge ->
     result.1.1 = Err (Base (Wrapped ErrInsufficientFunds))) /\
  (preCharge <= balance -> gp < gasLimit ->
     exists v, result.1.1 = Err (Vpe v) /\
               vpe_inner v = Some (Wrapped ErrGasLimitReached)) /\
  (preCharge <= balance -> gasLimit <= gp ->
     result.1.1 = Ok (gasLimit, preCharge) /\
     result.2 = gp - gasLimit /\
     GetBalance result.1.2 payer = sub256 balance preCharge /\
     (balance < 2 ^ 256 -> GetBalance result.1.2 payer = balance - preCharge) /\
     (forall a, a <> payer -> GetBalance result.1.2 a = GetBalance state a)).
Proof.
  intros HL payer preCharge balance result.
  pose proof (BuyGas_cases base tx state gasPrice gp gasLimit HL) as Hc.
  cbv zeta in Hc. fold payer preCharge balance result in Hc.
  assert (Hpre : 0 <= preCharge < 2 ^ 256) by apply wrap256_range.
  split; [intros p Hp Hnz; apply GasPayer_paymaster; assumption |].
  split; [apply GasPayer_sender |].
  split; [intros Hfit; apply wrap256_small; exact Hfit |].
  split; [| split].
  - intros Hlt. rewrite Hc.
    destruct (balance <? preCharge) eqn:E; [reflexivity | lia].
  - intros Hge Hpool. rewrite Hc.
    destruct (balance <? preCharge) eqn:E; [lia |].
    destruct (gp <? gasLimit) eqn:E2; [| lia].
    eexists. split; reflexivity.
  - intros Hge Hpool. rewrite Hc.
    destruct (balance <? preCharge) eqn:E; [lia |].
    destruct (gp <? gasLimit) eqn:E2; [lia |]. simpl.
    split; [reflexivity |]. split; [reflexivity |].
    split; [apply GetBalance_SubBalance |].
    split.
    + intros Hb. rewrite GetBalance_SubBalance. fold balance.
      unfold sub256. apply wrap256_small. lia.
    + intros a Ha. apply GetBalance_SubBalance_other. congruence.
Qed.

Lemma BuyGas_precharge_witness :
  (BuyGasRip7560Transaction 15000 txSimple stateSimple 2 1000000).2 = 1000000 - 315000 /\
  GetBalance (BuyGasRip7560Transaction 15000 txSimple stateSimple 2 1000000).1.2 exSender
    = 1000000000 - 630000.
Proof.
  pose proof (BuyGas_precharge 15000 txSimple stateSimple 2 1000000 315000 eq_refl) as H.
  cbv zeta in H. destruct H as (_ & _ & _ & _ & _ & H).
  destruct H as (_ & H2 & _ & H4 & _); [vm_compute; discriminate | lia |].
  split; [exact H2 |]. apply H4. vm_compute. reflexivity.
Defined.

(** C10.  When the pool cannot reserve the gas, [BuyGasRip7560Transaction]
    returns its error with the pre-charge already subtracted from the payer's
    balance and the pool untouched: the state it leaves is the charged one.
    When the balance is insufficient it returns with the state and the pool
    exactly as they were. *)
Theorem BuyGas_failure_states (base : Z) (tx : Rip7560AccountAbstractionTx)
    (state : StateDB) (gasPrice : Z) (gp : GasPool) (gasLimit : Z) :
  TotalGasLimit base tx = Ok gasLimit ->
  let payer := GasPayer tx in
  let preCharge := wrap256 (gasLimit * gasPrice) in
  let balance := GetBalance state payer in
  let result := BuyGasRip7560Transaction base tx state gasPrice gp in
  (preCharge <= balance -> gp < gasLimit ->
     isErr result.1.1 = true /\
     result.1.2 = SubBalance state payer preCharge /\
     GetBalance result.1.2 payer = sub256 balance preCharge /\
     (0 < preCharge -> balance < 2 ^ 256 -> GetBalance result.1.2 payer < balance) /\
     result.2 = gp) /\
  (balance < preCharge ->
     isErr result.1.1 = true /\ result.1.2 = state /\ result.2 = gp).
Proof.
  intros HL payer preCharge balance result.
  pose proof (BuyGas_cases base tx state gasPrice gp gasLimit HL) as Hc.
  cbv zeta in Hc. fold payer preCharge balance result in Hc.
  assert (Hpre : 0 <= preCharge < 2 ^ 256) by apply wrap256_range.
  split.
  - intros Hge Hpool. rewrite Hc.
    destruct (balance <? preCharge) eqn:E; [lia |].
    destruct (gp <? gasLimit) eqn:E2; [| lia]. simpl.
    repeat split; try reflexivity.
    + apply GetBalance_SubBalance.
    + intros Hpos Hb. rewrite GetBalance_SubBalance. fold balance.
      unfold sub256. rewrite wrap256_small by lia. lia.
  - intros Hlt. rewrite Hc.
    destruct (balance <? preCharge) eqn:E; [| lia].
    repeat split; reflexivity.
Qed.

Lemma BuyGas_failure_states_witness :
  GetBalance (BuyGasRip7560Transaction 15000 txSimple stateSimple 2 1000).1.2 exSender
    < 1000000000 /\
  (BuyGasRip7560Transaction 15000 txSimple stateSimple 2000000000 1000).1.2 = stateSimple.
Proof.
  pose proof (BuyGas_failure_states 15000 txSimple stateSimple 2 1000 315000 eq_refl) as H.
  pose proof (BuyGas_failure_states 15000 txSimple stateSimple 2000000000 1000 315000 eq_refl)
    as H'.
  cbv zeta in H, H'. destruct H as (H & _). destruct H' as (_ & H').
  destruct H as (_ & _ & _ & H4 & _); [vm_compute; discriminate | lia |].
  destruct H' as (_ & H2 & _); [vm_compute; reflexivity |].
  split; [| exact H2].
  apply H4; vm_compute; reflexivity.
Defined.

(** ** The post-op block of the execution phase *)

Section PostOp.

Context {abi : AbiCodec}.
Variable evm : EVM.

(** C1.  When the post-op frame fails, the block leaves the state database
    at the snapshot taken before the account call and the receipt status at
    failed, and the execution status it leaves is [PostOpFailure] (2)
    whatever it was before: 2 also when the execution frame had failed, where
    [ExecutionAndPostOpFailure] (3) is assigned first and overwritten. *)
Theorem postOpBlock_failure_status (aatx : Rip7560AccountAbstractionTx)
    (vpr : ValidationPhaseResult) (beforeExecSnapshotId : StateDB)
    (executionResult : ExecutionResult)
    (gasUsed gasRefund receiptStatus executionStatus : Z)
    (m m' : Machine) (po : PostOpLocals) (r : ExecutionResult) :
  postOpBlock evm aatx vpr beforeExecSnapshotId executionResult
    gasUsed gasRefund receiptStatus executionStatus m = (Ok po, m') ->
  paymasterPostOpResult po = Some r ->
  Failed r = true ->
  m_statedb m' = beforeExecSnapshotId /\
  po_receiptStatus po = ReceiptStatusFailed /\
  po_executionStatus po = ExecutionStatusPostOpFailure.
Proof.
  unfold postOpBlock, applyPaymasterPostOpFrame.
  destruct (negb (Nat.eqb (length (PaymasterContext vpr)) 0)); simpl.
  2: { intros H Hr _. inversion H; subst. simpl in Hr. discriminate. }
  unfold mbind, V_bind, pure.
  destruct (preparePostOpMessage vpr (negb (Failed executionResult))
              (sub64 gasUsed gasRefund)) as [msg | e | p]; try discriminate.
  destruct (Paymaster aatx) as [paymaster |]; [| discriminate].
  unfold callFrame, CallFrame. simpl.
  set (res := {| ReturnData := _; UsedGas := _; ResErr := _; RefundedGas := _ |}).
  destruct (Failed res) eqn:HF; simpl; intros H Hr Hfail;
    inversion H; subst; simpl in *; inversion Hr; subst.
  - repeat split; reflexivity.
  - congruence.
Qed.

End PostOp.

Lemma postOpBlock_failure_status_witness :
  exists po m',
    exPostOpAfterFailedExecution = (Ok po, m') /\
    m_statedb m' = stateSponsored /\
    po_executionStatus po = ExecutionStatusPostOpFailure.
Proof.
  destruct exPostOpAfterFailedExecution as [[po | e | p] m'] eqn:E;
    [| vm_compute in E; discriminate ..].
  exists po, m'. split; [reflexivity |].
  assert (Hr : exists r, paymasterPostOpResult po = Some r /\ Failed r = true).
  { pose proof E as E'. vm_compute in E'. inversion E'; subst po m'.
    eexists. split; reflexivity. }
  destruct Hr as (r & Hr & HF).
  unfold exPostOpAfterFailedExecution in E.
  destruct (postOpBlock_failure_status _ _ _ _ _ _ _ _ _ _ _ _ _ E Hr HF)
    as (H1 & _ & H3).
  split; assumption.
Defined.

(** The whole pipeline on the sponsored transaction, with an execution frame
    and a post-op frame that both revert: the receipt is failed, and the
    [RIP7560TransactionEvent] log carries status 2, not 3. *)
Example both_failures_logged_as_post_op_failure :
  exists vpr receipt m',
    exSponsoredRun true true = (Ok (vpr, receipt), m') /\
    rcpt_Status receipt = ReceiptStatusFailed /\
    map loggedStatus (take 1 (rcpt_Logs receipt)) = [ExecutionStatusPostOpFailure] /\
    GetBalance (m_statedb m') 0x77 = 0.
Proof.
  eexists _, _, _. split; [vm_compute; reflexivity |].
  repeat split; vm_compute; reflexivity.
Qed.

(** ** Settlement: refund, coinbase fee and the burned base fee *)

Lemma wrap256_eqm (a : Z) : eqm256 (wrap256 a) a.
Proof. unfold eqm256, wrap256. apply Zmod_mod. Qed.

Lemma EffectiveGasPrice_min (tx : Rip7560AccountAbstractionTx) (baseFee : Z) :
  EffectiveGasPrice tx (Some baseFee) = Z.min (GasFeeCap tx) (baseFee + GasTipCap tx).
Proof.
  unfold EffectiveGasPrice.
  destruct (GasTipCap tx <? GasFeeCap tx - baseFee) eqn:E; lia.
Qed.

Lemma EffectiveGasPrice_tip (tx : Rip7560AccountAbstractionTx) (baseFee : Z) :
  EffectiveGasPrice tx (Some baseFee)
  = BigMin (GasTipCap tx) (GasFeeCap tx - baseFee) + baseFee.
Proof.
  unfold EffectiveGasPrice, BigMin.
  destruct (GasTipCap tx <? GasFeeCap tx - baseFee) eqn:E1,
           (GasFeeCap tx - baseFee <? GasTipCap tx) eqn:E2; lia.
Qed.

Lemma settlement_arith (P tip baseFee gasUsed : Z) :
  wrap256 (wrap256 (P - wrap256 (P - wrap256 (wrap256 (tip + baseFee) * wrap256 gasUsed)))
           - wrap256 (wrap256 gasUsed * wrap256 tip))
  = wrap256 (gasUsed * baseFee).
Proof.
  change (eqm256
            (wrap256 (P - wrap256 (P - wrap256 (wrap256 (tip + baseFee) * wrap256 gasUsed)))
             - wrap256 (wrap256 gasUsed * wrap256 tip))
            (gasUsed * baseFee)).
  rewrite (wrap256_eqm (tip + baseFee)), (wrap256_eqm gasUsed), (wrap256_eqm tip).
  rewrite (wrap256_eqm (gasUsed * tip)), (wrap256_eqm ((tip + baseFee) * gasUsed)).
  rewrite (wrap256_eqm (P - (tip + baseFee) * gasUsed)).
  rewrite (wrap256_eqm (P - (P - (tip + baseFee) * gasUsed))).
  replace (P - (P - (tip + baseFee) * gasUsed) - gasUsed * tip)
    with (gasUsed * baseFee) by ring.
  reflexivity.
Qed.

(** C2, as amended.  Under London rules with the fee paid, what the payer is
    charged and not refunded exceeds the coinbase fee by exactly the base
    fee on the gas used, in 256-bit arithmetic; the refund and the fee are
    the ones of the claim. *)
Theorem settlement_burns_base_fee (config : ChainConfig) (cfg : VmConfig)
    (header : Header) (tx : Rip7560AccountAbstractionTx)
    (vpr : ValidationPhaseResult) (gasUsed baseFee fee : Z) :
  IsLondon config (Number header) = true ->
  BaseFee header = Some baseFee ->
  EffectiveGasPriceU256 vpr = wrap256 (EffectiveGasPrice tx (BaseFee header)) ->
  coinbaseFee config cfg header tx gasUsed = Ok (Some fee) ->
  payerRefund vpr gasUsed
    = wrap256 (PreCharge vpr - gasUsed * Z.min (GasFeeCap tx) (baseFee + GasTipCap tx)) /\
  fee = wrap256 (gasUsed * Z.min (GasTipCap tx) (GasFeeCap tx - baseFee)) /\
  unsettled vpr gasUsed fee = wrap256 (gasUsed * baseFee).
Proof.
  intros HL HB HP HF.
  unfold coinbaseFee in HF. rewrite HL, HB in HF. simpl in HF.
  destruct (NoBaseFee cfg && (GasFeeCap tx =? 0) && (GasTipCap tx =? 0));
    [discriminate |].
  inversion HF as [Hfee]; clear HF.
  rewrite HB in HP.
  assert (Hmin : BigMin (GasTipCap tx) (GasFeeCap tx - baseFee)
                 = Z.min (GasTipCap tx) (GasFeeCap tx - baseFee)).
  { unfold BigMin. destruct (GasFeeCap tx - baseFee <? GasTipCap tx) eqn:E; lia. }
  split; [| split].
  - unfold payerRefund. rewrite HP, EffectiveGasPrice_min.
    unfold sub256, mul256.
    change (eqm256 (PreCharge vpr
                    - wrap256 (wrap256 (Z.min (GasFeeCap tx) (baseFee + GasTipCap tx))
                               * wrap256 gasUsed))
                   (PreCharge vpr
                    - gasUsed * Z.min (GasFeeCap tx) (baseFee + GasTipCap tx))).
    rewrite !wrap256_eqm. rewrite Z.mul_comm. reflexivity.
  - unfold mul256. rewrite Hmin.
    change (eqm256 (wrap256 gasUsed * wrap256 (Z.min (GasTipCap tx) (GasFeeCap tx - baseFee)))
                   (gasUsed * Z.min (GasTipCap tx) (GasFeeCap tx - baseFee))).
    rewrite !wrap256_eqm. reflexivity.
  - unfold unsettled, payerRefund. rewrite HP, EffectiveGasPrice_tip.
    unfold sub256, mul256.
    apply settlement_arith.
Qed.

Lemma settlement_burns_base_fee_witness :
  unsettled vprSponsored 174500 174500 = wrap256 (174500 * 1).
Proof.
  apply (settlement_burns_base_fee exConfig exVmConfig exHeader txSponsored
           vprSponsored 174500 1 174500); reflexivity.
Defined.

(** C2, as stated, fails: on the sponsored transaction with both frames
    succeeding, validated and executed under a base fee of 1, the pre-charge
    less the refund less the coinbase fee is the burned base fee, not 0. *)
Lemma settlement_is_not_zero_sum :
  exists vpr receipt m' fee,
    exSponsoredRun false false = (Ok (vpr, receipt), m') /\
    coinbaseFee exConfig exVmConfig exHeader txSponsored (rcpt_GasUsed receipt)
      = Ok (Some fee) /\
    unsettled vpr (rcpt_GasUsed receipt) fee = 174500 /\
    unsettled vpr (rcpt_GasUsed receipt) fee <> 0.
Proof.
  eexists _, _, _, _. split; [vm_compute; reflexivity |].
  split; [vm_compute; reflexivity |].
  split; [vm_compute; reflexivity | vm_compute; discriminate].
Qed.

(** ** Gas used against the total gas limit *)

(** C5.  A transaction with a two-dimensional nonce passes validation with
    every frame within its gas limit, the nonce-manager frame using 30000
    gas; its execution phase then computes a gas use of 330000 against a
    total gas limit of 315000 and panics. *)
Theorem gas_used_exceeds_total_limit :
  exists vpr m1,
    exTwoDimensionalValidation = (Ok vpr, m1) /\
    TotalGasLimit 15000 txTwoDimensional = Ok 315000 /\
    NonceManagerUsedGas vpr = 30000 /\
    validationPhaseUsedGas vpr = Ok 230000 /\
    (ApplyRip7560ExecutionPhase (abi := exAbi) 15000 exConfig (scripted scriptGreedy)
       vpr exCoinbase exHeader exVmConfig 0 m1).1
    = Panicked "cannot spend more gas than the total limit".
Proof.
  eexists _, _. split; [vm_compute; reflexivity |].
  repeat split; vm_compute; reflexivity.
Qed.

(** ** The interceptor across the frames of validation *)

(** C4.  The buffer is not cleared before the account frame.  When the new
    account calls the EntryPoint during the deployer frame and its validation
    frame makes no such call, validation succeeds; when the deployer itself
    calls the EntryPoint and the validation frame makes its one callback,
    validation fails as a repeated call. *)
Theorem callback_captured_outside_account_frame :
  (exists vpr m',
     exDeployValidation [callbackFrom exSender exAcceptAccount] [] = (Ok vpr, m') /\
     forall s gasLimit,
       entryPointCalls
         (evm_entered (scripted (scriptDeploy [callbackFrom exSender exAcceptAccount] [])
                         s AA_ENTRY_POINT exSender [9] gasLimit)) = []) /\
  (exDeployValidation [callbackFrom exDeployer []] [callbackFrom exSender exAcceptAccount]).1
  = Err (wrapError (Base (Msg "illegal repeated call to the EntryPoint callback"))) /\
  (forall s gasLimit,
     entryPointCalls
       (evm_entered (scripted (scriptDeploy [callbackFrom exDeployer []]
                                 [callbackFrom exSender exAcceptAccount])
                       s AA_ENTRY_POINT exSender [9] gasLimit))
     = [callbackFrom exSender exAcceptAccount]).
Proof.
  split; [| split].
  - eexists _, _. split; [vm_compute; reflexivity |]. intros; reflexivity.
  - vm_compute. reflexivity.
  - intros. reflexivity.
Qed.

(** ** Stepping through the processor's monad *)

Lemma bind_Ok_inv {A B} (act : V A) (k : A -> V B) (m m' : Machine) (b : B) :
  (act ≫= k) m = (Ok b, m') ->
  exists a m1, act m = (Ok a, m1) /\ k a m1 = (Ok b, m').
Proof.
  unfold mbind, V_bind. destruct (act m) as [[a | e | p] m1]; intros H;
    try discriminate.
  exists a, m1. split; [reflexivity | exact H].
Qed.

Lemma orReturn_Ok_inv (wrap : error -> error) (e : option error) (m m' : Machine) (u : unit) :
  orReturn wrap e m = (Ok u, m') -> e = None /\ m' = m.
Proof.
  destruct e; simpl; unfold throw, mret, V_ret; intros H; inversion H; auto.
Qed.

Lemma attempt_Ok_inv {A} (wrap : error -> error) (x : outcome A) (m m' : Machine) (a : A) :
  attempt wrap x m = (Ok a, m') -> x = Ok a /\ m' = m.
Proof.
  destruct x; simpl; unfold throw, panic, mret, V_ret; intros H; inversion H; auto.
Qed.

Lemma pure_Ok_inv {A} (x : outcome A) (m m' : Machine) (a : A) :
  pure x m = (Ok a, m') -> x = Ok a /\ m' = m.
Proof. unfold pure. intros H; inversion H; auto. Qed.

Lemma wrapping_Ok_inv {A} (wrap : error -> error) (act : V A) (m m' : Machine) (a : A) :
  wrapping wrap act m = (Ok a, m') -> act m = (Ok a, m').
Proof.
  unfold wrapping. destruct (act m) as [[x | e | p] m1]; intros H;
    inversion H; reflexivity.
Qed.

Section Keeps.

Context {T : Type}.
Variable observe : Machine -> T.

Lemma keeps_bind {A B} (act : V A) (k : A -> V B) :
  keeps observe act -> (forall x, keeps observe (k x)) -> keeps observe (act ≫= k).
Proof.
  intros Hact Hk m b m' H.
  apply bind_Ok_inv in H as (x & m1 & H1 & H2).
  rewrite (Hk x _ _ _ H2). exact (Hact _ _ _ H1).
Qed.

Lemma keeps_throw {A} (e : error) : keeps observe (throw e : V A).
Proof. intros m x m' H. discriminate. Qed.

Lemma keeps_panic {A} (p : string) : keeps observe (panic p : V A).
Proof. intros m x m' H. discriminate. Qed.

Lemma keeps_mret {A} (x : A) : keeps observe (mret x : V A).
Proof. intros m y m' H. inversion H; reflexivity. Qed.

Lemma keeps_getStatedb : keeps observe getStatedb.
Proof. intros m y m' H. inversion H; reflexivity. Qed.

Lemma keeps_getEpc : keeps observe getEpc.
Proof. intros m y m' H. inversion H; reflexivity. Qed.

Lemma keeps_getSt : keeps observe getSt.
Proof. intros m y m' H. inversion H; reflexivity. Qed.

Lemma keeps_pure {A} (x : outcome A) : keeps observe (pure x).
Proof. intros m y m' H. apply pure_Ok_inv in H as [_ ->]. reflexivity. Qed.

Lemma keeps_attempt {A} (wrap : error -> error) (x : outcome A) :
  keeps observe (attempt wrap x).
Proof. intros m y m' H. apply attempt_Ok_inv in H as [_ ->]. reflexivity. Qed.

Lemma keeps_orReturn (wrap : error -> error) (e : option error) :
  keeps observe (orReturn wrap e).
Proof. intros m y m' H. apply orReturn_Ok_inv in H as [_ ->]. reflexivity. Qed.

Variable evm : EVM.
Hypothesis Hstable : frameStable observe evm.

Lemma keeps_performNonceCheckFrameRip7712 (config : ChainConfig) (blockNumber : Z)
    (tx : Rip7560AccountAbstractionTx) :
  keeps observe (performNonceCheckFrameRip7712 config evm blockNumber tx).
Proof.
  destruct Hstable as (_ & _ & Hcall). unfold performNonceCheckFrameRip7712.
  destruct (negb (IsRIP7712 config blockNumber)); [apply keeps_throw |].
  apply keeps_bind; [apply keeps_pure | intros msg].
  apply keeps_bind; [apply keeps_getSt | intros st].
  apply keeps_bind; [apply Hcall | intros res].
  destruct (ResErr res); [apply keeps_throw | apply keeps_mret].
Qed.

Lemma keeps_CheckNonceRip7560 (config : ChainConfig) (blockNumber : Z)
    (tx : Rip7560AccountAbstractionTx) :
  keeps observe (CheckNonceRip7560 config evm blockNumber tx).
Proof.
  unfold CheckNonceRip7560.
  destruct (IsRip7712Nonce tx); [apply keeps_performNonceCheckFrameRip7712 |].
  apply keeps_bind; [apply keeps_getStatedb | intros s].
  destruct (_ <? _); [apply keeps_throw |].
  destruct (_ <? _); [apply keeps_throw |].
  destruct (_ <? _); [apply keeps_throw | apply keeps_mret].
Qed.

Lemma keeps_applyPaymasterValidationFrame {abi : AbiCodec}
    (tx : Rip7560AccountAbstractionTx) (signingHash : Hash) (header : Header) :
  keeps observe (applyPaymasterValidationFrame evm tx signingHash header).
Proof.
  destruct Hstable as (_ & _ & Hcall). unfold applyPaymasterValidationFrame.
  apply keeps_bind; [apply keeps_attempt | intros msg].
  destruct msg as [msg |]; [| apply keeps_mret].
  destruct (Paymaster tx) as [paymaster |]; [| apply keeps_panic].
  apply keeps_bind; [apply Hcall | intros res].
  destruct (ResErr res); [apply keeps_throw |].
  apply keeps_bind; [apply keeps_getEpc | intros epc].
  apply keeps_bind; [apply keeps_attempt | intros apd].
  apply keeps_bind; [apply keeps_orReturn | intros _].
  destruct (_ && _); [apply keeps_throw | apply keeps_mret].
Qed.

End Keeps.

Lemma frameStable_gp (evm : EVM) : frameStable m_gp evm.
Proof.
  repeat split; intros; intros m y m' H.
  - inversion H; reflexivity.
  - inversion H; reflexivity.
  - unfold callFrameTraced, CallFrameTraced, CallFrame in H. inversion H; reflexivity.
Qed.

Lemma frameStable_nonce (evm : EVM) (a : Address) :
  evmKeepsNonce evm a -> frameStable (nonceOf a) evm.
Proof.
  intros Hevm. repeat split; intros; intros m y m' H.
  - inversion H; reflexivity.
  - inversion H; reflexivity.
  - unfold callFrameTraced, CallFrameTraced, CallFrame in H.
    inversion H; subst; unfold nonceOf; simpl. apply Hevm.
Qed.

(** ** A successful validation, step by step *)

Section ValidationSteps.

Context {abi : AbiCodec}.
Variable base : Z.
Variable config : ChainConfig.
Variable evm : EVM.
Variable header : Header.
Variable tx : Rip7560AccountAbstractionTx.

Lemma validation_inv (m m' : Machine) (vpr : ValidationPhaseResult) :
  ApplyRip7560ValidationPhases base config evm header tx m = (Ok vpr, m') ->
  exists t, validationSteps base config evm header tx m t vpr m'.
Proof.
  intros H. unfold ApplyRip7560ValidationPhases in H.
  apply bind_Ok_inv in H as (s0 & ma & Ha & H).
  inversion Ha; subst s0 ma; clear Ha.
  apply bind_Ok_inv in H as (u1 & mb & Hb & H).
  apply orReturn_Ok_inv in Hb as [Hstatic ->].
  apply bind_Ok_inv in H as (price & mc & Hc & H).
  apply pure_Ok_inv in Hc as [Hprice ->].
  apply bind_Ok_inv in H as ([gasLimit preCharge] & md & Hd & H).
  apply wrapping_Ok_inv in Hd.
  apply bind_Ok_inv in H as (u2 & me & He & H).
  inversion He; subst me; clear He.
  apply bind_Ok_inv in H as (u3 & mf & Hf & H).
  inversion Hf; subst mf; clear Hf.
  apply bind_Ok_inv in H as (ptc & mg & Hg & H).
  apply pure_Ok_inv in Hg as [Hptc ->].
  apply bind_Ok_inv in H as (nonceUsed & mh & Hh & H).
  apply bind_Ok_inv in H as (deployUsed & mi & Hi & H).
  apply bind_Ok_inv in H as (msg & mj & Hj & H).
  apply attempt_Ok_inv in Hj as [Hmsg ->].
  apply bind_Ok_inv in H as (res & mk & Hk & H).
  destruct (ResErr res) eqn:Hres; [discriminate |].
  apply bind_Ok_inv in H as (epc & ml & Hl & H).
  inversion Hl; subst epc ml; clear Hl.
  apply bind_Ok_inv in H as (aad & mm & Hm & H).
  apply attempt_Ok_inv in Hm as [Haad ->].
  apply bind_Ok_inv in H as (u4 & mn & Hn & H).
  inversion Hn; subst mn; clear Hn.
  apply bind_Ok_inv in H as (u5 & mo & Ho & H).
  apply orReturn_Ok_inv in Ho as [Htime ->].
  apply bind_Ok_inv in H as ([[[ctx pmUsed] pmAfter] pmUntil] & mp & Hp & H).
  apply bind_Ok_inv in H as (s1 & mq & Hq & H).
  inversion Hq; subst s1 mq; clear Hq.
  apply bind_Ok_inv in H as (u6 & mr & Hr & H).
  inversion Hr; subst mr; clear Hr.
  inversion H; subst; clear H.
  exists {| vt_price := price; vt_gasLimit := gasLimit; vt_preCharge := preCharge;
            vt_afterBuyGas := md; vt_preTransactionGasCost := ptc;
            vt_nonceManagerUsedGas := nonceUsed; vt_afterNonce := mh;
            vt_deploymentUsedGas := deployUsed; vt_afterDeployer := mi;
            vt_accountValidationMsg := msg; vt_resultAccountValidation := res;
            vt_afterAccount := mk; vt_aad := aad;
            vt_paymaster := (ctx, pmUsed, pmAfter, pmUntil);
            vt_afterPaymaster := mp |}.
  unfold validationSteps; simpl.
  repeat (split; [first [assumption | reflexivity] |]).
  reflexivity.
Qed.

Lemma buyGas_nonce (a : Address) (price : Z) : keeps (nonceOf a) (buyGas base tx price).
Proof.
  intros m x m' H. unfold buyGas, BuyGasRip7560Transaction in H.
  destruct (TotalGasLimit base tx) as [gasLimit | e | p]; try (inversion H; fail).
  destruct (GetBalance (m_statedb m) (GasPayer tx) <? mul256 (wrap256 gasLimit) price);
    [inversion H |].
  destruct (SubGas (m_gp m) gasLimit); inversion H; subst; reflexivity.
Qed.

(** What a successful [BuyGasRip7560Transaction] has done. *)
Lemma buyGas_Ok_inv (price : Z) (m m' : Machine) (gasLimit preCharge : Z) :
  buyGas base tx price m = (Ok (gasLimit, preCharge), m') ->
  TotalGasLimit base tx = Ok gasLimit /\
  preCharge = wrap256 (gasLimit * price) /\
  gasLimit <= m_gp m /\
  m_gp m' = m_gp m - gasLimit /\
  m_statedb m' = SubBalance (m_statedb m) (GasPayer tx) preCharge /\
  m_st m' = m_st m /\ m_epc m' = m_epc m.
Proof.
  intros H. unfold buyGas in H.
  destruct (TotalGasLimit base tx) as [L | e | p] eqn:HL;
    try (unfold BuyGasRip7560Transaction in H; rewrite HL in H; inversion H; fail).
  rewrite (BuyGas_cases base tx (m_statedb m) price (m_gp m) L HL) in H.
  destruct (_ <? _) eqn:E1; [inversion H |].
  destruct (m_gp m <? L) eqn:E2; inversion H; subst.
  repeat split; try reflexivity. lia.
Qed.

(** The one-dimensional check, when it passes, has compared the nonces and
    changed nothing. *)
Lemma CheckNonceRip7560_passes (blockNumber : Z) (m m' : Machine) (used : Z) :
  IsRip7712Nonce tx = false ->
  CheckNonceRip7560 config evm blockNumber tx m = (Ok used, m') ->
  m' = m /\ used = 0 /\
  GetNonce (m_statedb m) (Sender tx) = Nonce tx /\
  ~ add64 (GetNonce (m_statedb m) (Sender tx)) 1 < GetNonce (m_statedb m) (Sender tx).
Proof.
  intros H1D H. unfold CheckNonceRip7560 in H. rewrite H1D in H.
  apply bind_Ok_inv in H as (s & m1 & Hs & H). inversion Hs; subst s m1; clear Hs.
  destruct (GetNonce (m_statedb m) (Sender tx) <? Nonce tx) eqn:E1; [discriminate |].
  destruct (Nonce tx <? GetNonce (m_statedb m) (Sender tx)) eqn:E2; [discriminate |].
  destruct (add64 (GetNonce (m_statedb m) (Sender tx)) 1
            <? GetNonce (m_statedb m) (Sender tx)) eqn:E3; [discriminate |].
  inversion H; subst. repeat split; lia.
Qed.

Lemma GetNonce_SetNonce (s : StateDB) (a : Address) (n : Z) :
  GetNonce (SetNonce s a n) a = n.
Proof. unfold GetNonce, SetNonce. simpl. rewrite lookup_insert_eq. reflexivity. Qed.

(** The deployer frame, or the increment in its place. *)
Lemma deployerFrame_nonce (preTransactionGasCost : Z) (m m' : Machine) (used : Z) :
  evmKeepsNonce evm (Sender tx) ->
  deployerFrame evm tx preTransactionGasCost m = (Ok used, m') ->
  nonceOf (Sender tx) m' =
    if isSome (Deployer tx) || IsRip7712Nonce tx
    then nonceOf (Sender tx) m
    else add64 (nonceOf (Sender tx) m) 1.
Proof.
  intros Hevm H. unfold deployerFrame in H.
  destruct (frameStable_nonce evm (Sender tx) Hevm) as (_ & _ & Hcall).
  destruct (Deployer tx) as [deployer |]; simpl.
  - apply bind_Ok_inv in H as (res & m1 & Hc & H).
    apply Hcall in Hc.
    destruct (ResErr res); [discriminate |].
    apply bind_Ok_inv in H as (s & m2 & Hs & H). inversion Hs; subst s m2; clear Hs.
    destruct (GetCodeSize (m_statedb m1) (Sender tx) =? 0); [discriminate |].
    inversion H; subst. exact Hc.
  - destruct (IsRip7712Nonce tx); simpl in *.
    + inversion H; subst. reflexivity.
    + apply bind_Ok_inv in H as (s & m1 & Hs & H). inversion Hs; subst s m1; clear Hs.
      apply bind_Ok_inv in H as (u & m1 & Hs & H). inversion Hs; subst m1; clear Hs.
      inversion H; subst. unfold nonceOf. simpl. apply GetNonce_SetNonce.
Qed.

Lemma validation_nonce (m m' : Machine) (vpr : ValidationPhaseResult) :
  evmKeepsNonce evm (Sender tx) ->
  ApplyRip7560ValidationPhases base config evm header tx m = (Ok vpr, m') ->
  exists m1 m2 used,
    nonceOf (Sender tx) m1 = nonceOf (Sender tx) m /\
    CheckNonceRip7560 config evm (Number header) tx m1 = (Ok used, m2) /\
    nonceOf (Sender tx) m' =
      if isSome (Deployer tx) || IsRip7712Nonce tx
      then nonceOf (Sender tx) m
      else add64 (nonceOf (Sender tx) m) 1.
Proof.
  intros Hevm H.
  pose proof (frameStable_nonce evm (Sender tx) Hevm) as Hst.
  destruct (validation_inv m m' vpr H) as (t & Ht).
  destruct Ht as (_ & _ & Hbuy & _ & Hnonce & Hdep & _ & Hacc & _ & _ & _ & Hpm & Hm' & _).
  apply (buyGas_nonce (Sender tx)) in Hbuy.
  pose proof (keeps_CheckNonceRip7560 _ evm Hst config (Number header) tx _ _ _ Hnonce)
    as Hn.
  apply (deployerFrame_nonce _ _ _ _ Hevm) in Hdep.
  destruct Hst as (_ & _ & Hcall). apply Hcall in Hacc.
  apply (keeps_applyPaymasterValidationFrame _ evm (frameStable_nonce evm _ Hevm)) in Hpm.
  exists (enterFrames (vt_afterBuyGas t) (vt_gasLimit t)), (vt_afterNonce t),
         (vt_nonceManagerUsedGas t).
  split; [exact Hbuy |]. split; [exact Hnonce |].
  subst m'.
  change (nonceOf (Sender tx) (finalised (vt_afterPaymaster t)))
    with (nonceOf (Sender tx) (vt_afterPaymaster t)).
  rewrite Hpm.
  change (nonceOf (Sender tx) (enterPaymaster (vt_afterAccount t)))
    with (nonceOf (Sender tx) (vt_afterAccount t)).
  rewrite Hacc, Hdep, Hn.
  change (nonceOf (Sender tx) (enterFrames (vt_afterBuyGas t) (vt_gasLimit t)))
    with (nonceOf (Sender tx) (vt_afterBuyGas t)).
  rewrite Hbuy. reflexivity.
Qed.

End ValidationSteps.

Section NonceTheorem.

Context {abi : AbiCodec}.
Variable base : Z.
Variable config : ChainConfig.
Variable evm : EVM.
Variable header : Header.
Variable tx : Rip7560AccountAbstractionTx.

(** C7.  With a zero (or absent) nonce key the check compares the sender's
    nonce in state with the transaction's: a lower state nonce is the
    too-high error, a higher one the too-low error, equal nonces at the
    largest 64-bit value the overflow error, and equal nonces below it pass,
    with no change of state.  Through a successful validation whose EVM frames
    leave the sender's nonce alone, the nonce grows by exactly 1 when no
    deployer is set and the nonce is not two-dimensional, and is unchanged
    otherwise, in particular with a deployer. *)
Theorem nonce_check_and_increment (m : Machine) :
  let n := GetNonce (m_statedb m) (Sender tx) in
  0 <= n < 2 ^ 64 ->
  (NonceKey tx = Some 0 \/ NonceKey tx = None ->
     (n < Nonce tx ->
        CheckNonceRip7560 config evm (Number header) tx m
        = (Err (Base (Wrapped ErrNonceTooHigh)), m)) /\
     (Nonce tx < n ->
        CheckNonceRip7560 config evm (Number header) tx m
        = (Err (Base (Wrapped ErrNonceTooLow)), m)) /\
     (n = Nonce tx -> n = MaxUint64 ->
        CheckNonceRip7560 config evm (Number header) tx m
        = (Err (Base (Wrapped ErrNonceMax)), m)) /\
     (n = Nonce tx -> n < MaxUint64 ->
        CheckNonceRip7560 config evm (Number header) tx m = (Ok 0, m))) /\
  (evmKeepsNonce evm (Sender tx) ->
   forall vpr m',
     ApplyRip7560ValidationPhases base config evm header tx m = (Ok vpr, m') ->
     (Deployer tx = None -> IsRip7712Nonce tx = false ->
        GetNonce (m_statedb m') (Sender tx) = n + 1) /\
     (Deployer tx <> None \/ IsRip7712Nonce tx = true ->
        GetNonce (m_statedb m') (Sender tx) = n)).
Proof.
  intros n Hn. split.
  - intros Hkey.
    assert (H1D : IsRip7712Nonce tx = false).
    { unfold IsRip7712Nonce. destruct Hkey as [-> | ->]; reflexivity. }
    unfold CheckNonceRip7560. rewrite H1D.
    unfold mbind, V_bind, getStatedb. fold n.
    repeat split.
    + intros Hlt. destruct (n <? Nonce tx) eqn:E; [reflexivity | lia].
    + intros Hlt. destruct (n <? Nonce tx) eqn:E; [lia |].
      destruct (Nonce tx <? n) eqn:E2; [reflexivity | lia].
    + intros Heq Hmax. destruct (n <? Nonce tx) eqn:E; [lia |].
      destruct (Nonce tx <? n) eqn:E2; [lia |].
      rewrite Hmax. reflexivity.
    + intros Heq Hlt. destruct (n <? Nonce tx) eqn:E; [lia |].
      destruct (Nonce tx <? n) eqn:E2; [lia |].
      unfold add64. rewrite wrap64_small by (unfold MaxUint64 in Hlt; lia).
      destruct (n + 1 <? n) eqn:E3; [lia | reflexivity].
  - intros Hevm vpr m' H.
    destruct (validation_nonce base config evm header tx m m' vpr Hevm H)
      as (m1 & m2 & used & H1 & Hc & H3).
    unfold nonceOf in H1, H3. fold n in H1, H3. split.
    + intros Hd H1D. rewrite H3, Hd, H1D. simpl.
      destruct (CheckNonceRip7560_passes config evm tx (Number header) m1 m2 used H1D Hc)
        as (_ & _ & _ & Hno).
      rewrite H1 in Hno.
      unfold add64, wrap64 in *.
      destruct (Z.eq_dec n (2 ^ 64 - 1)) as [-> | Hne].
      * exfalso. apply Hno. vm_compute. reflexivity.
      * apply Z.mod_small. lia.
    + intros Hor. rewrite H3.
      destruct Hor as [Hd | H2D].
      * destruct (Deployer tx); [reflexivity | contradiction].
      * rewrite H2D. rewrite orb_true_r. reflexivity.
Qed.

End NonceTheorem.

Lemma scriptPlain_keeps_nonce (a : Address) : evmKeepsNonce (scripted scriptPlain) a.
Proof. intros s from to data gasLimit. reflexivity. Qed.

Lemma nonce_check_and_increment_witness :
  exists vpr m',
    exSimpleValidation = (Ok vpr, m') /\
    GetNonce (m_statedb m') exSender = 0 + 1.
Proof.
  destruct exSimpleValidation as [[vpr | e | p] m'] eqn:E;
    [| vm_compute in E; discriminate ..].
  exists vpr, m'. split; [reflexivity |].
  unfold exSimpleValidation in E.
  assert (Hn : 0 <= GetNonce (m_statedb (mkMachine stateSimple 1000000)) (Sender txSimple)
               < 2 ^ 64) by (vm_compute; split; [discriminate | reflexivity]).
  destruct (nonce_check_and_increment (abi := exAbi) 15000 exConfig (scripted scriptPlain)
              exHeader txSimple (mkMachine stateSimple 1000000) Hn) as (_ & HB).
  destruct (HB (scriptPlain_keeps_nonce _) vpr m' E) as (H1 & _).
  apply H1; reflexivity.
Defined.

(** ** The nonce-manager message *)

Lemma be_bytes_length (n : nat) (v : Z) : length (be_bytes n v) = n.
Proof. induction n as [| k IH]; simpl; [reflexivity | rewrite IH; reflexivity]. Qed.

Lemma BitLen_bound (v : Z) (n : nat) :
  0 <= v < 256 ^ Z.of_nat n -> BitLen v <= 8 * Z.of_nat n.
Proof.
  intros [Hnn Hlt]. unfold BitLen. rewrite Z.abs_eq by exact Hnn.
  destruct (v =? 0) eqn:E; [lia |].
  apply Z.eqb_neq in E.
  assert (Hpow : 256 ^ Z.of_nat n = 2 ^ (8 * Z.of_nat n)).
  { change 256 with (2 ^ 8). rewrite <- Z.pow_mul_r by lia. reflexivity. }
  rewrite Hpow in Hlt.
  apply Z.log2_lt_pow2 in Hlt; lia.
Qed.

(** A non-negative number that fits in [n] bytes is padded to exactly its
    [n]-byte big-endian form. *)
Lemma PaddedBigBytes_fits (v : Z) (n : nat) :
  0 <= v < 256 ^ Z.of_nat n -> PaddedBigBytes v (Z.of_nat n) = be_bytes n v.
Proof.
  intros Hv. pose proof (BitLen_bound v n Hv) as Hb.
  unfold PaddedBigBytes. rewrite Z.abs_eq by lia.
  destruct (Z.of_nat n <=? BitLen v / 8) eqn:E.
  - apply Z.leb_le in E.
    assert (Hlen : BitLen v = 8 * Z.of_nat n).
    { pose proof (Z.mul_div_le (BitLen v) 8 ltac:(lia)). lia. }
    unfold BigBytes. rewrite Z.abs_eq by lia. rewrite Hlen.
    replace ((8 * Z.of_nat n + 7) / 8) with (Z.of_nat n).
    + rewrite Nat2Z.id. reflexivity.
    + apply (Z.div_unique _ _ _ 7); lia.
  - rewrite Nat2Z.id. reflexivity.
Qed.

(** Within a 192-bit key and a nonce below [2^63] the message is the spec's
    52 bytes. *)
Lemma prepareNonceManagerMessage_encoding (tx : Rip7560AccountAbstractionTx) (nonceKey : Z) :
  NonceKey tx = Some nonceKey ->
  0 <= nonceKey < 2 ^ 192 ->
  0 <= Nonce tx < 2 ^ 63 ->
  prepareNonceManagerMessage tx
    = Ok (nonceManagerCalldata (Sender tx) nonceKey (Nonce tx)) /\
  length (nonceManagerCalldata (Sender tx) nonceKey (Nonce tx)) = 52%nat.
Proof.
  intros Hk Hkey Hnonce. split.
  - unfold prepareNonceManagerMessage, nonceManagerCalldata, AddressBytes. rewrite Hk.
    unfold int64_of_uint64.
    destruct (Nonce tx <? 2 ^ 63) eqn:E; [| lia].
    change 24 with (Z.of_nat 24). change 8 with (Z.of_nat 8).
    rewrite (PaddedBigBytes_fits nonceKey 24) by (simpl; lia).
    rewrite (PaddedBigBytes_fits (Nonce tx) 8) by (simpl; lia).
    reflexivity.
  - unfold nonceManagerCalldata. rewrite !length_app, !be_bytes_length. reflexivity.
Qed.

Lemma prepareNonceManagerMessage_encoding_witness :
  prepareNonceManagerMessage txTwoDimensional
  = Ok (nonceManagerCalldata exSender 7 3).
Proof.
  apply (prepareNonceManagerMessage_encoding txTwoDimensional 7);
    [reflexivity | lia | simpl; lia].
Defined.

(** C8.  For the nonce [2^64 - 1] the message carries the eight bytes of the
    number 1 where the claim has the eight bytes [0xff]: [int64] of the nonce
    is [-1], and the padding encodes its absolute value. *)
Theorem nonce_message_for_large_nonce :
  IsRip7712Nonce txMaxNonce = true /\
  prepareNonceManagerMessage txMaxNonce
    = Ok (be_bytes 20 exSender ++ be_bytes 24 7 ++ [0; 0; 0; 0; 0; 0; 0; 1]) /\
  nonceManagerCalldata (Sender txMaxNonce) 7 (Nonce txMaxNonce)
    = be_bytes 20 exSender ++ be_bytes 24 7 ++ [255; 255; 255; 255; 255; 255; 255; 255] /\
  prepareNonceManagerMessage txMaxNonce
    <> Ok (nonceManagerCalldata (Sender txMaxNonce) 7 (Nonce txMaxNonce)).
Proof.
  split; [reflexivity |]. split; [vm_compute; reflexivity |].
  split; [vm_compute; reflexivity |].
  vm_compute. discriminate.
Qed.

(** ** The interceptor within one frame *)

Lemma entryPointCalls_cons (c : CallEnter) (rest : list CallEnter) :
  entryPointCalls (c :: rest) =
    if ce_to c =? AA_ENTRY_POINT then c :: entryPointCalls rest
    else entryPointCalls rest.
Proof.
  unfold entryPointCalls. rewrite filter_cons.
  destruct (decide (ce_to c = AA_ENTRY_POINT)) as [Heq | Hne].
  - rewrite Heq. reflexivity.
  - apply Z.eqb_neq in Hne. rewrite Hne. reflexivity.
Qed.

(** Once a call is captured, the buffer keeps it; any further call to the
    EntryPoint sets the error. *)
Lemma traceFrame_captured (input : list byte) (from : Address) (e : option error)
    (entered : list CallEnter) :
  traceFrame {| epc_Input := Some input; epc_From := from; epc_err := e |} entered =
    {| epc_Input := Some input; epc_From := from;
       epc_err := match entryPointCalls entered with [] => e | _ => errRepeated end |}.
Proof.
  revert e. induction entered as [| c rest IH]; intros e; [reflexivity |].
  unfold traceFrame in *. simpl. rewrite entryPointCalls_cons.
  unfold OnEnter at 2. simpl.
  destruct (ce_to c =? AA_ENTRY_POINT); simpl.
  - rewrite IH. f_equal. destruct (entryPointCalls rest); reflexivity.
  - apply IH.
Qed.

(** From the empty buffer, a frame leaves the first call to the EntryPoint
    captured and the error set exactly when there was a second one. *)
Lemma traceFrame_new (entered : list CallEnter) :
  traceFrame newEntryPointCall entered =
    match entryPointCalls entered with
    | [] => newEntryPointCall
    | c :: rest =>
        {| epc_Input := Some (ce_input c); epc_From := ce_from c;
           epc_err := match rest with [] => None | _ => errRepeated end |}
    end.
Proof.
  induction entered as [| c rest IH]; [reflexivity |].
  rewrite entryPointCalls_cons.
  unfold traceFrame in *. simpl. unfold OnEnter at 2. simpl.
  destruct (ce_to c =? AA_ENTRY_POINT); simpl.
  - apply traceFrame_captured.
  - exact IH.
Qed.

Lemma clearEntryPointCall_new (epc : EntryPointCall) :
  clearEntryPointCall epc = newEntryPointCall.
Proof. reflexivity. Qed.

Lemma traceFrame_uncaptured (from : Address) (e : option error) (entered : list CallEnter) :
  traceFrame {| epc_Input := None; epc_From := from; epc_err := e |} entered =
    match entryPointCalls entered with
    | [] => {| epc_Input := None; epc_From := from; epc_err := e |}
    | c :: rest =>
        {| epc_Input := Some (ce_input c); epc_From := ce_from c;
           epc_err := match rest with [] => e | _ => errRepeated end |}
    end.
Proof.
  induction entered as [| c rest IH]; [reflexivity |].
  rewrite entryPointCalls_cons.
  unfold traceFrame in *. simpl. unfold OnEnter at 2. simpl.
  destruct (ce_to c =? AA_ENTRY_POINT); simpl.
  - apply traceFrame_captured.
  - exact IH.
Qed.

(** Whatever the buffer held, two calls to the EntryPoint within one frame
    leave the error set. *)
Lemma traceFrame_two_calls (epc : EntryPointCall) (entered : list CallEnter)
    (c1 c2 : CallEnter) (rest : list CallEnter) :
  entryPointCalls entered = c1 :: c2 :: rest ->
  epc_err (traceFrame epc entered) = errRepeated.
Proof.
  intros H. destruct epc as [[input |] from e].
  - rewrite traceFrame_captured, H. reflexivity.
  - rewrite traceFrame_uncaptured, H. reflexivity.
Qed.

Section Callback.

Context {abi : AbiCodec}.

(** Within a frame entered with the empty buffer, the account's callback is
    accepted exactly when the frame made one call to the EntryPoint, that
    call came from the sender, and its input decodes as [acceptAccount]; the
    same for the paymaster; two such calls fail the check whatever the buffer
    held before; and clearing yields the empty buffer. *)
Theorem callback_within_frame (entered : list CallEnter) (entity : Address) :
  (forall aad,
     validateAccountEntryPointCall (traceFrame newEntryPointCall entered) entity = Ok aad <->
     exists c, entryPointCalls entered = [c] /\ ce_from c = entity /\
               abiDecodeAcceptAccount (ce_input c) false = Ok aad) /\
  (forall apd,
     validatePaymasterEntryPointCall (traceFrame newEntryPointCall entered) entity = Ok apd <->
     exists c, entryPointCalls entered = [c] /\ ce_from c = entity /\
               abiDecodeAcceptPaymaster (ce_input c) false = Ok apd) /\
  (forall epc c1 c2 rest, entryPointCalls entered = c1 :: c2 :: rest ->
     isErr (validateAccountEntryPointCall (traceFrame epc entered) entity) = true /\
     isErr (validatePaymasterEntryPointCall (traceFrame epc entered) entity) = true) /\
  (forall epc, clearEntryPointCall (traceFrame epc entered) = newEntryPointCall).
Proof.
  split; [| split; [| split]].
  - intros aad. rewrite traceFrame_new.
    unfold validateAccountEntryPointCall.
    destruct (entryPointCalls entered) as [| c [| c' rest]]; simpl.
    + split; [discriminate | intros (c & H & _); discriminate].
    + destruct (ce_from c =? entity) eqn:E; simpl.
      * apply Z.eqb_eq in E. split.
        -- intros H. exists c. auto.
        -- intros (c0 & Hc & _ & Hd). inversion Hc; subst. exact Hd.
      * apply Z.eqb_neq in E. split; [discriminate |].
        intros (c0 & Hc & Hf & _). inversion Hc; subst. contradiction.
    + split; [discriminate | intros (c0 & H & _); discriminate].
  - intros apd. rewrite traceFrame_new.
    unfold validatePaymasterEntryPointCall.
    destruct (entryPointCalls entered) as [| c [| c' rest]]; simpl.
    + split; [discriminate | intros (c & H & _); discriminate].
    + destruct (ce_from c =? entity) eqn:E; simpl.
      * apply Z.eqb_eq in E. split.
        -- intros H. exists c. auto.
        -- intros (c0 & Hc & _ & Hd). inversion Hc; subst. exact Hd.
      * apply Z.eqb_neq in E. split; [discriminate |].
        intros (c0 & Hc & Hf & _). inversion Hc; subst. contradiction.
    + split; [discriminate | intros (c0 & H & _); discriminate].
  - intros epc c1 c2 rest H.
    pose proof (traceFrame_two_calls epc entered c1 c2 rest H) as He.
    unfold validateAccountEntryPointCall, validatePaymasterEntryPointCall.
    rewrite He. split; reflexivity.
  - intros epc. apply clearEntryPointCall_new.
Qed.

End Callback.

Lemma callback_within_frame_witness :
  validateAccountEntryPointCall (abi := exAbi)
    (traceFrame newEntryPointCall
       [ {| ce_from := AA_ENTRY_POINT; ce_to := exSender; ce_input := [9] |};
         callbackFrom exSender exAcceptAccount ]) exSender
  = Ok {| aad_ValidAfter := 0; aad_ValidUntil := 0 |}.
Proof.
  apply (callback_within_frame (abi := exAbi)).
  exists (callbackFrom exSender exAcceptAccount).
  repeat split; reflexivity.
Defined.

(** ** The nonce-manager frame *)

Section NonceManagerFrame.

Variable config : ChainConfig.
Variable evm : EVM.

(** With the fork inactive the frame fails before any call: the machine is
    untouched whatever the EVM.  With the fork active the call goes from the
    EntryPoint to the nonce manager with the prepared message and the gas
    remaining; its failure is a validation error of entity "NonceManager"
    that carries the return data and is marked as a reverted frame. *)
Theorem nonce_manager_frame (blockNumber : Z) (tx : Rip7560AccountAbstractionTx)
    (m : Machine) :
  (IsRIP7712 config blockNumber = false ->
     performNonceCheckFrameRip7712 config evm blockNumber tx m
     = (Err (wrapError (Base (Msg "RIP-7712 nonce is disabled"))), m)) /\
  (IsRIP7712 config blockNumber = true ->
   forall data, prepareNonceManagerMessage tx = Ok data ->
     let r := evm (m_statedb m) AA_ENTRY_POINT AA_NONCE_MANAGER data
                (gasRemaining (m_st m)) in
     (forall e, evm_err r = Some e ->
        (performNonceCheckFrameRip7712 config evm blockNumber tx m).1
        = Err (Vpe {| vpe_inner := Some (MsgVM "RIP-7712 nonce validation failed" e);
                      vpe_reason := evm_ret r;
                      revertEntityName := Some "NonceManager"%string;
                      frameReverted := true |})) /\
     (evm_err r = None ->
        (performNonceCheckFrameRip7712 config evm blockNumber tx m).1
        = Ok (sub64 (gasRemaining (m_st m)) (evm_gasRemaining r)))).
Proof.
  split.
  - intros Hoff. unfold performNonceCheckFrameRip7712. rewrite Hoff. reflexivity.
  - intros Hon data Hdata r. unfold performNonceCheckFrameRip7712.
    rewrite Hon, Hdata. simpl.
    unfold mbind, V_bind, pure, getSt, callFrameTraced, CallFrameTraced, CallFrame.
    simpl. fold r. split.
    + intros e He. rewrite He. reflexivity.
    + intros He. rewrite He. reflexivity.
Qed.

End NonceManagerFrame.

Lemma nonce_manager_frame_witness :
  (performNonceCheckFrameRip7712
     {| IsLondon := fun _ => true; IsRIP7712 := fun _ => false |}
     (scripted scriptGreedy) 100 txTwoDimensional (mkMachine stateSimple 1000000)).1
  = Err (wrapError (Base (Msg "RIP-7712 nonce is disabled"))).
Proof.
  rewrite (proj1 (nonce_manager_frame
                    {| IsLondon := fun _ => true; IsRIP7712 := fun _ => false |}
                    (scripted scriptGreedy) 100 txTwoDimensional
                    (mkMachine stateSimple 1000000)));
    reflexivity.
Defined.

(** ** Validation failures and the driver's snapshot *)

Section Driver.

Context {abi : AbiCodec}.
Variable base : Z.
Variable config : ChainConfig.
Variable evm : EVM.
Variable header : Header.

(** An error of [BuyGasRip7560Transaction] ends validation, wrapped, with the
    state and the pool as the function left them. *)
Lemma validation_stops_at_buy_gas (tx : Rip7560AccountAbstractionTx) (m : Machine)
    (price : Z) (e : error) (state' : StateDB) (pool' : GasPool) :
  performStaticValidation base tx (m_statedb m) = None ->
  MustFromBig (EffectiveGasPrice tx (BaseFee header)) = Ok price ->
  BuyGasRip7560Transaction base tx (m_statedb m) price (m_gp m) = (Err e, state', pool') ->
  ApplyRip7560ValidationPhases base config evm header tx m
  = (Err (wrapError e),
     {| m_statedb := state'; m_gp := pool'; m_st := m_st m; m_epc := m_epc m |}).
Proof.
  intros Hs Hp Hb. unfold ApplyRip7560ValidationPhases.
  unfold mbind, V_bind, getStatedb. rewrite Hs. simpl.
  unfold pure. rewrite Hp. unfold wrapping, buyGas. rewrite Hb. reflexivity.
Qed.

(** In build mode a failed validation is skipped: the loop goes on from the
    state of the snapshot taken before validation, with the gas pool as the
    failed validation left it. *)
Theorem skipped_transaction_restores_state (coinbase : Address) (cfg : VmConfig)
    (index i : Z) (tx : Rip7560AccountAbstractionTx) (rest : list Transaction)
    (acc : BatchResult) (m m1 : Machine) (vpe : error) :
  let m0 := {| m_statedb := SetTxContext (m_statedb m) (TxHash tx) (index + i);
               m_gp := m_gp m; m_st := m_st m; m_epc := m_epc m |} in
  ApplyRip7560ValidationPhases base config evm header tx m0 = (Err vpe, m1) ->
  handleLoop base config evm coinbase header cfg true index (Rip7560Tx tx :: rest) i acc m
  = handleLoop base config evm coinbase header cfg true index rest (i + 1)
      {| validatedTransactions := validatedTransactions acc;
         receipts := receipts acc;
         validationFailureInfos := validationFailureInfos acc ++ [debugInfoOf tx vpe];
         allLogs := allLogs acc;
         batch_usedGas := batch_usedGas acc |}
      {| m_statedb := m_statedb m0; m_gp := m_gp m1; m_st := m_st m1; m_epc := m_epc m1 |}.
Proof.
  intros m0 H. simpl.
  unfold mbind at 1, V_bind at 1, getStatedb at 1.
  unfold mbind at 1, V_bind at 1, setStatedb at 1.
  unfold mbind at 1, V_bind at 1, getStatedb at 1. simpl.
  unfold caseResult. fold m0. rewrite H.
  unfold mbind at 1, V_bind at 1, getStatedb at 1.
  unfold mbind at 1, V_bind at 1, setStatedb at 1. simpl.
  reflexivity.
Qed.

End Driver.

Lemma skipped_transaction_restores_state_witness :
  m_statedb exSkippedBatch.2 = SetTxContext statePoor (@TxHash exAbi txSimple) 0.
Proof.
  unfold exSkippedBatch.
  destruct (ApplyRip7560ValidationPhases (abi := exAbi) 15000 exConfig (scripted scriptPlain)
              exHeader txSimple
              {| m_statedb := SetTxContext (m_statedb (mkMachine statePoor 1000000))
                                (@TxHash exAbi txSimple) (0 + 0);
                 m_gp := m_gp (mkMachine statePoor 1000000);
                 m_st := m_st (mkMachine statePoor 1000000);
                 m_epc := m_epc (mkMachine statePoor 1000000) |})
    as [[vpr | vpe | p] m1] eqn:E; [vm_compute in E; discriminate | | vm_compute in E; discriminate].
  rewrite (skipped_transaction_restores_state (abi := exAbi) 15000 exConfig
             (scripted scriptPlain) exHeader exCoinbase exVmConfig 0 0 txSimple []
             emptyBatch (mkMachine statePoor 1000000) m1 vpe E).
  reflexivity.
Defined.

(** ** The block gas pool through validation and execution *)

Section GasPoolAccounting.

Context {abi : AbiCodec}.
Variable base : Z.
Variable config : ChainConfig.
Variable evm : EVM.
Variable header : Header.

Lemma keeps_gp_setStatedb (s : StateDB) : keeps m_gp (setStatedb s).
Proof. intros m y m' H. inversion H; reflexivity. Qed.

Lemma keeps_gp_callFrame (from to : Address) (data : list byte) (gasLimit : Z) :
  keeps m_gp (callFrame evm from to data gasLimit).
Proof.
  intros m y m' H. unfold callFrame, CallFrame in H. inversion H; reflexivity.
Qed.

Lemma keeps_gp_deployerFrame (tx : Rip7560AccountAbstractionTx) (preTransactionGasCost : Z) :
  keeps m_gp (deployerFrame evm tx preTransactionGasCost).
Proof.
  destruct (frameStable_gp evm) as (_ & _ & Hcall). unfold deployerFrame.
  destruct (Deployer tx) as [deployer |].
  - apply keeps_bind; [apply Hcall | intros res].
    destruct (ResErr res); [apply keeps_throw |].
    apply keeps_bind; [apply keeps_getStatedb | intros s].
    destruct (_ =? _); [apply keeps_throw | apply keeps_mret].
  - destruct (negb (IsRip7712Nonce tx)); [| apply keeps_mret].
    apply keeps_bind; [apply keeps_getStatedb | intros s].
    apply keeps_bind; [apply keeps_gp_setStatedb | intros _].
    apply keeps_mret.
Qed.

Lemma keeps_gp_injectEvent (topics : list Hash) (data : list byte) (blockNumber : Z) :
  keeps m_gp (injectEvent topics data blockNumber).
Proof.
  unfold injectEvent.
  apply keeps_bind; [apply keeps_getStatedb | intros s]. apply keeps_gp_setStatedb.
Qed.

Lemma keeps_gp_postOpBlock (aatx : Rip7560AccountAbstractionTx) (vpr : ValidationPhaseResult)
    (snapshot : StateDB) (executionResult : ExecutionResult)
    (gasUsed gasRefund receiptStatus executionStatus : Z) :
  keeps m_gp (postOpBlock evm aatx vpr snapshot executionResult gasUsed gasRefund
                receiptStatus executionStatus).
Proof.
  unfold postOpBlock, applyPaymasterPostOpFrame.
  destruct (negb _); [| apply keeps_mret].
  apply keeps_bind.
  - apply keeps_bind; [apply keeps_pure | intros msg].
    destruct (Paymaster aatx); [apply keeps_gp_callFrame | apply keeps_panic].
  - intros res. apply keeps_bind; [| intros [rs es]; apply keeps_mret].
    destruct (Failed res); [| apply keeps_mret].
    apply keeps_bind; [apply keeps_getStatedb | intros s].
    apply keeps_bind; [apply keeps_gp_setStatedb | intros _]. apply keeps_mret.
Qed.

Lemma keeps_gp_payCoinbase (cfg : VmConfig) (coinbase : Address)
    (msg : Rip7560AccountAbstractionTx) (gasUsed : Z) :
  keeps m_gp (payCoinbase config cfg header coinbase msg gasUsed).
Proof.
  unfold payCoinbase.
  apply keeps_bind; [apply keeps_pure | intros fee].
  destruct fee; [| apply keeps_mret].
  apply keeps_bind; [apply keeps_getStatedb | intros s]. apply keeps_gp_setStatedb.
Qed.

(** Validation reserves the total gas limit and nothing more. *)
Lemma validation_gp (tx : Rip7560AccountAbstractionTx) (m m' : Machine)
    (vpr : ValidationPhaseResult) :
  ApplyRip7560ValidationPhases base config evm header tx m = (Ok vpr, m') ->
  exists total,
    TotalGasLimit base tx = Ok total /\ total <= m_gp m /\
    m_gp m' = m_gp m - total /\ vpr_Tx vpr = tx.
Proof.
  intros H. destruct (validation_inv base config evm header tx m m' vpr H) as (t & Ht).
  destruct Ht as (_ & _ & Hbuy & _ & Hnonce & Hdep & _ & Hacc & _ & _ & _ & Hpm & Hm' & Hv).
  apply buyGas_Ok_inv in Hbuy as (HL & _ & Hle & Hgp & _).
  apply (keeps_CheckNonceRip7560 _ evm (frameStable_gp evm)) in Hnonce.
  apply keeps_gp_deployerFrame in Hdep.
  destruct (frameStable_gp evm) as (_ & _ & Hcall). apply Hcall in Hacc.
  apply (keeps_applyPaymasterValidationFrame _ evm (frameStable_gp evm)) in Hpm.
  exists (vt_gasLimit t). split; [exact HL |]. split; [exact Hle |].
  split; [| subst vpr; reflexivity].
  subst m'. simpl in *. congruence.
Qed.

(** An execution phase that returns a receipt has passed the guard and
    returned the remainder to the pool. *)
Lemma execution_gp (vpr : ValidationPhaseResult) (author : Address) (cfg : VmConfig)
    (usedGas : Z) (m m' : Machine) (receipt : Receipt) (usedGas' : Z) :
  ApplyRip7560ExecutionPhase base config evm vpr author header cfg usedGas m
    = (Ok (receipt, usedGas'), m') ->
  let totalGasLimit := dropErr (TotalGasLimit base (vpr_Tx vpr)) in
  0 <= rcpt_GasUsed receipt < 2 ^ 64 /\
  rcpt_GasUsed receipt <= totalGasLimit /\
  m_gp m' = m_gp m + sub64 totalGasLimit (rcpt_GasUsed receipt) /\
  usedGas' = add64 usedGas (rcpt_GasUsed receipt).
Proof.
  intros H totalGasLimit. unfold ApplyRip7560ExecutionPhase in H.
  apply bind_Ok_inv in H as (u1 & ma & Ha & H).
  assert (Ga : m_gp ma = m_gp m) by (inversion Ha; reflexivity).
  apply bind_Ok_inv in H as (s0 & mb & Hb & H). apply (keeps_getStatedb m_gp) in Hb.
  apply bind_Ok_inv in H as (res & mc & Hc & H). apply keeps_gp_callFrame in Hc.
  apply bind_Ok_inv in H as (s1 & md & Hd & H). apply (keeps_getStatedb m_gp) in Hd.
  apply bind_Ok_inv in H as (po & me & He & H). apply keeps_gp_postOpBlock in He.
  apply bind_Ok_inv in H as (s2 & mf & Hf & H). apply (keeps_getStatedb m_gp) in Hf.
  apply bind_Ok_inv in H as (u2 & mg & Hg & H). apply keeps_gp_setStatedb in Hg.
  apply bind_Ok_inv in H as (u3 & mh & Hh & H). apply keeps_gp_payCoinbase in Hh.
  fold totalGasLimit in H.
  set (gasUsed := sub64 (po_gasUsed po) (po_gasRefund po)) in *.
  destruct (totalGasLimit <? gasUsed) eqn:Hguard; [discriminate |].
  apply bind_Ok_inv in H as (pool & mi & Hi & H).
  unfold addGas in Hi.
  assert (Hpool : pool = m_gp mh + sub64 totalGasLimit gasUsed /\ mi = mh).
  { unfold AddGas in Hi. destruct (_ <? m_gp mh); inversion Hi; auto. }
  destruct Hpool as [-> ->]. clear Hi.
  apply bind_Ok_inv in H as (u4 & mj & Hj & H).
  assert (Gj : m_gp mj = m_gp mh + sub64 totalGasLimit gasUsed)
    by (inversion Hj; reflexivity).
  apply bind_Ok_inv in H as (u5 & mk & Hk & H).
  assert (Gk : m_gp mk = m_gp mj).
  { unfold injectRIP7560TransactionEvent in Hk.
    apply bind_Ok_inv in Hk as ([topics data] & mx & Hx & Hk).
    apply (keeps_pure m_gp) in Hx. apply keeps_gp_injectEvent in Hk. congruence. }
  apply bind_Ok_inv in H as (u6 & ml & Hl & H).
  assert (Gl : m_gp ml = m_gp mk).
  { destruct (isSome _); [| inversion Hl; reflexivity].
    unfold injectRIP7560AccountDeployedEvent in Hl.
    apply bind_Ok_inv in Hl as ([topics data] & mx & Hx & Hl).
    apply (keeps_pure m_gp) in Hx. apply keeps_gp_injectEvent in Hl. congruence. }
  apply bind_Ok_inv in H as (u7 & mm & Hm & H).
  assert (Gm : m_gp mm = m_gp ml).
  { destruct (Failed res); [| inversion Hm; reflexivity].
    unfold injectRIP7560TransactionRevertReasonEvent in Hm.
    apply bind_Ok_inv in Hm as ([topics data] & mx & Hx & Hm).
    apply (keeps_pure m_gp) in Hx. apply keeps_gp_injectEvent in Hm. congruence. }
  apply bind_Ok_inv in H as (u8 & mn & Hn & H).
  assert (Gn : m_gp mn = m_gp mm).
  { destruct (paymasterPostOpResult po) as [r |]; [| inversion Hn; reflexivity].
    destruct (Failed r); [| inversion Hn; reflexivity].
    unfold injectRIP7560TransactionPostOpRevertReasonEvent in Hn.
    apply bind_Ok_inv in Hn as ([topics data] & mx & Hx & Hn).
    apply (keeps_pure m_gp) in Hx. apply keeps_gp_injectEvent in Hn. congruence. }
  apply bind_Ok_inv in H as (s3 & mo & Ho & H). apply (keeps_getStatedb m_gp) in Ho.
  inversion H; subst; clear H. simpl.
  fold gasUsed.
  split; [apply wrap64_range |]. split; [lia |]. split; [congruence | reflexivity].
Qed.

End GasPoolAccounting.

Section GasPoolTheorem.

Context {abi : AbiCodec}.
Variable base : Z.
Variable config : ChainConfig.
Variable evm : EVM.
Variable header : Header.

(** X6.  A validation that succeeds takes the transaction's total gas limit
    out of the block gas pool; an execution phase that then returns a receipt
    reports a gas use no larger than that limit and gives the remainder back,
    so that over both phases the pool shrinks by exactly the gas the receipt
    reports, which is also what the running block total grows by. *)
Theorem gas_pool_accounting (tx : Rip7560AccountAbstractionTx) (m m1 m2 : Machine)
    (vpr : ValidationPhaseResult) (author : Address) (cfg : VmConfig)
    (usedGas usedGas' : Z) (receipt : Receipt) :
  ApplyRip7560ValidationPhases base config evm header tx m = (Ok vpr, m1) ->
  ApplyRip7560ExecutionPhase base config evm vpr author header cfg usedGas m1
    = (Ok (receipt, usedGas'), m2) ->
  exists total,
    TotalGasLimit base tx = Ok total /\
    total <= m_gp m /\
    m_gp m1 = m_gp m - total /\
    0 <= rcpt_GasUsed receipt <= total /\
    m_gp m2 = m_gp m - rcpt_GasUsed receipt /\
    usedGas' = add64 usedGas (rcpt_GasUsed receipt).
Proof.
  intros Hv He.
  destruct (validation_gp base config evm header tx m m1 vpr Hv)
    as (total & HL & Hle & Hgp & Htx).
  apply execution_gp in He. rewrite Htx, HL in He. simpl in He.
  destruct He as (Hr & Hg & Hpool & Hused).
  pose proof (SumGas_range _ _ HL) as Ht.
  exists total. repeat split; try assumption; try lia.
  rewrite Hpool, Hgp. unfold sub64. rewrite wrap64_small by lia. lia.
Qed.

End GasPoolTheorem.

Lemma gas_pool_accounting_witness :
  exists vpr m1 receipt used m2,
    exSponsoredValidation = (Ok vpr, m1) /\
    exSponsoredExecution vpr m1 = (Ok (receipt, used), m2) /\
    m_gp m2 = 1000000 - rcpt_GasUsed receipt.
Proof.
  destruct exSponsoredValidation as [[vpr | e | p] m1] eqn:Ev;
    [| vm_compute in Ev; discriminate ..].
  destruct (exSponsoredExecution vpr m1) as [[[receipt used] | e | p] m2] eqn:Ee.
  - exists vpr, m1, receipt, used, m2. split; [reflexivity |]. split; [exact Ee |].
    destruct (gas_pool_accounting (abi := exAbi) 15000 exConfig
                (scripted (scriptSponsored false false)) exHeader txSponsored
                (mkMachine stateSponsored 1000000) m1 m2 vpr exCoinbase exVmConfig
                0 used receipt Ev Ee) as (total & _ & _ & _ & _ & H & _).
    exact H.
  - exfalso. vm_compute in Ev. injection Ev as <- <-. vm_compute in Ee. discriminate.
  - exfalso. vm_compute in Ev. injection Ev as <- <-. vm_compute in Ee. discriminate.
Defined.

(** * Further properties of the pipeline *)

(** ** Calldata and the pre-transaction gas cost *)

Lemma wrap64_add_l (a b : Z) : wrap64 (wrap64 a + b) = wrap64 (a + b).
Proof. unfold wrap64. apply Zplus_mod_idemp_l. Qed.

Lemma wrap64_add_r (a b : Z) : wrap64 (a + wrap64 b) = wrap64 (a + b).
Proof. unfold wrap64. apply Zplus_mod_idemp_r. Qed.

Lemma wrap64_sub_l (a b : Z) : wrap64 (wrap64 a - b) = wrap64 (a - b).
Proof. unfold wrap64. apply Zminus_mod_idemp_l. Qed.

Lemma wrap64_sub_r (a b : Z) : wrap64 (a - wrap64 b) = wrap64 (a - b).
Proof. unfold wrap64. apply Zminus_mod_idemp_r. Qed.

Lemma wrap64_mul_l (a b : Z) : wrap64 (wrap64 a * b) = wrap64 (a * b).
Proof. unfold wrap64. apply Zmult_mod_idemp_l. Qed.

Lemma wrap64_le (z : Z) : 0 <= z -> 0 <= wrap64 z <= z.
Proof.
  intros H. unfold wrap64. split; [apply Z.mod_pos_bound; lia |].
  apply Z.mod_le; lia.
Qed.

Lemma countZero_app (a b : list byte) : countZero (a ++ b) = countZero a + countZero b.
Proof. induction a as [| x a IH]; simpl; [reflexivity | rewrite IH; lia]. Qed.

Lemma countZero_range (data : list byte) : 0 <= countZero data <= Z.of_nat (length data).
Proof.
  induction data as [| x data IH]; simpl length; simpl countZero; [lia |].
  destruct (x =? 0); lia.
Qed.

Lemma wrap64_div (z : Z) : wrap64 z = z - 2 ^ 64 * (z / 2 ^ 64).
Proof. unfold wrap64. apply Z.mod_eq. lia. Qed.

Lemma wrap64_shift (a b k : Z) : a = b + k * 2 ^ 64 -> wrap64 a = wrap64 b.
Proof. intros ->. unfold wrap64. apply Z_mod_plus_full. Qed.

(** The cost as one reduction of the linear form. *)
Lemma callDataCost_wrap (data : list byte) :
  callDataCost data
  = wrap64 (16 * (Z.of_nat (length data) - countZero data) + 4 * countZero data).
Proof.
  unfold callDataCost, add64, mul64, sub64, Params.TxDataNonZeroGasEIP2028,
    Params.TxDataZeroGas.
  set (n := Z.of_nat (length data)). set (z := countZero data).
  rewrite wrap64_add_l, wrap64_add_r.
  rewrite (wrap64_div (wrap64 n - wrap64 z)), (wrap64_div n), (wrap64_div z).
  set (q1 := (_ - _) / 2 ^ 64). set (q2 := n / 2 ^ 64). set (q3 := z / 2 ^ 64).
  apply (wrap64_shift _ _ (- 16 * q1 - 16 * q2 + 12 * q3)). lia.
Qed.

(** X7.  The calldata cost of the empty string is 0, and the cost of a
    concatenation is the 64-bit sum of the costs of its parts. *)
Theorem callDataCost_additive (a b : list byte) :
  callDataCost [] = 0 /\
  callDataCost (a ++ b) = add64 (callDataCost a) (callDataCost b).
Proof.
  split; [reflexivity |].
  rewrite !callDataCost_wrap. unfold add64.
  rewrite wrap64_add_l, wrap64_add_r. f_equal.
  rewrite length_app, countZero_app, Nat2Z.inj_add. lia.
Qed.

Lemma callDataCost_bounds (data : list byte) :
  Z.of_nat (length data) < 2 ^ 60 ->
  callDataCost data = 16 * Z.of_nat (length data) - 12 * countZero data /\
  4 * Z.of_nat (length data) <= callDataCost data <= 16 * Z.of_nat (length data).
Proof.
  intros H. pose proof (countZero_range data) as Hz.
  rewrite callDataCost_wrap.
  rewrite wrap64_small by (change (2 ^ 64) with (16 * 2 ^ 60); lia).
  lia.
Qed.

(** X8.  For data shorter than [2^60] bytes the calldata cost is 16 per byte
    less 12 per zero byte, without wrap-around: between 4 and 16 times the
    length. *)
Theorem callDataCost_exact (data : list byte) :
  Z.of_nat (length data) < 2 ^ 60 ->
  callDataCost data = 16 * Z.of_nat (length data) - 12 * countZero data /\
  4 * Z.of_nat (length data) <= callDataCost data <= 16 * Z.of_nat (length data).
Proof. exact (callDataCost_bounds data). Qed.

Lemma callDataCost_exact_witness :
  callDataCost [0; 7; 0; 9] = 16 * 4 - 12 * 2.
Proof.
  destruct (callDataCost_exact [0; 7; 0; 9]) as [H _]; [simpl; lia |].
  exact H.
Defined.

Lemma StorageKeys_from (al : list AccessTuple) : forall acc,
  fold_left (fun sum tuple => sum + Z.of_nat (length (at_StorageKeys tuple))) al acc
  = acc + StorageKeys al.
Proof.
  unfold StorageKeys. induction al as [| t al IH]; intros acc; simpl; [lia |].
  rewrite (IH (acc + _)), (IH (0 + _)). lia.
Qed.

Lemma StorageKeys_cons (t : AccessTuple) (al : list AccessTuple) :
  StorageKeys (t :: al) = Z.of_nat (length (at_StorageKeys t)) + StorageKeys al.
Proof. unfold StorageKeys at 1. simpl. apply StorageKeys_from. Qed.

Lemma StorageKeys_nonneg (al : list AccessTuple) : 0 <= StorageKeys al.
Proof.
  induction al as [| t al IH]; [unfold StorageKeys; simpl; lia |].
  rewrite StorageKeys_cons. lia.
Qed.

(** X9.  With the base constant at most [2^62], each data field shorter than
    [2^56] bytes and fewer than [2^40] access-list addresses and storage keys,
    [PreTransactionGasCost] returns, without error or wrap-around, the base
    constant plus the calldata costs of the four data fields plus 2400 per
    access-list address and 1900 per storage key. *)
Theorem PreTransactionGasCost_exact (base : Z) (tx : Rip7560AccountAbstractionTx) :
  0 <= base <= 2 ^ 62 ->
  Z.of_nat (length (AuthorizationData tx)) < 2 ^ 56 ->
  Z.of_nat (length (DeployerData tx)) < 2 ^ 56 ->
  Z.of_nat (length (ExecutionData tx)) < 2 ^ 56 ->
  Z.of_nat (length (PaymasterData tx)) < 2 ^ 56 ->
  Z.of_nat (length (AccessList tx)) < 2 ^ 40 ->
  StorageKeys (AccessList tx) < 2 ^ 40 ->
  let calldata := callDataCost (AuthorizationData tx) + callDataCost (DeployerData tx)
                  + callDataCost (ExecutionData tx) + callDataCost (PaymasterData tx) in
  let access := 2400 * Z.of_nat (length (AccessList tx))
                + 1900 * StorageKeys (AccessList tx) in
  PreTransactionGasCost base tx = Ok (base + calldata + access) /\
  base <= base + calldata + access < 2 ^ 64.
Proof.
  intros Hb Ha Hd He Hp Hn Hk calldata access.
  pose proof (StorageKeys_nonneg (AccessList tx)) as Hk0.
  destruct (callDataCost_bounds (AuthorizationData tx)) as [_ Ca]; [lia |].
  destruct (callDataCost_bounds (DeployerData tx)) as [_ Cd]; [lia |].
  destruct (callDataCost_bounds (ExecutionData tx)) as [_ Ce]; [lia |].
  destruct (callDataCost_bounds (PaymasterData tx)) as [_ Cp]; [lia |].
  assert (Hcall : callDataGasCost tx = Ok calldata).
  { unfold callDataGasCost, SumGas.
    rewrite SumGas_from_exact; [f_equal; simpl; subst calldata; lia | lia | |].
    - repeat constructor; lia.
    - simpl. lia. }
  assert (Hacc : accessListGasCost tx = access).
  { unfold accessListGasCost, add64, mul64, Params.TxAccessListAddressGas,
      Params.TxAccessListStorageKeyGas.
    rewrite (wrap64_small (Z.of_nat _)) by lia.
    rewrite (wrap64_small (StorageKeys _)) by lia.
    rewrite (wrap64_small (_ * 2400)) by lia.
    rewrite (wrap64_small (_ * 1900)) by lia.
    rewrite wrap64_small by lia. subst access. lia. }
  split.
  - unfold PreTransactionGasCost. rewrite Hcall. simpl. rewrite Hacc.
    unfold eip7702CodeInsertionsGasCost, add64. f_equal.
    rewrite (wrap64_small (base + calldata)) by (subst calldata access; lia).
    rewrite (wrap64_small (base + calldata + access)) by (subst calldata access; lia).
    rewrite wrap64_small by (subst calldata access; lia). lia.
  - subst calldata access. lia.
Qed.

Lemma PreTransactionGasCost_exact_witness :
  PreTransactionGasCost 15000 txWithCalldata = Ok (15000 + (36 + 0 + 24 + 0) + 6200).
Proof.
  refine (proj1 (PreTransactionGasCost_exact 15000 txWithCalldata _ _ _ _ _ _ _));
    try (simpl; lia); vm_compute; reflexivity.
Defined.

(** ** The errors of validation *)

Lemma bind_inv {A B} (act : V A) (k : A -> V B) (m m' : Machine) (r : outcome B) :
  (act ≫= k) m = (r, m') ->
  (exists a m1, act m = (Ok a, m1) /\ k a m1 = (r, m')) \/
  (exists e, act m = (Err e, m') /\ r = Err e) \/
  (exists p, act m = (Panicked p, m') /\ r = Panicked p).
Proof.
  unfold mbind, V_bind. destruct (act m) as [[a | e | p] m1]; intros H.
  - left. eauto.
  - right; left. inversion H; subst. eauto.
  - right; right. inversion H; subst. eauto.
Qed.

Section Raises.

Context {abi : AbiCodec}.

Lemma raises_weaken {A} (P Q : error -> Prop) (act : V A) :
  (forall e, P e -> Q e) -> raises P act -> raises Q act.
Proof. intros HPQ H m e m' E. apply HPQ. exact (H m e m' E). Qed.

Lemma raises_bind {A B} (P : error -> Prop) (act : V A) (k : A -> V B) :
  raises P act -> (forall x, raises P (k x)) -> raises P (act ≫= k).
Proof.
  intros Hact Hk m e m' H.
  apply bind_inv in H as [(a & m1 & H1 & H2) | [(e' & H1 & He) | (p & _ & Hp)]].
  - exact (Hk a m1 e m' H2).
  - inversion He; subst. exact (Hact m e' m' H1).
  - discriminate.
Qed.

Lemma raises_total {A} (P : error -> Prop) (act : V A) :
  (forall m, exists a m', act m = (Ok a, m')) -> raises P act.
Proof. intros H m e m' E. destruct (H m) as (a & m1 & Ha). congruence. Qed.

Lemma raises_mret {A} (P : error -> Prop) (x : A) : raises P (mret x : V A).
Proof. intros m e m' E. discriminate. Qed.

Lemma raises_panic {A} (P : error -> Prop) (p : string) : raises P (panic p : V A).
Proof. intros m e m' E. discriminate. Qed.

Lemma raises_throw {A} (P : error -> Prop) (e : error) : P e -> raises P (throw e : V A).
Proof. intros He m e' m' E. inversion E; subst. exact He. Qed.

Lemma raises_getStatedb (P : error -> Prop) : raises P getStatedb.
Proof. intros m e m' E. discriminate. Qed.

Lemma raises_getSt (P : error -> Prop) : raises P getSt.
Proof. intros m e m' E. discriminate. Qed.

Lemma raises_getEpc (P : error -> Prop) : raises P getEpc.
Proof. intros m e m' E. discriminate. Qed.

Lemma raises_setStatedb (P : error -> Prop) (s : StateDB) : raises P (setStatedb s).
Proof. intros m e m' E. discriminate. Qed.

Lemma raises_setSt (P : error -> Prop) (t : StateTransition) : raises P (setSt t).
Proof. intros m e m' E. discriminate. Qed.

Lemma raises_setEpc (P : error -> Prop) (c : EntryPointCall) : raises P (setEpc c).
Proof. intros m e m' E. discriminate. Qed.

Lemma raises_callFrameTraced (P : error -> Prop) (evm : EVM) (from to : Address)
    (data : list byte) (gasLimit : Z) :
  raises P (callFrameTraced evm from to data gasLimit).
Proof.
  intros m e m' E. unfold callFrameTraced, CallFrameTraced, CallFrame in E. discriminate.
Qed.

Lemma newValidationPhaseError_is_vpe (inner : option error) (reason : list byte)
    (entity : option string) (reverted : bool) :
  isValidationPhaseError (newValidationPhaseError inner reason entity reverted).
Proof. destruct inner as [[b | v] |]; simpl; eexists; reflexivity. Qed.

Lemma wrapError_is_vpe (e : error) : isValidationPhaseError (wrapError e).
Proof. apply newValidationPhaseError_is_vpe. Qed.

Lemma raises_orReturn (e : option error) :
  raises isValidationPhaseError (orReturn wrapError e).
Proof.
  destruct e; simpl; [apply raises_throw, wrapError_is_vpe | apply raises_mret].
Qed.

Lemma raises_attempt {A} (x : outcome A) :
  raises isValidationPhaseError (attempt wrapError x).
Proof.
  destruct x; simpl;
    [apply raises_mret | apply raises_throw, wrapError_is_vpe | apply raises_panic].
Qed.

Lemma raises_wrapping {A} (act : V A) :
  raises isValidationPhaseError (wrapping wrapError act).
Proof.
  intros m e m' E. unfold wrapping in E.
  destruct (act m) as [[a | e0 | p] m1]; inversion E; subst. apply wrapError_is_vpe.
Qed.

Lemma raises_pure {A} (x : outcome A) : raises (fun e => x = Err e) (pure x).
Proof. intros m e m' E. unfold pure in E. inversion E; subst. reflexivity. Qed.

Lemma raises_performNonceCheckFrameRip7712 (config : ChainConfig) (evm : EVM)
    (blockNumber : Z) (tx : Rip7560AccountAbstractionTx) :
  raises isValidationPhaseError (performNonceCheckFrameRip7712 config evm blockNumber tx).
Proof.
  unfold performNonceCheckFrameRip7712.
  destruct (negb _); [apply raises_throw, wrapError_is_vpe |].
  apply raises_bind.
  { intros m e m' E. unfold pure, prepareNonceManagerMessage in E.
    destruct (NonceKey tx); discriminate. }
  intros msg. apply raises_bind; [apply raises_getSt | intros st].
  apply raises_bind; [apply raises_callFrameTraced | intros res].
  destruct (ResErr res);
    [apply raises_throw, newValidationPhaseError_is_vpe | apply raises_mret].
Qed.

Lemma raises_CheckNonceRip7560 (config : ChainConfig) (evm : EVM)
    (blockNumber : Z) (tx : Rip7560AccountAbstractionTx) :
  raises (fun e => if IsRip7712Nonce tx then isValidationPhaseError e else isNonceError e)
    (CheckNonceRip7560 config evm blockNumber tx).
Proof.
  unfold CheckNonceRip7560. destruct (IsRip7712Nonce tx).
  - apply raises_performNonceCheckFrameRip7712.
  - apply raises_bind; [apply raises_getStatedb | intros s].
    unfold isNonceError.
    destruct (_ <? _); [apply raises_throw; auto |].
    destruct (_ <? _); [apply raises_throw; auto |].
    destruct (_ <? _); [apply raises_throw; auto | apply raises_mret].
Qed.

Lemma raises_deployerFrame (evm : EVM) (tx : Rip7560AccountAbstractionTx)
    (preTransactionGasCost : Z) :
  raises isValidationPhaseError (deployerFrame evm tx preTransactionGasCost).
Proof.
  unfold deployerFrame. destruct (Deployer tx) as [deployer |].
  - apply raises_bind; [apply raises_callFrameTraced | intros res].
    destruct (ResErr res); [apply raises_throw, newValidationPhaseError_is_vpe |].
    apply raises_bind; [apply raises_getStatedb | intros s].
    destruct (_ =? _); [apply raises_throw, wrapError_is_vpe | apply raises_mret].
  - destruct (negb _); [| apply raises_mret].
    apply raises_bind; [apply raises_getStatedb | intros s].
    apply raises_bind; [apply raises_setStatedb | intros _]. apply raises_mret.
Qed.

Lemma raises_applyPaymasterValidationFrame (evm : EVM) (tx : Rip7560AccountAbstractionTx)
    (signingHash : Hash) (header : Header) :
  raises isValidationPhaseError (applyPaymasterValidationFrame evm tx signingHash header).
Proof.
  unfold applyPaymasterValidationFrame.
  apply raises_bind; [apply raises_attempt | intros msg].
  destruct msg as [msg |]; [| apply raises_mret].
  destruct (Paymaster tx) as [paymaster |]; [| apply raises_panic].
  apply raises_bind; [apply raises_callFrameTraced | intros res].
  destruct (ResErr res); [apply raises_throw, newValidationPhaseError_is_vpe |].
  apply raises_bind; [apply raises_getEpc | intros epc].
  apply raises_bind; [apply raises_attempt | intros apd].
  apply raises_bind; [apply raises_orReturn | intros _].
  destruct (_ && _); [apply raises_throw, wrapError_is_vpe | apply raises_mret].
Qed.

Variable base : Z.
Variable config : ChainConfig.
Variable evm : EVM.
Variable header : Header.
Variable tx : Rip7560AccountAbstractionTx.

(** X10.  An error returned by [ApplyRip7560ValidationPhases] is a
    [*ValidationPhaseError], except for the three plain nonce errors of a
    one-dimensional nonce check and the error of [PreTransactionGasCost],
    which are returned unwrapped. *)
Theorem validation_error_kinds (m m' : Machine) (e : error) :
  ApplyRip7560ValidationPhases base config evm header tx m = (Err e, m') ->
  isValidationPhaseError e \/
  (IsRip7712Nonce tx = false /\ isNonceError e) \/
  PreTransactionGasCost base tx = Err e.
Proof.
  set (P := fun e => isValidationPhaseError e \/
                     (IsRip7712Nonce tx = false /\ isNonceError e) \/
                     PreTransactionGasCost base tx = Err e).
  assert (Hv : forall A (act : V A), raises isValidationPhaseError act -> raises P act).
  { intros A act. apply raises_weaken. intros e0 H0. left. exact H0. }
  revert m e m'. change (raises P (ApplyRip7560ValidationPhases base config evm header tx)).
  unfold ApplyRip7560ValidationPhases.
  apply raises_bind; [apply raises_getStatedb | intros statedb].
  apply raises_bind; [apply Hv, raises_orReturn | intros _].
  apply raises_bind.
  { intros m e m' E. unfold pure, MustFromBig, FromBig in E.
    destruct (_ <=? _); discriminate. }
  intros price.
  apply raises_bind; [apply Hv, raises_wrapping | intros [gasLimit preCharge]].
  apply raises_bind; [apply raises_setEpc | intros _].
  apply raises_bind; [apply raises_setSt | intros _].
  apply raises_bind.
  { eapply raises_weaken; [| apply raises_pure]. intros e0 H0. right; right. exact H0. }
  intros ptc.
  apply raises_bind.
  { eapply raises_weaken; [| apply raises_CheckNonceRip7560].
    intros e0 H0. simpl in H0. destruct (IsRip7712Nonce tx); [left | right; left]; auto. }
  intros nonceUsed.
  apply raises_bind; [apply Hv, raises_deployerFrame | intros deployUsed].
  apply raises_bind; [apply Hv, raises_attempt | intros msg].
  apply raises_bind; [apply raises_callFrameTraced | intros res].
  destruct (ResErr res); [apply raises_throw; left; apply newValidationPhaseError_is_vpe |].
  apply raises_bind; [apply raises_getEpc | intros epc].
  apply raises_bind; [apply Hv, raises_attempt | intros aad].
  apply raises_bind; [apply raises_setEpc | intros _].
  apply raises_bind; [apply Hv, raises_orReturn | intros _].
  apply raises_bind; [apply Hv, raises_applyPaymasterValidationFrame | intros [[[c u] a] b]].
  apply raises_bind; [apply raises_getStatedb | intros s].
  apply raises_bind; [apply raises_setStatedb | intros _].
  apply raises_mret.
Qed.

End Raises.

Lemma validation_error_kinds_witness :
  exists e m', exPoorValidation = (Err e, m') /\ isValidationPhaseError e.
Proof.
  destruct exPoorValidation as [[vpr | e | p] m'] eqn:E;
    [vm_compute in E; discriminate | | vm_compute in E; discriminate].
  exists e, m'. split; [reflexivity |].
  unfold exPoorValidation in E.
  destruct (validation_error_kinds (abi := exAbi) 15000 exConfig (scripted scriptPlain)
              exHeader txSimple _ _ _ E) as [H | [[_ H] | H]].
  - exact H.
  - exfalso. vm_compute in E. destruct H as [H | [H | H]]; rewrite H in E; discriminate.
  - exfalso. vm_compute in H. discriminate.
Defined.


(** ** The static checks and the gas of the frames *)

Lemma performStaticValidation_passes (base : Z) (tx : Rip7560AccountAbstractionTx)
    (s : StateDB) :
  performStaticValidation base tx s = None ->
  (Deployer tx = None -> DeployerData tx = [] /\ GetCodeSize s (Sender tx) <> 0) /\
  (Paymaster tx = None -> PaymasterData tx = [] /\ PaymasterValidationGasLimit tx = 0) /\
  (forall p, Paymaster tx = Some p ->
     PaymasterValidationGasLimit tx <> 0 /\ GetCodeSize s p <> 0) /\
  (forall d, Deployer tx = Some d ->
     GetCodeSize s d <> 0 /\ GetCodeSize s (Sender tx) = 0) /\
  dropErr (PreTransactionGasCost base tx) <= ValidationGasLimit tx.
Proof.
  unfold performStaticValidation.
  destruct (Deployer tx) as [d |] eqn:Hd; destruct (Paymaster tx) as [p |] eqn:Hp;
    destruct (DeployerData tx) as [| dd0 dd] eqn:Hdd;
    destruct (PaymasterData tx) as [| pd0 pd] eqn:Hpd; simpl;
    destruct (PaymasterValidationGasLimit tx =? 0) eqn:Hg; simpl;
    try destruct (GetCodeSize s p =? 0) eqn:Hcp; simpl;
    try destruct (GetCodeSize s d =? 0) eqn:Hcd; simpl;
    destruct (GetCodeSize s (Sender tx) =? 0) eqn:Hcs; simpl;
    destruct (ValidationGasLimit tx <? dropErr (PreTransactionGasCost base tx)) eqn:Hv;
    simpl;
    intros H; try discriminate; repeat split; intros; try congruence; try lia;
    match goal with
    | E : Some _ = Some _ |- _ => inversion E; subst; lia
    | _ => idtac
    end.
Qed.

Section FrameGas.

Variable evm : EVM.
Hypothesis Hgas : evmRespectsGas evm.

Lemma callFrameTraced_UsedGas (from to : Address) (data : list byte) (gasLimit : Z)
    (m m' : Machine) (res : ExecutionResult) :
  0 <= gasLimit < 2 ^ 64 ->
  callFrameTraced evm from to data gasLimit m = (Ok res, m') ->
  0 <= UsedGas res <= gasLimit.
Proof.
  intros Hg H. unfold callFrameTraced, CallFrameTraced, CallFrame in H.
  inversion H; subst; simpl.
  pose proof (Hgas (m_statedb m) from to data gasLimit (proj1 Hg)) as Hr.
  unfold sub64. rewrite wrap64_small by lia. lia.
Qed.

Lemma callFrame_UsedGas (from to : Address) (data : list byte) (gasLimit : Z)
    (m m' : Machine) (res : ExecutionResult) :
  0 <= gasLimit < 2 ^ 64 ->
  callFrame evm from to data gasLimit m = (Ok res, m') ->
  0 <= UsedGas res <= gasLimit /\ RefundedGas res = 0.
Proof.
  intros Hg H. unfold callFrame, CallFrame in H.
  inversion H; subst; simpl.
  pose proof (Hgas (m_statedb m) from to data gasLimit (proj1 Hg)) as Hr.
  unfold sub64. rewrite wrap64_small by lia. split; [lia | reflexivity].
Qed.

Lemma performNonceCheckFrameRip7712_UsedGas (config : ChainConfig) (blockNumber : Z)
    (tx : Rip7560AccountAbstractionTx) (m m' : Machine) (used : Z) :
  0 <= gasRemaining (m_st m) < 2 ^ 64 ->
  performNonceCheckFrameRip7712 config evm blockNumber tx m = (Ok used, m') ->
  0 <= used <= gasRemaining (m_st m).
Proof.
  intros Hg H. unfold performNonceCheckFrameRip7712 in H.
  destruct (negb _); [discriminate |].
  apply bind_Ok_inv in H as (msg & m1 & Hm & H). apply pure_Ok_inv in Hm as [_ ->].
  apply bind_Ok_inv in H as (st & m1 & Hs & H). inversion Hs; subst st m1; clear Hs.
  apply bind_Ok_inv in H as (res & m1 & Hc & H).
  apply callFrameTraced_UsedGas in Hc; [| exact Hg].
  destruct (ResErr res); [discriminate |]. inversion H; subst. exact Hc.
Qed.

Lemma CheckNonceRip7560_UsedGas (config : ChainConfig) (blockNumber : Z)
    (tx : Rip7560AccountAbstractionTx) (m m' : Machine) (used : Z) :
  0 <= gasRemaining (m_st m) < 2 ^ 64 ->
  CheckNonceRip7560 config evm blockNumber tx m = (Ok used, m') ->
  0 <= used <= gasRemaining (m_st m) /\ (IsRip7712Nonce tx = false -> used = 0).
Proof.
  intros Hg H. destruct (IsRip7712Nonce tx) eqn:E.
  - unfold CheckNonceRip7560 in H. rewrite E in H.
    apply performNonceCheckFrameRip7712_UsedGas in H; [| exact Hg].
    split; [exact H | discriminate].
  - apply (CheckNonceRip7560_passes config evm tx blockNumber m m' used E) in H
      as (_ & -> & _). split; [lia | reflexivity].
Qed.

Lemma deployerFrame_UsedGas (tx : Rip7560AccountAbstractionTx) (preTransactionGasCost : Z)
    (m m' : Machine) (used : Z) :
  0 <= preTransactionGasCost <= ValidationGasLimit tx ->
  ValidationGasLimit tx < 2 ^ 64 ->
  deployerFrame evm tx preTransactionGasCost m = (Ok used, m') ->
  0 <= used <= ValidationGasLimit tx - preTransactionGasCost.
Proof.
  intros Hp Hv H. unfold deployerFrame in H.
  destruct (Deployer tx) as [deployer |].
  - apply bind_Ok_inv in H as (res & m1 & Hc & H).
    apply callFrameTraced_UsedGas in Hc;
      [| unfold sub64; rewrite wrap64_small by lia; lia].
    unfold sub64 in Hc. rewrite wrap64_small in Hc by lia.
    destruct (ResErr res); [discriminate |].
    apply bind_Ok_inv in H as (s & m2 & Hs & H). inversion Hs; subst s m2; clear Hs.
    destruct (_ =? _); [discriminate |]. inversion H; subst. exact Hc.
  - destruct (negb _).
    + apply bind_Ok_inv in H as (s & m1 & Hs & H).
      apply bind_Ok_inv in H as (u & m2 & Hu & H). inversion H; subst. lia.
    + inversion H; subst. lia.
Qed.

End FrameGas.

(** X11.  [performStaticValidation] accepts exactly when: without a deployer
    there is no deployer data and the sender has code; without a paymaster
    there is no paymaster data and no paymaster gas limit; a paymaster has a
    non-zero gas limit and code; a deployer has code and the sender has none;
    and the validation gas limit covers the pre-transaction gas cost (taken
    as 0 when its computation fails).  Every rejection is a
    [*ValidationPhaseError] without entity name, revert data or the reverted
    flag. *)
Theorem performStaticValidation_accepts (base : Z) (tx : Rip7560AccountAbstractionTx)
    (s : StateDB) :
  (performStaticValidation base tx s = None <->
     (Deployer tx = None -> DeployerData tx = [] /\ GetCodeSize s (Sender tx) <> 0) /\
     (Paymaster tx = None -> PaymasterData tx = [] /\ PaymasterValidationGasLimit tx = 0) /\
     (forall p, Paymaster tx = Some p ->
        PaymasterValidationGasLimit tx <> 0 /\ GetCodeSize s p <> 0) /\
     (forall d, Deployer tx = Some d ->
        GetCodeSize s d <> 0 /\ GetCodeSize s (Sender tx) = 0) /\
     dropErr (PreTransactionGasCost base tx) <= ValidationGasLimit tx) /\
  (forall e, performStaticValidation base tx s = Some e ->
     exists b, e = Vpe (mkVPE (Some b) [] None false)).
Proof.
  split; [split; [apply performStaticValidation_passes |] |].
  - intros (H1 & H2 & H3 & H4 & H5). unfold performStaticValidation.
    apply Z.ltb_ge in H5. rewrite H5.
    destruct (Deployer tx) as [d |]; destruct (Paymaster tx) as [p |]; simpl.
    + destruct (H3 p eq_refl) as [Hg Hc]. destruct (H4 d eq_refl) as [Hd Hs].
      apply Z.eqb_neq in Hg, Hc, Hd. rewrite Hg, Hc, Hd, Hs. reflexivity.
    + destruct (H2 eq_refl) as [Hpd Hg]. destruct (H4 d eq_refl) as [Hd Hs].
      apply Z.eqb_neq in Hd. rewrite Hpd, Hg, Hd, Hs. reflexivity.
    + destruct (H1 eq_refl) as [Hdd Hs]. destruct (H3 p eq_refl) as [Hg Hc].
      apply Z.eqb_neq in Hg, Hc, Hs. rewrite Hdd, Hg, Hc, Hs. reflexivity.
    + destruct (H1 eq_refl) as [Hdd Hs]. destruct (H2 eq_refl) as [Hpd Hg].
      apply Z.eqb_neq in Hs. rewrite Hdd, Hpd, Hg, Hs. reflexivity.
  - intros e. unfold performStaticValidation, wrapError.
    destruct (Deployer tx) as [d |]; destruct (Paymaster tx) as [p |];
      destruct (DeployerData tx); destruct (PaymasterData tx); simpl;
      destruct (PaymasterValidationGasLimit tx =? 0); simpl;
      try destruct (GetCodeSize s p =? 0); simpl;
      try destruct (GetCodeSize s d =? 0); simpl;
      destruct (GetCodeSize s (Sender tx) =? 0); simpl;
      destruct (ValidationGasLimit tx <? dropErr (PreTransactionGasCost base tx)); simpl;
      intros He; inversion He; subst; eexists; reflexivity.
Qed.

Section PaymasterFrame.

Context {abi : AbiCodec}.
Variable evm : EVM.
Variable header : Header.
Variable tx : Rip7560AccountAbstractionTx.

Lemma abiDecodeAcceptPaymaster_context (input : list byte) (allowSigFail : bool)
    (apd : AcceptPaymasterData) :
  abiDecodeAcceptPaymaster input allowSigFail = Ok apd ->
  Z.of_nat (length (apd_Context apd)) <= PaymasterMaxContextSize.
Proof.
  unfold abiDecodeAcceptPaymaster.
  destruct (if _ && _ then _ else _) as [d | e | p]; simpl; try discriminate.
  destruct (PaymasterMaxContextSize <? _) eqn:E; intros H; inversion H; subst. lia.
Qed.

Lemma validatePaymasterEntryPointCall_context (epc : EntryPointCall) (paymaster : Address)
    (apd : AcceptPaymasterData) :
  validatePaymasterEntryPointCall epc paymaster = Ok apd ->
  Z.of_nat (length (apd_Context apd)) <= PaymasterMaxContextSize.
Proof.
  unfold validatePaymasterEntryPointCall.
  destruct (epc_err epc); [discriminate |].
  destruct (epc_Input epc) as [input |]; [| discriminate].
  destruct (negb _); [discriminate |]. apply abiDecodeAcceptPaymaster_context.
Qed.

(** What a paymaster frame that ends well has done. *)
Lemma applyPaymasterValidationFrame_Ok_inv (signingHash : Hash) (m m' : Machine)
    (ctx : list byte) (used validAfter validUntil : Z) :
  applyPaymasterValidationFrame evm tx signingHash header m
    = (Ok (ctx, used, validAfter, validUntil), m') ->
  ((Paymaster tx = None \/ Paymaster tx = Some zeroAddress) /\
   ctx = [] /\ used = 0 /\ validAfter = 0 /\ validUntil = 0 /\ m' = m) \/
  (exists paymaster msg res apd,
     Paymaster tx = Some paymaster /\ paymaster <> zeroAddress /\
     PackValidatePaymasterTransaction tx signingHash = Ok msg /\
     callFrameTraced evm AA_ENTRY_POINT paymaster msg (PaymasterValidationGasLimit tx) m
       = (Ok res, m') /\
     ResErr res = None /\ used = UsedGas res /\
     validatePaymasterEntryPointCall (m_epc m') paymaster = Ok apd /\
     ctx = apd_Context apd /\
     validAfter = BigUint64 (apd_ValidAfter apd) /\
     validUntil = BigUint64 (apd_ValidUntil apd) /\
     validateValidityTimeRange (Time header) validAfter validUntil = None /\
     (ctx <> [] -> PostOpGas tx <> 0)).
Proof.
  intros H. unfold applyPaymasterValidationFrame in H.
  apply bind_Ok_inv in H as (msg & m1 & Hmsg & H).
  apply attempt_Ok_inv in Hmsg as [Hmsg ->].
  unfold preparePaymasterValidationMessage in Hmsg.
  destruct (Paymaster tx) as [paymaster |] eqn:Hp.
  - destruct (paymaster =? zeroAddress) eqn:Hz.
    + inversion Hmsg; subst msg. inversion H; subst. left.
      apply Z.eqb_eq in Hz. subst paymaster. repeat split; auto.
    + destruct (PackValidatePaymasterTransaction tx signingHash) as [packed | e | p] eqn:Hpack;
        simpl in Hmsg; inversion Hmsg; subst msg.
      apply bind_Ok_inv in H as (res & m2 & Hcall & H).
      destruct (ResErr res) eqn:Hres; [discriminate |].
      apply bind_Ok_inv in H as (epc & m3 & He & H). inversion He; subst epc m3; clear He.
      apply bind_Ok_inv in H as (apd & m3 & Ha & H). apply attempt_Ok_inv in Ha as [Ha ->].
      apply bind_Ok_inv in H as (u & m3 & Ht & H). apply orReturn_Ok_inv in Ht as [Ht ->].
      destruct ((0 <? Z.of_nat (length (apd_Context apd))) && (PostOpGas tx =? 0)) eqn:Hc;
        [discriminate |].
      inversion H; subst. right.
      exists paymaster, packed, res, apd.
      repeat split; try assumption; try reflexivity.
      * intros ->. unfold zeroAddress in Hz. discriminate.
      * intros Hne Hpo. apply andb_false_iff in Hc as [Hc | Hc].
        -- apply Z.ltb_ge in Hc. destruct (apd_Context apd); [congruence |].
           simpl length in Hc. lia.
        -- apply Z.eqb_neq in Hc. lia.
  - inversion Hmsg; subst msg. inversion H; subst. left. repeat split; auto.
Qed.

End PaymasterFrame.

Section Validated.

Context {abi : AbiCodec}.
Variable base : Z.
Variable config : ChainConfig.
Variable evm : EVM.
Variable header : Header.
Variable tx : Rip7560AccountAbstractionTx.

(** X12.  What a successful validation guarantees about its result: it
    carries the transaction and its hash; the static checks passed; the
    price is the effective gas price in 256 bits and the pre-charge the total
    gas limit times the price; the block time lies in the validity windows of
    the sender and of the paymaster; the paymaster context is at most 65536
    bytes, and a non-empty one implies a non-zero post-op gas limit and a
    paymaster that is set and not the zero address; without a paymaster (or
    with the zero address) the context is empty and no paymaster gas is
    used. *)
Theorem validated_transaction_facts (m m' : Machine) (vpr : ValidationPhaseResult) :
  ApplyRip7560ValidationPhases base config evm header tx m = (Ok vpr, m') ->
  vpr_Tx vpr = tx /\ vpr_TxHash vpr = TxHash tx /\
  performStaticValidation base tx (m_statedb m) = None /\
  (exists total,
     TotalGasLimit base tx = Ok total /\
     EffectiveGasPriceU256 vpr = wrap256 (EffectiveGasPrice tx (BaseFee header)) /\
     PreCharge vpr = wrap256 (total * EffectiveGasPriceU256 vpr)) /\
  validateValidityTimeRange (Time header) (SenderValidAfter vpr) (SenderValidUntil vpr)
    = None /\
  validateValidityTimeRange (Time header) (PmValidAfter vpr) (PmValidUntil vpr) = None /\
  Z.of_nat (length (PaymasterContext vpr)) <= PaymasterMaxContextSize /\
  (PaymasterContext vpr <> [] ->
     PostOpGas tx <> 0 /\ exists p, Paymaster tx = Some p /\ p <> zeroAddress) /\
  (Paymaster tx = None \/ Paymaster tx = Some zeroAddress ->
     PaymasterContext vpr = [] /\ PmValidationUsedGas vpr = 0).
Proof.
  intros H. destruct (validation_inv base config evm header tx m m' vpr H) as (t & Ht).
  destruct Ht as (Hstatic & Hprice & Hbuy & _ & _ & _ & _ & _ & _ & _ & Htime & Hpm & _ & Hv).
  destruct (vt_paymaster t) as [[[ctx used] pmAfter] pmUntil] eqn:Hvt.
  subst vpr. simpl.
  split; [reflexivity |]. split; [reflexivity |]. split; [exact Hstatic |].
  split.
  { apply buyGas_Ok_inv in Hbuy as (HL & Hpre & _).
    exists (vt_gasLimit t). split; [exact HL |].
    unfold MustFromBig, FromBig in Hprice.
    destruct (2 ^ 256 <=? Z.abs (EffectiveGasPrice tx (BaseFee header))); [discriminate |].
    inversion Hprice as [Hp]. split; [reflexivity | rewrite Hp; exact Hpre]. }
  split; [exact Htime |].
  apply applyPaymasterValidationFrame_Ok_inv in Hpm.
  destruct Hpm as [(_ & -> & -> & -> & -> & _) | Hpm].
  - split; [reflexivity |]. split; [simpl; unfold PaymasterMaxContextSize; lia |].
    split; [congruence |]. intros _. split; reflexivity.
  - destruct Hpm as (p & msg & res & apd & Hp & Hnz & _ & _ & _ & -> & Hepc & -> & -> & -> & Ht & Hpo).
    split; [exact Ht |].
    split; [exact (validatePaymasterEntryPointCall_context _ _ _ Hepc) |].
    split.
    + intros Hne. split; [exact (Hpo Hne) |]. exists p. split; [exact Hp | exact Hnz].
    + intros [Hn | Hn]; rewrite Hp in Hn; [discriminate | congruence].
Qed.

End Validated.

Lemma validated_transaction_facts_witness :
  exists vpr m',
    exSponsoredValidation = (Ok vpr, m') /\
    PaymasterContext vpr <> [] /\ PostOpGas txSponsored <> 0.
Proof.
  destruct exSponsoredValidation as [[vpr | e | p] m'] eqn:E;
    [| vm_compute in E; discriminate ..].
  exists vpr, m'. split; [reflexivity |].
  unfold exSponsoredValidation in E.
  destruct (validated_transaction_facts (abi := exAbi) 15000 exConfig
              (scripted (scriptSponsored false false)) exHeader txSponsored _ _ _ E)
    as (_ & _ & _ & _ & _ & _ & _ & H & _).
  assert (Hne : PaymasterContext vpr <> []).
  { vm_compute in E. injection E as <- _. discriminate. }
  split; [exact Hne | exact (proj1 (H Hne))].
Defined.

(** ** The gas the validation frames may use *)

Lemma PreTransactionGasCost_range (base : Z) (tx : Rip7560AccountAbstractionTx) (c : Z) :
  PreTransactionGasCost base tx = Ok c -> 0 <= c < 2 ^ 64.
Proof.
  unfold PreTransactionGasCost. destruct (callDataGasCost tx); simpl; try discriminate.
  intros H. inversion H; subst. apply wrap64_range.
Qed.

Section ValidationGas.

Context {abi : AbiCodec}.
Variable base : Z.
Variable config : ChainConfig.
Variable evm : EVM.
Variable header : Header.
Variable tx : Rip7560AccountAbstractionTx.

Lemma validation_frames_gas (m m' : Machine) (vpr : ValidationPhaseResult) :
  evmRespectsGas evm ->
  0 <= ValidationGasLimit tx < 2 ^ 64 ->
  0 <= PaymasterValidationGasLimit tx < 2 ^ 64 ->
  ApplyRip7560ValidationPhases base config evm header tx m = (Ok vpr, m') ->
  exists total,
    TotalGasLimit base tx = Ok total /\
    0 <= vpr_PreTransactionGasCost vpr /\
    0 <= DeploymentUsedGas vpr /\
    0 <= ValidationUsedGas vpr /\
    vpr_PreTransactionGasCost vpr + DeploymentUsedGas vpr + ValidationUsedGas vpr
      <= ValidationGasLimit tx /\
    0 <= PmValidationUsedGas vpr <= PaymasterValidationGasLimit tx /\
    0 <= NonceManagerUsedGas vpr <= total /\
    (IsRip7712Nonce tx = false -> NonceManagerUsedGas vpr = 0).
Proof.
  intros Hgas Hvgl Hpgl H.
  destruct (validation_inv base config evm header tx m m' vpr H) as (t & Ht).
  destruct Ht as (Hstatic & _ & Hbuy & Hptc & Hnonce & Hdep & _ & Hacc & _ & _ & _ & Hpm & _ & Hv).
  apply buyGas_Ok_inv in Hbuy as (HL & _).
  pose proof (SumGas_range _ _ HL) as HLr.
  apply performStaticValidation_passes in Hstatic as (_ & _ & _ & _ & Hcost).
  rewrite Hptc in Hcost. simpl in Hcost.
  pose proof (PreTransactionGasCost_range _ _ _ Hptc) as Hc.
  apply (CheckNonceRip7560_UsedGas evm Hgas) in Hnonce; [| simpl; exact HLr].
  simpl in Hnonce. destruct Hnonce as [Hn Hn0].
  apply (deployerFrame_UsedGas evm Hgas) in Hdep; [| lia | lia].
  apply (callFrameTraced_UsedGas evm Hgas) in Hacc;
    [| unfold sub64; rewrite (wrap64_small (_ - vt_preTransactionGasCost t)) by lia;
       rewrite wrap64_small by lia; lia].
  unfold sub64 in Hacc.
  rewrite (wrap64_small (_ - vt_preTransactionGasCost t)) in Hacc by lia.
  rewrite wrap64_small in Hacc by lia.
  destruct (vt_paymaster t) as [[[ctx used] pmAfter] pmUntil] eqn:Hvt.
  apply applyPaymasterValidationFrame_Ok_inv in Hpm.
  assert (Hpmu : 0 <= used <= PaymasterValidationGasLimit tx).
  { destruct Hpm as [(_ & _ & -> & _) | Hpm]; [lia |].
    destruct Hpm as (p & msg & res & apd & _ & _ & _ & Hcall & _ & -> & _).
    exact (callFrameTraced_UsedGas evm Hgas _ _ _ _ _ _ _ Hpgl Hcall). }
  exists (vt_gasLimit t). subst vpr. simpl.
  repeat split; try assumption; try lia.
Qed.

(** X13.  Under an EVM that gives back no more gas than a call was given,
    the frames of a successful validation stay within their budgets: the
    pre-transaction cost, the deployment gas and the account validation gas
    together are within the validation gas limit, the paymaster validation
    gas within the paymaster's limit, the nonce-manager gas within the total
    gas limit, and a one-dimensional nonce check uses no gas. *)
Theorem validation_gas_budget (m m' : Machine) (vpr : ValidationPhaseResult) :
  evmRespectsGas evm ->
  0 <= ValidationGasLimit tx < 2 ^ 64 ->
  0 <= PaymasterValidationGasLimit tx < 2 ^ 64 ->
  ApplyRip7560ValidationPhases base config evm header tx m = (Ok vpr, m') ->
  exists total,
    TotalGasLimit base tx = Ok total /\
    0 <= vpr_PreTransactionGasCost vpr /\
    0 <= DeploymentUsedGas vpr /\
    0 <= ValidationUsedGas vpr /\
    vpr_PreTransactionGasCost vpr + DeploymentUsedGas vpr + ValidationUsedGas vpr
      <= ValidationGasLimit tx /\
    0 <= PmValidationUsedGas vpr <= PaymasterValidationGasLimit tx /\
    0 <= NonceManagerUsedGas vpr <= total /\
    (IsRip7712Nonce tx = false -> NonceManagerUsedGas vpr = 0).
Proof. exact (validation_frames_gas m m' vpr). Qed.

End ValidationGas.

Lemma scripted_respects_gas (script : Address -> list byte -> Behaviour) :
  (forall to data, 0 <= b_gas (script to data)) -> evmRespectsGas (scripted script).
Proof.
  intros Hs s from to data gasLimit Hg. unfold scripted. simpl.
  specialize (Hs to data). lia.
Qed.

Lemma scriptSponsored_gas (execFails postOpFails : bool) (to : Address) (data : list byte) :
  0 <= b_gas (scriptSponsored execFails postOpFails to data).
Proof.
  unfold scriptSponsored.
  repeat match goal with
         | |- context [match ?x with _ => _ end] => destruct x
         end; simpl; lia.
Qed.

Lemma validation_gas_budget_witness :
  exists vpr m',
    exSponsoredValidation = (Ok vpr, m') /\
    vpr_PreTransactionGasCost vpr + DeploymentUsedGas vpr + ValidationUsedGas vpr
      <= ValidationGasLimit txSponsored.
Proof.
  destruct exSponsoredValidation as [[vpr | e | p] m'] eqn:E;
    [| vm_compute in E; discriminate ..].
  exists vpr, m'. split; [reflexivity |].
  unfold exSponsoredValidation in E.
  destruct (validation_gas_budget (abi := exAbi) 15000 exConfig
              (scripted (scriptSponsored false false)) exHeader txSponsored _ _ _
              (scripted_respects_gas _ (scriptSponsored_gas false false))
              ltac:(vm_compute; split; [discriminate | reflexivity])
              ltac:(vm_compute; split; [discriminate | reflexivity]) E)
    as (total & _ & _ & _ & _ & H & _).
  exact H.
Defined.

(** ** The guard of the execution phase *)

Lemma capRefund_range (getRefund gasUsed : Z) :
  0 <= getRefund -> 0 <= gasUsed ->
  0 <= capRefund getRefund gasUsed <= getRefund /\
  capRefund getRefund gasUsed <= gasUsed / 5.
Proof.
  intros Hr Hg. unfold capRefund, Params.RefundQuotientEIP3529.
  assert (0 <= gasUsed / 5) by (apply Z.div_pos; lia).
  destruct (getRefund <? gasUsed / 5) eqn:E; lia.
Qed.

Lemma gas_penalty_range (limit used : Z) :
  0 <= used <= limit -> limit < 2 ^ 64 ->
  0 <= mul64 (sub64 limit used) AA_GAS_PENALTY_PCT / 100 <= limit - used.
Proof.
  intros Hu Hl. unfold mul64, sub64, AA_GAS_PENALTY_PCT.
  rewrite (wrap64_small (limit - used)) by lia.
  pose proof (wrap64_le ((limit - used) * 10) ltac:(lia)) as Hw.
  split; [apply Z.div_pos; lia |].
  apply Z.div_le_upper_bound; lia.
Qed.

Lemma SumGas_from_le (vals : list Z) : forall acc,
  0 <= acc -> Forall (fun v => 0 <= v) vals ->
  0 <= dropErr (SumGas_from acc vals) <= acc + sumZ vals.
Proof.
  induction vals as [| v rest IH]; intros acc Hacc Hall; simpl.
  - lia.
  - inversion Hall as [| ? ? Hv Hrest]; subst.
    assert (Hnn : 0 <= sumZ rest) by (clear -Hrest; induction Hrest; simpl; lia).
    destruct (2 ^ 62 <? v); [simpl; lia |].
    pose proof (wrap64_le (acc + v) ltac:(lia)) as Hw.
    specialize (IH (add64 acc v) (proj1 Hw) Hrest). unfold add64 in *. lia.
Qed.

Lemma SumGas_from_Ok_bound (vals : list Z) : forall acc s,
  SumGas_from acc vals = Ok s -> Forall (fun v => v <= 2 ^ 62) vals.
Proof.
  induction vals as [| v rest IH]; intros acc s H; simpl in H; [constructor |].
  destruct (2 ^ 62 <? v) eqn:E; [discriminate |].
  constructor; [lia | exact (IH _ _ H)].
Qed.

Lemma bind_Ok_step {A B} (act : V A) (k : A -> V B) (m m1 : Machine) (a : A) :
  act m = (Ok a, m1) -> (act ≫= k) m = k a m1.
Proof. intros H. unfold mbind, V_bind. rewrite H. reflexivity. Qed.

Section PostOpGas.

Context {abi : AbiCodec}.
Variable evm : EVM.
Hypothesis Hgas : evmRespectsGas evm.

Lemma postOpBlock_gas (aatx : Rip7560AccountAbstractionTx) (vpr : ValidationPhaseResult)
    (snapshot : StateDB) (executionResult : ExecutionResult)
    (gasUsed gasRefund receiptStatus executionStatus : Z) (m m' : Machine)
    (po : PostOpLocals) :
  0 <= PostOpGas aatx < 2 ^ 64 ->
  0 <= gasRefund <= gasUsed ->
  gasUsed + PostOpGas aatx < 2 ^ 64 ->
  postOpBlock evm aatx vpr snapshot executionResult gasUsed gasRefund
    receiptStatus executionStatus m = (Ok po, m') ->
  0 <= po_gasRefund po <= po_gasUsed po /\
  gasUsed <= po_gasUsed po <= gasUsed + PostOpGas aatx.
Proof.
  intros Hpo Hr Hsum H. unfold postOpBlock in H.
  destruct (negb _).
  - apply bind_Ok_inv in H as (res & m1 & Hcall & H).
    unfold applyPaymasterPostOpFrame in Hcall.
    apply bind_Ok_inv in Hcall as (msg & m0 & Hmsg & Hcall).
    destruct (Paymaster aatx) as [paymaster |]; [| discriminate].
    apply (callFrame_UsedGas evm Hgas) in Hcall as [Hu Hz]; [| exact Hpo].
    apply bind_Ok_inv in H as ([rs es] & m2 & _ & H).
    inversion H; subst; clear H. simpl.
    rewrite Hz.
    destruct (capRefund_range 0 (UsedGas res)) as [Hc _]; [lia | lia |].
    assert (Hc0 : capRefund 0 (UsedGas res) = 0) by lia. rewrite Hc0.
    pose proof (gas_penalty_range (PostOpGas aatx) (UsedGas res) Hu (proj2 Hpo)) as Hp.
    unfold add64.
    rewrite (wrap64_small (gasRefund + 0)) by lia.
    rewrite (wrap64_small (UsedGas res + _)) by lia.
    rewrite wrap64_small by lia. lia.
  - inversion H; subst; simpl. lia.
Qed.

Lemma postOpBlock_panics (aatx : Rip7560AccountAbstractionTx) (vpr : ValidationPhaseResult)
    (snapshot : StateDB) (executionResult : ExecutionResult)
    (gasUsed gasRefund receiptStatus executionStatus : Z) (m m' : Machine) (p : string) :
  postOpBlock evm aatx vpr snapshot executionResult gasUsed gasRefund
    receiptStatus executionStatus m = (Panicked p, m') ->
  p = "unable to encode postPaymasterTransaction"%string \/
  p = "invalid memory address or nil pointer dereference"%string.
Proof.
  intros H. unfold postOpBlock in H.
  destruct (negb _); [| discriminate].
  apply bind_inv in H as [(res & m1 & Hcall & H) | [(e & _ & He) | (p' & Hcall & Hp)]];
    [| discriminate |].
  - exfalso.
    apply bind_inv in H as [(x & m2 & _ & H) | [(e & Hx & _) | (p' & Hx & _)]].
    + destruct x. discriminate.
    + destruct (Failed res); [| discriminate].
      apply bind_inv in Hx as [(x & m2 & _ & Hx) | [(e' & Hx & _) | (p'' & Hx & _)]];
        [| discriminate ..].
      apply bind_inv in Hx as [(y & m3 & _ & Hx) | [(e' & Hx & _) | (p'' & Hx & _)]];
        discriminate.
    + destruct (Failed res); [| discriminate].
      apply bind_inv in Hx as [(x & m2 & _ & Hx) | [(e' & Hx & _) | (p'' & Hx & _)]];
        [| discriminate ..].
      apply bind_inv in Hx as [(y & m3 & _ & Hx) | [(e' & Hx & _) | (p'' & Hx & _)]];
        discriminate.
  - inversion Hp; subst p'. clear Hp.
    unfold applyPaymasterPostOpFrame in Hcall.
    apply bind_inv in Hcall as [(msg & m0 & _ & Hc) | [(e & _ & He) | (p' & Hm & Hp)]];
      [| discriminate |].
    + destruct (Paymaster aatx); [discriminate |].
      inversion Hc; subst. right. reflexivity.
    + inversion Hp; subst p'. unfold pure, preparePostOpMessage,
        abiEncodePostPaymasterTransaction in Hm.
      destruct (PackPostPaymasterTransaction _ _ _); inversion Hm; subst; left; reflexivity.
Qed.

End PostOpGas.

Section ExecutionGuard.

Context {abi : AbiCodec}.
Variable base : Z.
Variable config : ChainConfig.
Variable evm : EVM.
Variable header : Header.

Lemma payCoinbase_panics (cfg : VmConfig) (coinbase : Address)
    (msg : Rip7560AccountAbstractionTx) (gasUsed : Z) (m m' : Machine) (p : string) :
  payCoinbase config cfg header coinbase msg gasUsed m = (Panicked p, m') ->
  p = "invalid memory address or nil pointer dereference"%string.
Proof.
  intros H. unfold payCoinbase in H.
  apply bind_inv in H as [(fee & m1 & _ & H) | [(e & _ & He) | (p' & Hf & Hp)]];
    [| discriminate |].
  - destruct fee; [| discriminate].
    apply bind_inv in H as [(s & m2 & _ & H) | [(e & H & _) | (p' & H & _)]]; discriminate.
  - inversion Hp; subst p'. unfold pure, coinbaseFee in Hf.
    destruct (IsLondon config (Number header)); [| simpl in Hf].
    + destruct (BaseFee header); simpl in Hf.
      * destruct (_ && _); discriminate.
      * inversion Hf; reflexivity.
    + destruct (_ && _); discriminate.
Qed.

Lemma injectEvent_Ok (topics : list Hash) (data : list byte) (blockNumber : Z) (m m' : Machine)
    (r : outcome unit) :
  injectEvent topics data blockNumber m = (r, m') -> r = Ok tt.
Proof. intros H. unfold injectEvent in H. inversion H; reflexivity. Qed.

(** The event injections fail or succeed, and do not panic, when the packer
    does not. *)
Lemma codec_event_no_panic {A} (x : outcome A) (k : A -> V unit) (m m' : Machine)
    (p : string) :
  (forall q, x <> Panicked q) ->
  (forall a m1 r m2, k a m1 = (r, m2) -> r = Ok tt) ->
  (pure x ≫= k) m = (Panicked p, m') -> False.
Proof.
  intros Hx Hk H.
  apply bind_inv in H as [(a & m1 & _ & H) | [(e & _ & He) | (p' & Hp & _)]].
  - apply Hk in H. discriminate.
  - discriminate.
  - unfold pure in Hp. inversion Hp as [Hq]. exact (Hx _ Hq).
Qed.

(** X14.  For a validated transaction whose gas limits do not add up beyond
    64 bits and whose nonce-manager frame used no more than the base
    constant (as for every one-dimensional nonce), under an EVM that gives
    back no more gas than a call was given and an event packer that does not
    panic, the execution phase never ends in the panic that guards the total
    gas limit. *)
Theorem execution_guard_unreachable (tx : Rip7560AccountAbstractionTx) (m m1 m2 : Machine)
    (vpr : ValidationPhaseResult) (author : Address) (cfg : VmConfig) (usedGas : Z)
    (r : outcome (Receipt * Z)) :
  evmRespectsGas evm ->
  wf_tx tx ->
  0 <= base ->
  base + Gas tx + ValidationGasLimit tx + PaymasterValidationGasLimit tx + PostOpGas tx
    < 2 ^ 64 ->
  (forall name vals p, PackNonIndexed name vals <> Panicked p) ->
  ApplyRip7560ValidationPhases base config evm header tx m = (Ok vpr, m1) ->
  NonceManagerUsedGas vpr <= base ->
  ApplyRip7560ExecutionPhase base config evm vpr author header cfg usedGas m1 = (r, m2) ->
  r <> Panicked "cannot spend more gas than the total limit".
Proof.
  intros Hgas (Hn & Hg & Hv & Hp & Hpo) Hb Hsum Hcodec Hval Hnm Hex.
  destruct (validation_frames_gas base config evm header tx m m1 vpr Hgas Hv Hp Hval)
    as (total & HL & Hc0 & Hd0 & Hv0 & Hvsum & Hpm & Hnmr & _).
  destruct (validation_gp base config evm header tx m m1 vpr Hval) as (total' & HL' & _ & _ & Htx).
  rewrite HL in HL'. inversion HL'; subst total'. clear HL'.
  assert (Htotal : total = base + Gas tx + ValidationGasLimit tx
                           + PaymasterValidationGasLimit tx + PostOpGas tx).
  { pose proof (SumGas_from_Ok_bound _ _ _ HL) as Hbd.
    unfold TotalGasLimit, SumGas in HL.
    rewrite SumGas_from_exact in HL.
    - inversion HL. simpl. lia.
    - lia.
    - inversion Hbd as [| ? ? B1 Hbd1]; subst. inversion Hbd1 as [| ? ? B2 Hbd2]; subst.
      inversion Hbd2 as [| ? ? B3 Hbd3]; subst. inversion Hbd3 as [| ? ? B4 Hbd4]; subst.
      inversion Hbd4 as [| ? ? B5 Hbd5]; subst.
      repeat constructor; lia.
    - simpl. lia. }
  assert (Hvp : 0 <= dropErr (validationPhaseUsedGas vpr)
                <= base + ValidationGasLimit tx + PaymasterValidationGasLimit tx).
  { unfold validationPhaseUsedGas, SumGas.
    pose proof (SumGas_from_le
                  [vpr_PreTransactionGasCost vpr; NonceManagerUsedGas vpr;
                   DeploymentUsedGas vpr; ValidationUsedGas vpr; PmValidationUsedGas vpr]
                  0 ltac:(lia) ltac:(repeat constructor; lia)) as Hs.
    simpl in Hs. simpl. lia. }
  unfold ApplyRip7560ExecutionPhase in Hex. rewrite Htx, HL in Hex.
  simpl dropErr in Hex.
  apply bind_inv in Hex as [(u1 & ma & _ & Hex) | [(? & E & _) | (? & E & _)]];
    [| discriminate E ..].
  apply bind_inv in Hex as [(s0 & mb & _ & Hex) | [(? & E & _) | (? & E & _)]];
    [| discriminate E ..].
  apply bind_inv in Hex as [(res & mc & Hcall & Hex) | [(? & E & _) | (? & E & _)]];
    [| unfold callFrame, CallFrame in E; discriminate E ..].
  apply (callFrame_UsedGas evm Hgas) in Hcall as [Hu _]; [| exact Hg].
  apply bind_inv in Hex as [(s1 & md & _ & Hex) | [(? & E & _) | (? & E & _)]];
    [| discriminate E ..].
  pose proof (gas_penalty_range (Gas tx) (UsedGas res) Hu (proj2 Hg)) as Hpen.
  set (gasUsed0 := add64 (add64 (dropErr (validationPhaseUsedGas vpr)) (UsedGas res))
                     (mul64 (sub64 (Gas tx) (UsedGas res)) AA_GAS_PENALTY_PCT / 100)) in *.
  assert (Hg0 : 0 <= gasUsed0
                <= base + ValidationGasLimit tx + PaymasterValidationGasLimit tx + Gas tx).
  { unfold gasUsed0, add64.
    rewrite (wrap64_small (_ + UsedGas res)) by lia.
    rewrite wrap64_small by lia. lia. }
  set (gasRefund0 := capRefund _ gasUsed0) in *.
  assert (Hr0 : 0 <= gasRefund0 <= gasUsed0).
  { unfold gasRefund0.
    match goal with
    | |- context [capRefund ?x gasUsed0] =>
        destruct (capRefund_range x gasUsed0) as [Hc1 Hc2];
          [unfold add64; apply wrap64_range | lia |]
    end.
    assert (gasUsed0 / 5 <= gasUsed0) by (apply Z.div_le_upper_bound; lia). lia. }
  apply bind_inv in Hex as [(po & me & Hpob & Hex) | [(? & _ & ->) | (p & Hpp & ->)]];
    [| discriminate |].
  2: { apply postOpBlock_panics in Hpp. intros Heq. inversion Heq; subst.
       destruct Hpp; discriminate. }
  apply (postOpBlock_gas evm Hgas) in Hpob as [Hpr Hpu]; [| exact Hpo | exact Hr0 | lia].
  apply bind_inv in Hex as [(s2 & mf & _ & Hex) | [(? & E & _) | (? & E & _)]];
    [| discriminate E ..].
  apply bind_inv in Hex as [(u2 & mg & _ & Hex) | [(? & E & _) | (? & E & _)]];
    [| discriminate E ..].
  apply bind_inv in Hex as [(u3 & mh & _ & Hex) | [(? & _ & ->) | (p & Hpp & ->)]];
    [| discriminate |].
  2: { apply payCoinbase_panics in Hpp. subst p. discriminate. }
  assert (Hfinal : sub64 (po_gasUsed po) (po_gasRefund po) <= total).
  { unfold sub64. rewrite wrap64_small by lia. lia. }
  destruct (total <? sub64 (po_gasUsed po) (po_gasRefund po)) eqn:Eguard; [lia |].
  assert (Hpack : forall name vals (k : list byte -> outcome (list Hash * list byte)) q,
             (forall d, k d <> Panicked q) ->
             (PackNonIndexed name vals ≫= k) <> Panicked q).
  { intros name vals k q Hk. pose proof (Hcodec name vals) as Hc.
    destruct (PackNonIndexed name vals) as [d | e | p]; simpl;
      [apply Hk | discriminate | exfalso; exact (Hc p eq_refl)]. }
  assert (Hev : forall (x : outcome (list Hash * list byte)) (mx mx' : Machine) p,
             (forall q, x <> Panicked q) ->
             (pure x ≫= (λ '(topics, data), injectEvent topics data (BigUint64 (Number header))))
               mx = (Panicked p, mx') -> False).
  { intros x mx mx' p Hx. apply codec_event_no_panic; [exact Hx |].
    intros [topics data] ? ? ?. apply injectEvent_Ok. }
  apply bind_inv in Hex as [(pool & mi & _ & Hex) | [(? & E & _) | (p & Hpp & ->)]].
  2: { unfold addGas, AddGas in E. destruct (MaxUint64 - _ <? _) in E; discriminate E. }
  2: { unfold addGas, AddGas in Hpp.
       destruct (MaxUint64 - _ <? _) in Hpp; inversion Hpp. discriminate. }
  apply bind_inv in Hex as [(u4 & mj & _ & Hex) | [(? & E & _) | (? & E & _)]];
    [| discriminate E ..].
  apply bind_inv in Hex as [(u5 & mk & _ & Hex) | [(? & _ & ->) | (p & Hpp & ->)]];
    [| discriminate |].
  2: { exfalso. apply Hev in Hpp; [exact Hpp |]. intros q.
       unfold abiEncodeRIP7560TransactionEvent. apply Hpack. discriminate. }
  apply bind_inv in Hex as [(u6 & ml & _ & Hex) | [(? & _ & ->) | (p & Hpp & ->)]];
    [| discriminate |].
  2: { exfalso. destruct (isSome _); [| discriminate].
       apply Hev in Hpp; [exact Hpp |]. discriminate. }
  apply bind_inv in Hex as [(u7 & mm & _ & Hex) | [(? & _ & ->) | (p & Hpp & ->)]];
    [| discriminate |].
  2: { exfalso. destruct (Failed res); [| discriminate].
       apply Hev in Hpp; [exact Hpp |]. intros q.
       unfold abiEncodeRIP7560TransactionRevertReasonEvent. apply Hpack. discriminate. }
  apply bind_inv in Hex as [(u8 & mn & _ & Hex) | [(? & _ & ->) | (p & Hpp & ->)]];
    [| discriminate |].
  2: { exfalso. destruct (paymasterPostOpResult po) as [rp |]; [| discriminate].
       destruct (Failed rp); [| discriminate].
       apply Hev in Hpp; [exact Hpp |]. intros q.
       unfold abiEncodeRIP7560TransactionPostOpRevertReasonEvent. apply Hpack. discriminate. }
  apply bind_inv in Hex as [(s3 & mo & _ & Hex) | [(? & E & _) | (? & E & _)]];
    [| discriminate E ..].
  inversion Hex. discriminate.
Qed.

End ExecutionGuard.

Lemma execution_guard_unreachable_witness :
  exists vpr m1,
    exSponsoredValidation = (Ok vpr, m1) /\
    (exSponsoredExecution vpr m1).1 <> Panicked "cannot spend more gas than the total limit".
Proof.
  destruct exSponsoredValidation as [[vpr | e | p] m1] eqn:E;
    [| vm_compute in E; discriminate ..].
  exists vpr, m1. split; [reflexivity |].
  unfold exSponsoredValidation in E.
  destruct (exSponsoredExecution vpr m1) as [r m2] eqn:Ee. simpl.
  unfold exSponsoredExecution in Ee.
  apply (execution_guard_unreachable (abi := exAbi) 15000 exConfig
           (scripted (scriptSponsored false false)) exHeader txSponsored
           (mkMachine stateSponsored 1000000) m1 m2 vpr exCoinbase exVmConfig 0 r).
  - apply scripted_respects_gas, scriptSponsored_gas.
  - unfold wf_tx. simpl. lia.
  - lia.
  - simpl. lia.
  - intros name vals p. simpl. discriminate.
  - exact E.
  - pose proof E as E'. vm_compute in E'. injection E' as <- _. vm_compute. discriminate.
  - exact Ee.
Defined.

(** ** The receipt of the execution phase *)

Lemma callFrame_inv (evm : EVM) (from to : Address) (data : list byte) (gasLimit : Z)
    (m : Machine) (r : outcome ExecutionResult) (m' : Machine) :
  callFrame evm from to data gasLimit m = (r, m') ->
  let c := evm (m_statedb m) from to data gasLimit in
  exists res,
    r = Ok res /\ ResErr res = evm_err c /\ ReturnData res = evm_ret c /\
    UsedGas res = sub64 gasLimit (evm_gasRemaining c) /\ RefundedGas res = 0 /\
    m_statedb m' = evm_state c /\ m_gp m' = m_gp m /\ m_epc m' = m_epc m.
Proof.
  intros H c. unfold callFrame, CallFrame in H. inversion H; subst; clear H.
  eexists. split; [reflexivity |]. simpl. repeat split; reflexivity.
Qed.

Section Receipt.

Context {abi : AbiCodec}.
Variable base : Z.
Variable config : ChainConfig.
Variable evm : EVM.
Variable header : Header.

(** What a post-op block that ends well has done. *)
Lemma postOpBlock_Ok_inv (aatx : Rip7560AccountAbstractionTx) (vpr : ValidationPhaseResult)
    (snapshot : StateDB) (executionResult : ExecutionResult)
    (gasUsed gasRefund receiptStatus executionStatus : Z) (m m' : Machine)
    (po : PostOpLocals) :
  postOpBlock evm aatx vpr snapshot executionResult gasUsed gasRefund
    receiptStatus executionStatus m = (Ok po, m') ->
  (PaymasterContext vpr = [] /\ paymasterPostOpResult po = None /\
   po_receiptStatus po = receiptStatus /\ po_executionStatus po = executionStatus /\
   m' = m) \/
  (PaymasterContext vpr <> [] /\
   exists paymaster msg res m1,
     Paymaster aatx = Some paymaster /\
     preparePostOpMessage vpr (negb (Failed executionResult)) (sub64 gasUsed gasRefund)
       = Ok msg /\
     callFrame evm AA_ENTRY_POINT paymaster msg (PostOpGas aatx) m = (Ok res, m1) /\
     paymasterPostOpResult po = Some res /\
     po_receiptStatus po = (if Failed res then ReceiptStatusFailed else receiptStatus) /\
     po_executionStatus po
       = (if Failed res then ExecutionStatusPostOpFailure else executionStatus) /\
     m' = if Failed res
          then {| m_statedb := snapshot; m_gp := m_gp m1; m_st := m_st m1;
                  m_epc := m_epc m1 |}
          else m1).
Proof.
  intros H. unfold postOpBlock in H.
  destruct (PaymasterContext vpr) as [| c0 ctx] eqn:Hctx; simpl in H.
  - inversion H; subst. left. repeat split; reflexivity.
  - right. split; [discriminate |].
    apply bind_Ok_inv in H as (res & m1 & Hcall & H).
    unfold applyPaymasterPostOpFrame in Hcall.
    apply bind_Ok_inv in Hcall as (msg & m0 & Hmsg & Hcall).
    apply pure_Ok_inv in Hmsg as [Hmsg ->].
    destruct (Paymaster aatx) as [paymaster |]; [| discriminate].
    exists paymaster, msg, res, m1.
    split; [reflexivity |]. split; [exact Hmsg |]. split; [exact Hcall |].
    apply bind_Ok_inv in H as ([rs es] & m2 & Hst & H).
    destruct (Failed res).
    + apply bind_Ok_inv in Hst as (s & m3 & Hs & Hst). inversion Hs; subst s m3; clear Hs.
      apply bind_Ok_inv in Hst as (u & m3 & Hs & Hst). inversion Hs; subst m3; clear Hs.
      inversion Hst; subst. inversion H; subst. simpl. repeat split; reflexivity.
    + inversion Hst; subst. inversion H; subst. simpl. repeat split; reflexivity.
Qed.

(** What an execution phase that returns a receipt has done: the execution
    frame, the post-op block, and the receipt read off them. *)
Lemma execution_inv (vpr : ValidationPhaseResult) (author : Address) (cfg : VmConfig)
    (usedGas : Z) (m m' : Machine) (receipt : Receipt) (usedGas' : Z) :
  ApplyRip7560ExecutionPhase base config evm vpr author header cfg usedGas m
    = (Ok (receipt, usedGas'), m') ->
  let aatx := vpr_Tx vpr in
  exists res mc gasUsed gasRefund po me,
    callFrame evm AA_ENTRY_POINT (Sender aatx) (ExecutionData aatx) (Gas aatx)
      {| m_statedb := m_statedb m; m_gp := m_gp m;
         m_st := {| initialGas := MaxUint64; gasRemaining := MaxUint64 |};
         m_epc := m_epc m |}
      = (Ok res, mc) /\
    postOpBlock evm aatx vpr (m_statedb m) res gasUsed gasRefund
      (if Failed res then ReceiptStatusFailed else ReceiptStatusSuccessful)
      (if Failed res then ExecutionStatusExecutionFailure else ExecutionStatusSuccess) mc
      = (Ok po, me) /\
    receipt = {| rcpt_Type := Rip7560Type; rcpt_TxHash := TxHash aatx;
                 rcpt_GasUsed := sub64 (po_gasUsed po) (po_gasRefund po);
                 rcpt_CumulativeGasUsed := usedGas';
                 rcpt_Status := po_receiptStatus po;
                 rcpt_Logs := GetLogs (m_statedb m') (vpr_TxHash vpr);
                 rcpt_TransactionIndex := vpr_TxIndex vpr |} /\
    usedGas' = add64 usedGas (sub64 (po_gasUsed po) (po_gasRefund po)).
Proof.
  intros H aatx. unfold ApplyRip7560ExecutionPhase in H. fold aatx in H.
  apply bind_Ok_inv in H as (u1 & ma & Ha & H). inversion Ha; subst ma; clear Ha.
  apply bind_Ok_inv in H as (s0 & mb & Hb & H). inversion Hb; subst s0 mb; clear Hb.
  apply bind_Ok_inv in H as (res & mc & Hc & H).
  apply bind_Ok_inv in H as (s1 & md & Hd & H). inversion Hd; subst s1 md; clear Hd.
  apply bind_Ok_inv in H as (po & me & He & H).
  simpl m_statedb in He. unfold Snapshot in He.
  exists res, mc.
  match type of He with
  | postOpBlock _ _ _ _ _ ?g ?r _ _ _ = _ => exists g, r
  end.
  exists po, me. split; [exact Hc |]. split; [exact He |].
  apply bind_Ok_inv in H as (s2 & mf & Hf & H).
  apply bind_Ok_inv in H as (u2 & mg & Hg & H).
  apply bind_Ok_inv in H as (u3 & mh & Hh & H).
  destruct (_ <? _); [discriminate |].
  apply bind_Ok_inv in H as (pool & mi & Hi & H).
  apply bind_Ok_inv in H as (u4 & mj & Hj & H).
  apply bind_Ok_inv in H as (u5 & mk & Hk & H).
  apply bind_Ok_inv in H as (u6 & ml & Hl & H).
  apply bind_Ok_inv in H as (u7 & mm & Hm & H).
  apply bind_Ok_inv in H as (u8 & mn & Hn & H).
  apply bind_Ok_inv in H as (s3 & mo & Ho & H). inversion Ho; subst s3 mo; clear Ho.
  inversion H; subst. split; reflexivity.
Qed.

(** X15.  The receipt of an execution phase has the RIP-7560 type, the
    transaction's hash, the running block total increased by its own gas
    use, and the logs of the transaction's hash in the final state.  Without
    a paymaster context its status is successful exactly when the execution
    frame succeeded; with one, exactly when the execution frame and the
    post-op frame, called on the state the execution frame left, both
    succeeded. *)
Theorem receipt_of_execution (vpr : ValidationPhaseResult) (author : Address)
    (cfg : VmConfig) (usedGas : Z) (m m' : Machine) (receipt : Receipt) (usedGas' : Z) :
  ApplyRip7560ExecutionPhase base config evm vpr author header cfg usedGas m
    = (Ok (receipt, usedGas'), m') ->
  let aatx := vpr_Tx vpr in
  let r1 := evm (m_statedb m) AA_ENTRY_POINT (Sender aatx) (ExecutionData aatx) (Gas aatx) in
  rcpt_Type receipt = Rip7560Type /\
  rcpt_TxHash receipt = TxHash aatx /\
  rcpt_CumulativeGasUsed receipt = add64 usedGas (rcpt_GasUsed receipt) /\
  usedGas' = rcpt_CumulativeGasUsed receipt /\
  rcpt_Logs receipt = GetLogs (m_statedb m') (vpr_TxHash vpr) /\
  (PaymasterContext vpr = [] ->
     rcpt_Status receipt
     = if isSome (evm_err r1) then ReceiptStatusFailed else ReceiptStatusSuccessful) /\
  (PaymasterContext vpr <> [] ->
     exists paymaster gasUsedSoFar msg,
       Paymaster aatx = Some paymaster /\
       preparePostOpMessage vpr (negb (isSome (evm_err r1))) gasUsedSoFar = Ok msg /\
       let r2 := evm (evm_state r1) AA_ENTRY_POINT paymaster msg (PostOpGas aatx) in
       rcpt_Status receipt
       = if isSome (evm_err r1) || isSome (evm_err r2)
         then ReceiptStatusFailed else ReceiptStatusSuccessful).
Proof.
  intros H aatx r1.
  apply execution_inv in H as (res & mc & gasUsed & gasRefund & po & me & Hc & Hpo & -> & ->).
  fold aatx in Hc, Hpo.
  apply callFrame_inv in Hc as (res' & Hres & Herr & _ & _ & _ & Hs & _).
  inversion Hres; subst res'. simpl in Herr, Hs. fold r1 in Herr, Hs.
  assert (HF : Failed res = isSome (evm_err r1)) by (unfold Failed; rewrite Herr; reflexivity).
  simpl. repeat (split; [reflexivity |]).
  apply postOpBlock_Ok_inv in Hpo.
  destruct Hpo as [(Hctx & _ & Hst & _) | (Hctx & p & msg & res2 & m1 & Hp & Hmsg & Hc2 & _ & Hst & _)].
  - split; [| congruence]. intros _. rewrite Hst, HF. reflexivity.
  - split; [congruence |]. intros _.
    exists p, (sub64 gasUsed gasRefund), msg.
    split; [exact Hp |]. rewrite <- HF. split; [exact Hmsg |].
    apply callFrame_inv in Hc2 as (res' & Hres2 & Herr2 & _).
    inversion Hres2; subst res'. rewrite Hs in Herr2.
    rewrite Hst. unfold Failed. rewrite Herr2, Herr.
    destruct (evm_err r1); destruct (evm_err _); reflexivity.
Qed.

End Receipt.

Lemma receipt_of_execution_witness :
  exists vpr m1 receipt used m2,
    exSponsoredValidation = (Ok vpr, m1) /\
    exSponsoredExecution vpr m1 = (Ok (receipt, used), m2) /\
    rcpt_CumulativeGasUsed receipt = add64 0 (rcpt_GasUsed receipt).
Proof.
  destruct exSponsoredValidation as [[vpr | e | p] m1] eqn:Ev;
    [| vm_compute in Ev; discriminate ..].
  destruct (exSponsoredExecution vpr m1) as [[[receipt used] | e | p] m2] eqn:Ee.
  - exists vpr, m1, receipt, used, m2. split; [reflexivity |]. split; [exact Ee |].
    destruct (receipt_of_execution (abi := exAbi) 15000 exConfig
                (scripted (scriptSponsored false false)) exHeader vpr exCoinbase exVmConfig
                0 m1 m2 receipt used Ee) as (_ & _ & H & _).
    exact H.
  - exfalso. vm_compute in Ev. injection Ev as <- <-. vm_compute in Ee. discriminate.
  - exfalso. vm_compute in Ev. injection Ev as <- <-. vm_compute in Ee. discriminate.
Defined.

(** ** The batch driver *)

Lemma caseResult_Ok_inv {A B} (act : V A) (onErr : error -> V B) (onOk : A -> V B)
    (m m' : Machine) (b : B) :
  caseResult act onErr onOk m = (Ok b, m') ->
  (exists a m1, act m = (Ok a, m1) /\ onOk a m1 = (Ok b, m')) \/
  (exists e m1, act m = (Err e, m1) /\ onErr e m1 = (Ok b, m')).
Proof.
  unfold caseResult. destruct (act m) as [[a | e | p] m1]; intros H.
  - left. eauto.
  - right. eauto.
  - discriminate.
Qed.

Section Batch.

Context {abi : AbiCodec}.
Variable base : Z.
Variable config : ChainConfig.
Variable evm : EVM.
Variable coinbase : Address.
Variable header : Header.
Variable cfg : VmConfig.
Variable skipInvalid : bool.
Variable index : Z.

(** What the loop adds to its accumulator. *)
Lemma handleLoop_shape (txs : list Transaction) : forall i acc m res m',
  handleLoop base config evm coinbase header cfg skipInvalid index txs i acc m
    = (Ok res, m') ->
  exists vs rs fs,
    validatedTransactions res = validatedTransactions acc ++ vs /\
    receipts res = receipts acc ++ rs /\
    validationFailureInfos res = validationFailureInfos acc ++ fs /\
    allLogs res = allLogs acc ++ concat (map rcpt_Logs rs) /\
    batch_usedGas res = cumulativeGas (batch_usedGas acc) rs /\
    map rcpt_TxHash rs = map TxHash vs /\
    Forall (fun r => rcpt_Type r = Rip7560Type /\ 0 <= rcpt_GasUsed r < 2 ^ 64) rs /\
    sublist vs (rip7560Prefix txs) /\
    (length vs + length fs = length (rip7560Prefix txs))%nat /\
    (skipInvalid = false ->
       fs = [] /\ vs = rip7560Prefix txs /\
       m_gp m' = m_gp m - sumZ (map rcpt_GasUsed rs)).
Proof.
  induction txs as [| t rest IH]; intros i acc m res m' H.
  - inversion H; subst. exists [], [], [].
    rewrite !app_nil_r. simpl. repeat split; try reflexivity; try constructor. lia.
  - destruct t as [tx | ty].
    2: { inversion H; subst. exists [], [], [].
         rewrite !app_nil_r. simpl. repeat split; try reflexivity; try constructor. lia. }
    simpl in H.
    apply bind_Ok_inv in H as (s0 & ma & Ha & H). inversion Ha; subst s0 ma; clear Ha.
    apply bind_Ok_inv in H as (u & mb & Hb & H). inversion Hb; subst mb; clear Hb.
    apply bind_Ok_inv in H as (s1 & mc & Hc & H). inversion Hc; subst s1 mc; clear Hc.
    apply caseResult_Ok_inv in H as [(vpr & m1 & Hval & H) | (vpe & m1 & Hval & H)].
    + apply bind_Ok_inv in H as ([receipt used] & m2 & Hex & H).
      apply bind_Ok_inv in H as (s2 & md & Hd & H). inversion Hd; subst s2 md; clear Hd.
      apply bind_Ok_inv in H as (u2 & me & He & H). inversion He; subst me; clear He.
      apply IH in H as (vs & rs & fs & Hvs & Hrs & Hfs & Hlogs & Hused & Hhash & Hty & Hsub
                        & Hlen & Hstrict).
      simpl in Hvs, Hrs, Hfs, Hlogs, Hused.
      destruct (validation_gp base config evm header tx _ _ _ Hval)
        as (total & HL & _ & Hgp1 & Htx).
      pose proof (execution_gp base config evm header _ _ _ _ _ _ _ _ Hex)
        as (Hrange & Hle & Hgp2 & Hu).
      apply execution_inv in Hex
        as (res1 & mc & g & r & po & me & _ & _ & Hrcpt & _).
      exists (tx :: vs), (receipt :: rs), fs.
      rewrite Hvs, Hrs, Hfs, Hlogs, Hused, <- !app_assoc. simpl.
      split; [reflexivity |]. split; [reflexivity |]. split; [reflexivity |].
      split; [reflexivity |].
      split; [unfold cumulativeGas; simpl; rewrite Hu; reflexivity |].
      split.
      { rewrite Hhash. f_equal. rewrite Hrcpt. simpl. rewrite Htx. reflexivity. }
      split; [constructor; [split; [rewrite Hrcpt; reflexivity | exact Hrange] | exact Hty] |].
      split; [apply sublist_skip; exact Hsub |].
      split; [lia |].
      intros Hs. destruct (Hstrict Hs) as (-> & -> & Hgp).
      split; [reflexivity |]. split; [reflexivity |].
      simpl in Hgp, Hgp1, Hgp2. rewrite Hgp, Hgp2, Hgp1.
      rewrite Htx, HL in Hle, Hgp2 |- *. simpl in Hle |- *.
      pose proof (SumGas_range _ _ HL) as HLr.
      unfold sub64. rewrite wrap64_small by lia. lia.
    + destruct skipInvalid eqn:Hskip; [| discriminate].
      apply bind_Ok_inv in H as (s2 & md & Hd & H). inversion Hd; subst s2 md; clear Hd.
      apply bind_Ok_inv in H as (u2 & me & He & H). inversion He; subst me; clear He.
      apply IH in H as (vs & rs & fs & Hvs & Hrs & Hfs & Hlogs & Hused & Hhash & Hty & Hsub
                        & Hlen & _).
      simpl in Hvs, Hrs, Hfs, Hlogs, Hused.
      exists vs, rs, (debugInfoOf tx vpe :: fs).
      rewrite Hvs, Hrs, Hfs, Hlogs, Hused, <- !app_assoc. simpl.
      repeat (split; [first [reflexivity | assumption] |]).
      split; [apply sublist_cons; exact Hsub |].
      split; [lia | discriminate].
Qed.

Lemma HandleRip7560Transactions_Ok_inv (transactions : list Transaction) (usedGas : Z)
    (m m' : Machine) (res : BatchResult) :
  HandleRip7560Transactions base config evm transactions index coinbase header cfg
    skipInvalid usedGas m = (Ok res, m') ->
  0 <= index <= Z.of_nat (length transactions) /\
  handleLoop base config evm coinbase header cfg skipInvalid index
    (drop (Z.to_nat index) transactions) 0
    {| validatedTransactions := []; receipts := []; validationFailureInfos := [];
       allLogs := []; batch_usedGas := usedGas |} m = (Ok res, m').
Proof.
  intros H. unfold HandleRip7560Transactions in H.
  apply bind_Ok_inv in H as (r & m1 & Hr & H).
  inversion H; subst; clear H. unfold handleRip7560Transactions in Hr.
  destruct ((index <? 0) || (Z.of_nat (length transactions) <? index)) eqn:E;
    [discriminate |].
  apply orb_false_iff in E as [E1 E2]. split; [lia |].
  destruct r; exact Hr.
Qed.

(** X16.  A batch that succeeds started from an index within the slice; its
    validated transactions are a subsequence of the RIP-7560 transactions
    that precede the first transaction of another type; every one of those is
    either validated or has a failure record; in import mode all of them are
    validated and there is no failure record; the receipts match the
    validated transactions in number, order and hash and have the RIP-7560
    type; and the logs are the receipts' logs in order. *)
Theorem batch_result_shape (transactions : list Transaction) (usedGas : Z)
    (m m' : Machine) (res : BatchResult) :
  HandleRip7560Transactions base config evm transactions index coinbase header cfg
    skipInvalid usedGas m = (Ok res, m') ->
  let prefix := rip7560Prefix (drop (Z.to_nat index) transactions) in
  0 <= index <= Z.of_nat (length transactions) /\
  sublist (validatedTransactions res) prefix /\
  (length (validatedTransactions res) + length (validationFailureInfos res)
   = length prefix)%nat /\
  (skipInvalid = false ->
     validatedTransactions res = prefix /\ validationFailureInfos res = []) /\
  map rcpt_TxHash (receipts res) = map TxHash (validatedTransactions res) /\
  Forall (fun r => rcpt_Type r = Rip7560Type) (receipts res) /\
  allLogs res = concat (map rcpt_Logs (receipts res)).
Proof.
  intros H prefix. apply HandleRip7560Transactions_Ok_inv in H as [Hi H].
  apply handleLoop_shape in H
    as (vs & rs & fs & Hvs & Hrs & Hfs & Hlogs & _ & Hhash & Hty & Hsub & Hlen & Hstrict).
  simpl in Hvs, Hrs, Hfs, Hlogs. subst prefix.
  rewrite Hvs, Hrs, Hfs, Hlogs.
  repeat (split; [first [assumption | reflexivity] |]).
  split; [| split; [exact Hhash | split; [| reflexivity]]].
  - intros Hs. destruct (Hstrict Hs) as (-> & -> & _). split; reflexivity.
  - eapply Forall_impl; [exact Hty |]. intros r [Hr _]. exact Hr.
Qed.

End Batch.

Section BatchGas.

Context {abi : AbiCodec}.
Variable base : Z.
Variable config : ChainConfig.
Variable evm : EVM.
Variable coinbase : Address.
Variable header : Header.
Variable cfg : VmConfig.

Lemma cumulativeGas_sum (rs : list Receipt) : forall usedGas,
  0 <= usedGas < 2 ^ 64 ->
  cumulativeGas usedGas rs = wrap64 (usedGas + sumZ (map rcpt_GasUsed rs)).
Proof.
  unfold cumulativeGas.
  induction rs as [| r rs IH]; intros usedGas Hu; simpl.
  - rewrite Z.add_0_r, wrap64_small by lia. reflexivity.
  - rewrite IH by (unfold add64; apply wrap64_range).
    unfold add64. rewrite wrap64_add_l. f_equal. lia.
Qed.

(** X17.  In import mode a batch that succeeds raises the running block
    total by the sum of the receipts' gas use (in 64 bits) and takes exactly
    that sum out of the block gas pool. *)
Theorem batch_gas_accounting (transactions : list Transaction) (index usedGas : Z)
    (m m' : Machine) (res : BatchResult) :
  0 <= usedGas < 2 ^ 64 ->
  HandleRip7560Transactions base config evm transactions index coinbase header cfg
    false usedGas m = (Ok res, m') ->
  let spent := sumZ (map rcpt_GasUsed (receipts res)) in
  batch_usedGas res = wrap64 (usedGas + spent) /\
  m_gp m' = m_gp m - spent /\
  Forall (fun r => 0 <= rcpt_GasUsed r < 2 ^ 64) (receipts res).
Proof.
  intros Hu H spent. apply HandleRip7560Transactions_Ok_inv in H as [_ H].
  apply handleLoop_shape in H
    as (vs & rs & fs & _ & Hrs & _ & _ & Hused & _ & Hty & _ & _ & Hstrict).
  simpl in Hrs, Hused. subst spent. rewrite Hrs, Hused.
  destruct (Hstrict eq_refl) as (_ & _ & Hgp).
  split; [apply cumulativeGas_sum; exact Hu |]. split; [exact Hgp |].
  eapply Forall_impl; [exact Hty |]. intros r [_ Hr]. exact Hr.
Qed.

End BatchGas.

Lemma batch_result_shape_witness :
  exists res m', exBatchRun = (Ok res, m') /\ validatedTransactions res = [txSimple].
Proof.
  destruct exBatchRun as [[res | e | p] m'] eqn:E; [| vm_compute in E; discriminate ..].
  exists res, m'. split; [reflexivity |].
  unfold exBatchRun in E.
  destruct (batch_result_shape (abi := exAbi) 15000 exConfig (scripted scriptPlain)
              exCoinbase exHeader exVmConfig false 0 exBatch 0 _ _ _ E)
    as (_ & _ & _ & H & _).
  exact (proj1 (H eq_refl)).
Defined.

Lemma batch_gas_accounting_witness :
  exists res m',
    exBatchRun = (Ok res, m') /\
    m_gp m' = 1000000 - sumZ (map rcpt_GasUsed (receipts res)).
Proof.
  destruct exBatchRun as [[res | e | p] m'] eqn:E; [| vm_compute in E; discriminate ..].
  exists res, m'. split; [reflexivity |].
  unfold exBatchRun in E.
  destruct (batch_gas_accounting (abi := exAbi) 15000 exConfig (scripted scriptPlain)
              exCoinbase exHeader exVmConfig exBatch 0 0 _ _ _ ltac:(lia) E)
    as (_ & H & _).
  exact H.
Defined.

(** ** The nonce-manager message of the earlier processor *)

Lemma byte_of_wrapped (v : Z) (k m : nat) :
  (k < m)%nat ->
  (v mod 256 ^ Z.of_nat m) / 256 ^ Z.of_nat k mod 256 = v / 256 ^ Z.of_nat k mod 256.
Proof.
  intros Hkm.
  assert (Hpow : 256 ^ Z.of_nat m = 256 ^ Z.of_nat k * 256 ^ Z.of_nat (m - k)).
  { rewrite <- Z.pow_add_r by lia. f_equal. lia. }
  assert (Hk : 0 < 256 ^ Z.of_nat k) by (apply Z.pow_pos_nonneg; lia).
  assert (Hc : 0 < 256 ^ Z.of_nat (m - k)) by (apply Z.pow_pos_nonneg; lia).
  rewrite Hpow, Z.rem_mul_r by lia.
  rewrite (Z.mul_comm (256 ^ Z.of_nat k)), Z.div_add by lia.
  rewrite (Z.div_small (v mod _)) by (apply Z.mod_pos_bound; lia).
  rewrite Z.add_0_l.
  apply Z.mod_mod_divide.
  exists (256 ^ Z.of_nat (m - k - 1)).
  replace (Z.of_nat (m - k)) with (Z.of_nat (m - k - 1) + 1) by lia.
  rewrite Z.pow_add_r by lia. lia.
Qed.

Lemma be_bytes_wrapped (n m : nat) (v : Z) :
  (n <= m)%nat -> be_bytes n (v mod 256 ^ Z.of_nat m) = be_bytes n v.
Proof.
  induction n as [| k IH]; intros Hnm; simpl; [reflexivity |].
  rewrite IH by lia. f_equal. apply byte_of_wrapped. lia.
Qed.

(** X18.  The earlier [prepareNonceManagerMessage] returns, for every key
    and nonce, a message from the EntryPoint to the nonce manager with gas
    limit 100000 whose data is exactly the 52 bytes sender, key (24 bytes,
    big-endian) and nonce (8 bytes, big-endian); for a key below [2^192] and
    a nonce below [2^63] the current encoder returns the same bytes. *)
Theorem legacy_nonce_message (tx : Rip7560AccountAbstractionTx) (nonceKey : Z) :
  NonceKey tx = Some nonceKey ->
  exists msg,
    Legacy.prepareNonceManagerMessage tx = Ok msg /\
    Legacy.msg_Data msg = nonceManagerCalldata (Sender tx) nonceKey (Nonce tx) /\
    length (Legacy.msg_Data msg) = 52%nat /\
    Legacy.msg_From msg = AA_ENTRY_POINT /\
    Legacy.msg_To msg = Some Legacy.AA_NONCE_MANAGER /\
    Legacy.msg_GasLimit msg = 100000 /\
    (0 <= nonceKey < 2 ^ 192 -> 0 <= Nonce tx < 2 ^ 63 ->
     prepareNonceManagerMessage tx = Ok (Legacy.msg_Data msg)).
Proof.
  intros Hk. unfold Legacy.prepareNonceManagerMessage. rewrite Hk.
  eexists. split; [reflexivity |].
  unfold FromBig.
  cbn [Legacy.msg_Data Legacy.msg_From Legacy.msg_To Legacy.msg_GasLimit fst app].
  assert (Hdata : AddressBytes (Sender tx) ++ Legacy.WriteToSlice (wrap256 nonceKey) 24
                    ++ Legacy.WriteToSlice (Nonce tx) 8
                  = nonceManagerCalldata (Sender tx) nonceKey (Nonce tx)).
  { unfold nonceManagerCalldata, AddressBytes, Legacy.WriteToSlice, wrap256.
    change (2 ^ 256) with (256 ^ Z.of_nat 32).
    rewrite (be_bytes_wrapped 24 32) by lia. reflexivity. }
  rewrite <- !app_assoc. rewrite Hdata.
  split; [reflexivity |].
  split; [unfold nonceManagerCalldata; rewrite !length_app, !be_bytes_length; reflexivity |].
  repeat (split; [reflexivity |]).
  intros Hkey Hnonce.
  unfold prepareNonceManagerMessage, nonceManagerCalldata, AddressBytes. rewrite Hk.
  unfold int64_of_uint64.
  destruct (Nonce tx <? 2 ^ 63) eqn:E; [| lia].
  change 24 with (Z.of_nat 24). change 8 with (Z.of_nat 8).
  rewrite (PaddedBigBytes_fits nonceKey 24) by (simpl; lia).
  rewrite (PaddedBigBytes_fits (Nonce tx) 8) by (simpl; lia).
  reflexivity.
Qed.

Lemma legacy_nonce_message_witness :
  exists msg,
    Legacy.prepareNonceManagerMessage txMaxNonce = Ok msg /\
    Legacy.msg_Data msg = nonceManagerCalldata exSender 7 (2 ^ 64 - 1).
Proof.
  destruct (legacy_nonce_message txMaxNonce 7 eq_refl) as (msg & H1 & H2 & _).
  exists msg. split; [exact H1 | exact H2].
Defined.

(** ** The events of the execution phase *)

Section Events.

Context {abi : AbiCodec}.
Variable base : Z.
Variable config : ChainConfig.
Variable evm : EVM.
Variable header : Header.





End Events.


(** ** Decoding the callbacks *)

Section Decoding.

Context {abi : AbiCodec}.

Lemma decodeMethodParamsToInterface_Ok_inv {A} (unpack : string -> list byte -> outcome A)
    (methodName : string) (input : list byte) (a : A) :
  decodeMethodParamsToInterface unpack methodName input = Ok a ->
  MethodById input = Ok methodName /\ unpack methodName (drop 4 input) = Ok a.
Proof.
  unfold decodeMethodParamsToInterface.
  destruct (MethodById input) as [m | e | p]; try discriminate.
  destruct (String.eqb methodName m) eqn:E; simpl; [| discriminate].
  apply String.eqb_eq in E. subst m.
  destruct (unpack methodName (drop 4 input)); intros H; inversion H; subst.
  split; reflexivity.
Qed.

(** X20.  [abiDecodeAcceptAccount] returns data only for an input whose
    selector is [acceptAccount], or [sigFailAccount] when signature failures
    are allowed, and the data is what the method's inputs unpack to; the same
    holds for the paymaster, whose context is moreover at most 65536 bytes;
    an input of any other method is an error. *)
Theorem callback_methods_accepted (input : list byte) (allowSigFail : bool) :
  (forall aad, abiDecodeAcceptAccount input allowSigFail = Ok aad ->
     (MethodById input = Ok "acceptAccount"%string /\
      UnpackAcceptAccount "acceptAccount" (drop 4 input) = Ok aad) \/
     (allowSigFail = true /\ MethodById input = Ok "sigFailAccount"%string /\
      UnpackAcceptAccount "sigFailAccount" (drop 4 input) = Ok aad)) /\
  (forall apd, abiDecodeAcceptPaymaster input allowSigFail = Ok apd ->
     Z.of_nat (length (apd_Context apd)) <= PaymasterMaxContextSize /\
     ((MethodById input = Ok "acceptPaymaster"%string /\
       UnpackAcceptPaymaster "acceptPaymaster" (drop 4 input) = Ok apd) \/
      (allowSigFail = true /\ MethodById input = Ok "sigFailPaymaster"%string /\
       UnpackAcceptPaymaster "sigFailPaymaster" (drop 4 input) = Ok apd))) /\
  (forall m, MethodById input = Ok m ->
     m <> "acceptAccount"%string -> m <> "sigFailAccount"%string ->
     exists e, abiDecodeAcceptAccount input allowSigFail = Err e).
Proof.
  split; [| split].
  - intros aad. unfold abiDecodeAcceptAccount.
    destruct (decodeMethodParamsToInterface UnpackAcceptAccount "acceptAccount" input)
      as [d | e | p] eqn:E1; simpl.
    + intros H. inversion H; subst. left.
      exact (decodeMethodParamsToInterface_Ok_inv _ _ _ _ E1).
    + destruct allowSigFail; [| discriminate].
      intros H. right. split; [reflexivity |].
      exact (decodeMethodParamsToInterface_Ok_inv _ _ _ _ H).
    + discriminate.
  - intros apd H. split; [exact (abiDecodeAcceptPaymaster_context _ _ _ H) |].
    unfold abiDecodeAcceptPaymaster in H.
    destruct (decodeMethodParamsToInterface UnpackAcceptPaymaster "acceptPaymaster" input)
      as [d | e | p] eqn:E1; simpl in H.
    + destruct (_ <? _); inversion H; subst. left.
      exact (decodeMethodParamsToInterface_Ok_inv _ _ _ _ E1).
    + destruct allowSigFail; [| discriminate]. simpl in H.
      destruct (decodeMethodParamsToInterface UnpackAcceptPaymaster "sigFailPaymaster" input)
        as [d | e' | p] eqn:E2; simpl in H; try discriminate.
      destruct (_ <? _); inversion H; subst. right. split; [reflexivity |].
      exact (decodeMethodParamsToInterface_Ok_inv _ _ _ _ E2).
    + discriminate.
  - intros m Hm Ha Hs. unfold abiDecodeAcceptAccount, decodeMethodParamsToInterface.
    rewrite Hm.
    assert (E1 : String.eqb "acceptAccount" m = false)
      by (apply String.eqb_neq; congruence).
    assert (E2 : String.eqb "sigFailAccount" m = false)
      by (apply String.eqb_neq; congruence).
    rewrite E1, E2. simpl. destruct allowSigFail; simpl; eexists; reflexivity.
Qed.

End Decoding.

(** ** A paymaster at the zero address *)

Section ZeroPaymaster.

Context {abi : AbiCodec}.
Variable base : Z.
Variable evm : EVM.
Variable header : Header.

(** X21.  A paymaster set to the zero address pays nothing and validates
    nothing: the gas payer is the sender and the paymaster frame returns the
    empty context without calling the EVM; yet the static checks treat it as
    a paymaster and demand a gas limit and code at the zero address. *)
Theorem zero_address_paymaster (tx : Rip7560AccountAbstractionTx) (signingHash : Hash)
    (m : Machine) :
  Paymaster tx = Some zeroAddress ->
  GasPayer tx = Sender tx /\
  applyPaymasterValidationFrame evm tx signingHash header m = (Ok ([], 0, 0, 0), m) /\
  (performStaticValidation base tx (m_statedb m) = None ->
   PaymasterValidationGasLimit tx <> 0 /\ GetCodeSize (m_statedb m) zeroAddress <> 0).
Proof.
  intros Hp. split; [| split].
  - unfold GasPayer. rewrite Hp. reflexivity.
  - unfold applyPaymasterValidationFrame, preparePaymasterValidationMessage.
    rewrite Hp. reflexivity.
  - intros Hs. apply performStaticValidation_passes in Hs as (_ & _ & H & _).
    exact (H _ Hp).
Qed.

End ZeroPaymaster.

Lemma zero_address_paymaster_witness :
  GasPayer txZeroPaymaster = exSender.
Proof.
  exact (proj1 (zero_address_paymaster (abi := exAbi) 15000 (scripted scriptPlain) exHeader
                  txZeroPaymaster 0 (mkMachine stateSimple 0) eq_refl)).
Defined.

(** ** The gas estimator *)

Section EstimatorProperties.

Import GasEstimator.

Variable Rip7560TxGas : Z.
Variable TxGas : Z.
Variable CallStipend : Z.
Variable applyValidationPhases :
  Rip7560AccountAbstractionTx -> StateDB -> outcome (ValidationPhaseResult * StateDB).
Variable applyExecutionPhase :
  Rip7560AccountAbstractionTx -> ValidationPhaseResult -> StateDB
  -> outcome (ExecutionResult * option ExecutionResult).
Variable errIsOutOfGas : error -> bool.
Variable errIsIntrinsicGas : error -> bool.


(** One step of the bisection lowers the upper bound. *)
Lemma bisect_mid (lo hi : Z) :
  0 <= lo < 2 ^ 64 -> 0 <= hi < 2 ^ 64 -> add64 lo 1 < hi ->
  let mid := add64 hi lo / 2 in
  let mid := if mul64 lo 2 <? mid then mul64 lo 2 else mid in
  0 <= mid < hi.
Proof.
  intros Hlo Hhi Hlt.
  assert (Hm : 0 <= add64 hi lo / 2 < hi).
  { unfold add64 in *.
    pose proof (wrap64_range (hi + lo)) as Hr.
    pose proof (wrap64_range (lo + 1)) as Hr1.
    split; [apply Z.div_pos; lia |].
    apply Z.div_lt_upper_bound; [lia |].
    destruct (Z_lt_ge_dec (hi + lo) (2 ^ 64)) as [Hs | Hs].
    - rewrite wrap64_small by lia.
      destruct (Z.eq_dec lo (2 ^ 64 - 1)) as [-> | Hne]; [lia |].
      rewrite wrap64_small in Hlt by lia. lia.
    - rewrite (wrap64_shift (hi + lo) (hi + lo - 2 ^ 64) 1) by lia.
      rewrite wrap64_small by lia. lia. }
  simpl. pose proof (wrap64_range (lo * 2)) as Hr. unfold mul64.
  destruct (wrap64 (lo * 2) <? add64 hi lo / 2) eqn:E; lia.
Qed.

Lemma searchValidation_sound (st : Rip7560AccountAbstractionTx) (opts : Options)
    (fuel : nat) : forall lo hi last hi' last',
  0 <= lo < 2 ^ 64 -> 0 <= hi < 2 ^ 64 ->
  (exists r, executeRip7560Validation applyValidationPhases errIsOutOfGas st opts hi = Ok (Some r)) ->
  (last = None \/ executeRip7560Validation applyValidationPhases errIsOutOfGas st opts hi = Ok last) ->
  searchValidation applyValidationPhases errIsOutOfGas fuel st opts lo hi last = Some (Ok (hi', last')) ->
  0 <= hi' <= hi /\
  (exists r, executeRip7560Validation applyValidationPhases errIsOutOfGas st opts hi' = Ok (Some r)) /\
  (last' = None \/ executeRip7560Validation applyValidationPhases errIsOutOfGas st opts hi' = Ok last').
Proof.
  induction fuel as [| fuel IH]; intros lo hi last hi' last' Hlo Hhi Hs Hl H;
    simpl in H; [discriminate |].
  destruct (add64 lo 1 <? hi) eqn:Elt.
  - destruct (ErrorRatioPositive opts && belowErrorRatio opts hi lo).
    + inversion H; subst. split; [lia |]. split; assumption.
    + apply Z.ltb_lt in Elt.
      pose proof (bisect_mid lo hi Hlo Hhi Elt) as Hmid. simpl in Hmid.
      set (mid := if mul64 lo 2 <? add64 hi lo / 2 then mul64 lo 2 else add64 hi lo / 2)
        in *.
      destruct (executeRip7560Validation applyValidationPhases errIsOutOfGas st opts mid) as [[r |] | e | p] eqn:Ep; try discriminate.
      * apply IH in H; [| lia | lia | eauto | right; exact Ep].
        destruct H as (Hh & Hs' & Hl'). split; [lia |]. split; assumption.
      * apply IH in H; [| lia | lia | exact Hs | left; reflexivity].
        exact H.
  - inversion H; subst. split; [lia |]. split; assumption.
Qed.

Lemma highestGasLimit_range (st : Rip7560AccountAbstractionTx) (opts : Options)
    (gasCap gasLimit cap : Z) :
  0 <= opt_HeaderGasLimit opts < 2 ^ 64 -> 0 <= gasCap < 2 ^ 64 ->
  0 <= gasLimit < 2 ^ 64 ->
  highestGasLimit TxGas st opts gasCap gasLimit = Ok cap ->
  0 <= cap < 2 ^ 64 /\
  (gasCap <> 0 -> cap <= gasCap) /\
  cap <= (if TxGas <=? gasLimit then gasLimit else opt_HeaderGasLimit opts).
Proof.
  intros Hh Hc Hg H. unfold highestGasLimit in H.
  set (hi0 := if TxGas <=? gasLimit then gasLimit else opt_HeaderGasLimit opts) in *.
  assert (H0 : 0 <= hi0 < 2 ^ 64) by (subst hi0; destruct (TxGas <=? gasLimit); lia).
  match type of H with
  | (?x ≫= _) = _ => destruct x as [hi1 | e | p] eqn:E1; simpl in H; try discriminate
  end.
  assert (H1 : 0 <= hi1 <= hi0).
  { destruct (negb (BitLen (GasFeeCap st) =? 0)).
    - destruct (opt_State opts); [| discriminate].
      destruct (IsUint64 _ && (BigUint64 _ <? hi0)) eqn:E2; inversion E1; subst; [| lia].
      apply andb_true_iff in E2 as [_ E2]. apply Z.ltb_lt in E2.
      pose proof (wrap64_range (Z.abs (BigDiv (GetBalance s
                    match Paymaster st with Some p => p | None => Sender st end)
                    (GasFeeCap st)))) as Hr.
      unfold BigUint64 in *. lia.
    - inversion E1; subst. lia. }
  inversion H; subst cap. clear H.
  destruct (negb (gasCap =? 0) && (gasCap <? hi1)) eqn:E3.
  - apply andb_true_iff in E3 as [_ E3]. apply Z.ltb_lt in E3. lia.
  - split; [lia |]. split; [| lia].
    intros Hne. apply andb_false_iff in E3 as [E3 | E3].
    + apply negb_false_iff, Z.eqb_eq in E3. lia.
    + apply Z.ltb_ge in E3. lia.
Qed.

(** X22.  An estimate returned by [EstimateRip7560Validation] is a gas limit
    at which a probe ran through, and it is within the highest gas limit
    (hence within the caller's cap, when there is one).  The validation
    result it stores is the one of the latest probe: it is either nil or the
    result of the probe at the estimate; when it is nil
    [EstimateRip7560Execution] panics on it. *)
Theorem estimate_validation_sound (fuel : nat) (st : Rip7560AccountAbstractionTx)
    (opts opts' : Options) (gasCap hi : Z) :
  0 <= opt_HeaderGasLimit opts < 2 ^ 64 -> 0 <= gasCap < 2 ^ 64 ->
  EstimateRip7560Validation Rip7560TxGas TxGas CallStipend applyValidationPhases
    errIsOutOfGas fuel st opts gasCap = Some (Ok (hi, opts')) ->
  (exists r, executeRip7560Validation applyValidationPhases errIsOutOfGas st opts hi
             = Ok (Some r)) /\
  (exists total cap,
     TotalGasLimit Rip7560TxGas st = Ok total /\
     highestGasLimit TxGas st opts gasCap (sub64 total (PostOpGas st)) = Ok cap /\
     0 <= hi <= cap /\ (gasCap <> 0 -> hi <= gasCap)) /\
  (opt_ValidationPhaseResult opts' = None \/
   exists vpr state,
     executeRip7560Validation applyValidationPhases errIsOutOfGas st opts hi
     = Ok (Some (vpr, state)) /\
     opt_ValidationPhaseResult opts' = Some vpr /\ opt_State opts' = Some state) /\
  (opt_ValidationPhaseResult opts' = None ->
   forall fuel' gasCap',
     EstimateRip7560Execution TxGas CallStipend applyExecutionPhase errIsIntrinsicGas
       fuel' opts' gasCap'
     = Some (Panicked "invalid memory address or nil pointer dereference")).
Proof.
  intros Hh Hc H. unfold EstimateRip7560Validation in H.
  destruct (TotalGasLimit Rip7560TxGas st) as [total | e | p] eqn:HL; try discriminate.
  destruct (highestGasLimit TxGas st opts gasCap (sub64 total (PostOpGas st)))
    as [cap | e | p] eqn:Hcap; try discriminate.
  destruct (highestGasLimit_range _ _ _ _ _ Hh Hc (wrap64_range _) Hcap) as (Hcr & Hcc & _).
  destruct (executeRip7560Validation applyValidationPhases errIsOutOfGas st opts cap)
    as [[[vpr statedb] |] | e | p] eqn:Ep; try discriminate.
  set (vpUsedGas := dropErr (validationPhaseUsedGas vpr)) in *.
  set (optimistic := mul64 (add64 vpUsedGas CallStipend) 64 / 63) in *.
  assert (Ho : 0 <= optimistic).
  { subst optimistic. apply Z.div_pos; [apply wrap64_range | lia]. }
  assert (Hsearch : exists lo0 hi0 last0 hi1 last1,
             searchValidation applyValidationPhases errIsOutOfGas fuel st opts lo0 hi0 last0
               = Some (Ok (hi1, last1)) /\
             0 <= lo0 < 2 ^ 64 /\ 0 <= hi0 <= cap /\
             (exists r, executeRip7560Validation applyValidationPhases errIsOutOfGas st opts
                          hi0 = Ok (Some r)) /\
             (last0 = None \/
              executeRip7560Validation applyValidationPhases errIsOutOfGas st opts hi0
              = Ok last0) /\
             hi = hi1 /\
             opt_ValidationPhaseResult opts' = fst <$> last1 /\
             opt_State opts' = snd <$> last1).
  { destruct (optimistic <? cap) eqn:Eo.
    - apply Z.ltb_lt in Eo.
      destruct (executeRip7560Validation applyValidationPhases errIsOutOfGas st opts
                  optimistic) as [[r |] | e | p] eqn:Ep2; try discriminate.
      + destruct (searchValidation _ _ fuel st opts (sub64 vpUsedGas 1) optimistic (Some r))
          as [[[hi1 last1] | e | p] |] eqn:Es; try discriminate.
        inversion H; subst hi opts'. clear H.
        exists (sub64 vpUsedGas 1), optimistic, (Some r), hi1, last1.
        split; [exact Es |]. split; [apply wrap64_range |]. split; [lia |].
        split; [eauto |]. split; [right; exact Ep2 |]. repeat split; reflexivity.
      + destruct (searchValidation _ _ fuel st opts optimistic cap None)
          as [[[hi1 last1] | e | p] |] eqn:Es; try discriminate.
        inversion H; subst hi opts'. clear H.
        exists optimistic, cap, None, hi1, last1.
        split; [exact Es |]. split; [lia |]. split; [lia |].
        split; [eauto |]. split; [left; reflexivity |]. repeat split; reflexivity.
    - destruct (searchValidation _ _ fuel st opts (sub64 vpUsedGas 1) cap
                  (Some (vpr, statedb)))
        as [[[hi1 last1] | e | p] |] eqn:Es; try discriminate.
      inversion H; subst hi opts'. clear H.
      exists (sub64 vpUsedGas 1), cap, (Some (vpr, statedb)), hi1, last1.
      split; [exact Es |]. split; [apply wrap64_range |]. split; [lia |].
      split; [eauto |]. split; [right; exact Ep |]. repeat split; reflexivity. }
  destruct Hsearch as (lo0 & hi0 & last0 & hi1 & last1 & Hs & Hlo & Hhi & Hsucc & Hlast
                       & -> & Hv & Hst).
  apply searchValidation_sound in Hs; [| exact Hlo | lia | exact Hsucc | exact Hlast].
  destruct Hs as (Hh1 & Hs1 & Hl1).
  split; [exact Hs1 |].
  split.
  { exists total, cap. split; [reflexivity |]. split; [exact Hcap |].
    split; [lia |]. intros Hne. specialize (Hcc Hne). lia. }
  split.
  { destruct Hl1 as [-> | Hl1]; [left; rewrite Hv; reflexivity |].
    destruct last1 as [[vpr1 s1] |]; [| left; rewrite Hv; reflexivity].
    right. exists vpr1, s1. rewrite Hv, Hst. repeat split; [exact Hl1 | reflexivity ..]. }
  intros Hnone fuel' gasCap'. unfold EstimateRip7560Execution. rewrite Hnone. reflexivity.
Qed.

(** With a lower bound of at least one and bounds below [2 ^ 63] every
    step of the bisection narrows the interval. *)
Lemma searchValidation_terminates (st : Rip7560AccountAbstractionTx) (opts : Options)
    (fuel : nat) : forall lo hi last,
  1 <= lo < 2 ^ 63 -> 0 <= hi < 2 ^ 63 ->
  Z.max 0 (hi - lo) < Z.of_nat fuel ->
  searchValidation applyValidationPhases errIsOutOfGas fuel st opts lo hi last <> None.
Proof.
  induction fuel as [| fuel IH]; intros lo hi last Hlo Hhi Hf; [lia |].
  simpl.
  destruct (add64 lo 1 <? hi) eqn:Elt; [| discriminate].
  destruct (ErrorRatioPositive opts && belowErrorRatio opts hi lo); [discriminate |].
  apply Z.ltb_lt in Elt. unfold add64, mul64 in *.
  rewrite wrap64_small in Elt by lia.
  rewrite (wrap64_small (hi + lo)), (wrap64_small (lo * 2)) by lia.
  set (mid := if lo * 2 <? (hi + lo) / 2 then lo * 2 else (hi + lo) / 2).
  assert (Hmid : lo < mid < hi).
  { assert (lo + 1 <= (hi + lo) / 2) by (apply Z.div_le_lower_bound; lia).
    assert ((hi + lo) / 2 < hi) by (apply Z.div_lt_upper_bound; lia).
    subst mid. destruct (lo * 2 <? (hi + lo) / 2) eqn:E; lia. }
  destruct (executeRip7560Validation applyValidationPhases errIsOutOfGas st opts mid)
    as [[r |] | e | p]; try discriminate; apply IH; lia.
Qed.

(** X23.  With a caller's cap below [2 ^ 63], and validation phases that
    report at least two gas (and no more than fits the optimistic limit),
    [EstimateRip7560Validation] returns after at most as many probes of the
    loop as the cap. *)
Theorem estimate_validation_terminates (fuel : nat) (st : Rip7560AccountAbstractionTx)
    (opts : Options) (gasCap : Z) :
  0 <= opt_HeaderGasLimit opts < 2 ^ 64 ->
  0 < gasCap < 2 ^ 63 ->
  0 <= CallStipend ->
  (forall g vpr state,
     executeRip7560Validation applyValidationPhases errIsOutOfGas st opts g
     = Ok (Some (vpr, state)) ->
     2 <= dropErr (validationPhaseUsedGas vpr) /\
     (dropErr (validationPhaseUsedGas vpr) + CallStipend) * 64 < 2 ^ 64) ->
  gasCap <= Z.of_nat fuel ->
  EstimateRip7560Validation Rip7560TxGas TxGas CallStipend applyValidationPhases
    errIsOutOfGas fuel st opts gasCap <> None.
Proof.
  intros Hh Hc Hcs Hused Hfuel. unfold EstimateRip7560Validation.
  destruct (TotalGasLimit Rip7560TxGas st) as [total | e | p]; try discriminate.
  destruct (highestGasLimit TxGas st opts gasCap (sub64 total (PostOpGas st)))
    as [cap | e | p] eqn:Hcap; try discriminate.
  assert (Hc64 : 0 <= gasCap < 2 ^ 64) by lia.
  destruct (highestGasLimit_range _ _ _ _ _ Hh Hc64 (wrap64_range _) Hcap)
    as (Hcr & Hcc & _).
  assert (Hcap' : cap <= gasCap) by (apply Hcc; lia).
  destruct (executeRip7560Validation applyValidationPhases errIsOutOfGas st opts cap)
    as [[[vpr statedb] |] | e | p] eqn:Ep; try discriminate.
  destruct (Hused _ _ _ Ep) as (Hu2 & Hu64).
  set (used := dropErr (validationPhaseUsedGas vpr)) in *.
  assert (Hlo : sub64 used 1 = used - 1) by (unfold sub64; apply wrap64_small; lia).
  assert (Hopt : mul64 (add64 used CallStipend) 64 / 63 = (used + CallStipend) * 64 / 63).
  { unfold mul64, add64. rewrite (wrap64_small (used + CallStipend)) by lia.
    rewrite wrap64_small by lia. reflexivity. }
  assert (Hopt2 : 2 <= (used + CallStipend) * 64 / 63).
  { apply Z.div_le_lower_bound; lia. }
  rewrite Hlo, Hopt.
  set (optimistic := (used + CallStipend) * 64 / 63) in *.
  assert (Hsome : forall lo hi last,
             1 <= lo < 2 ^ 63 -> 0 <= hi <= cap ->
             match searchValidation applyValidationPhases errIsOutOfGas fuel st opts lo hi
                     last with
             | Some (Ok (hi1, last1)) =>
                 Some (Ok (hi1,
                           {| opt_HeaderGasLimit := opt_HeaderGasLimit opts;
                              opt_State := snd <$> last1;
                              ErrorRatioPositive := ErrorRatioPositive opts;
                              belowErrorRatio := belowErrorRatio opts;
                              opt_ValidationPhaseResult := fst <$> last1 |}))
             | Some (Err err) => Some (Err err)
             | Some (Panicked p) => Some (Panicked p)
             | None => None
             end <> None).
  { intros lo hi last Hl Hhi.
    pose proof (searchValidation_terminates st opts fuel lo hi last Hl ltac:(lia)
                  ltac:(lia)) as Hne.
    destruct (searchValidation _ _ fuel st opts lo hi last) as [[[hi1 last1] | e | p] |];
      [discriminate .. | congruence]. }
  destruct (optimistic <? cap) eqn:Eo.
  - apply Z.ltb_lt in Eo.
    destruct (executeRip7560Validation applyValidationPhases errIsOutOfGas st opts
                optimistic) as [[r |] | e | p]; try discriminate; apply Hsome; lia.
  - apply Hsome; lia.
Qed.

(** What a probe of the execution phase returns: it failed and carries no
    results, or it did not fail and carries the execution result and no
    error. *)
Lemma executeRip7560Execution_shape (st : Rip7560AccountAbstractionTx) (opts : Options)
    (g : Z) (failed : bool) (exr ppr : option ExecutionResult) (err : option error) :
  executeRip7560Execution applyExecutionPhase errIsIntrinsicGas st opts g
  = Ok (failed, exr, ppr, err) ->
  (failed = true /\ exr = None /\ ppr = None) \/
  (failed = false /\ (exists r, exr = Some r) /\ err = None).
Proof.
  unfold executeRip7560Execution. intros H.
  destruct (opt_State opts); [| discriminate].
  destruct (opt_ValidationPhaseResult opts); [| discriminate].
  destruct (applyExecutionPhase _ _ _) as [[r1 r2] | e | p]; try discriminate.
  - inversion H; subst. right. eauto.
  - destruct (errIsIntrinsicGas e); inversion H; subst; left; auto.
Qed.

Lemma searchExecution_sound (st : Rip7560AccountAbstractionTx) (opts : Options)
    (fuel : nat) : forall lo hi res,
  0 <= lo < 2 ^ 64 -> 0 <= hi < 2 ^ 64 ->
  (exists exr ppr,
     executeRip7560Execution applyExecutionPhase errIsIntrinsicGas st opts hi
     = Ok (false, Some exr, ppr, None)) ->
  searchExecution applyExecutionPhase errIsIntrinsicGas fuel st opts lo hi = Some (Ok res) ->
  soundEstimate applyExecutionPhase errIsIntrinsicGas st opts hi res.
Proof.
  induction fuel as [| fuel IH]; intros lo hi res Hlo Hhi Hs H; simpl in H;
    [discriminate |].
  destruct (add64 lo 1 <? hi) eqn:Elt.
  - destruct (ErrorRatioPositive opts && belowErrorRatio opts hi lo).
    + inversion H; subst. simpl. split; [lia | exact Hs].
    + apply Z.ltb_lt in Elt.
      pose proof (bisect_mid lo hi Hlo Hhi Elt) as Hmid. simpl in Hmid.
      set (mid := if mul64 lo 2 <? add64 hi lo / 2 then mul64 lo 2 else add64 hi lo / 2)
        in *.
      destruct (executeRip7560Execution applyExecutionPhase errIsIntrinsicGas st opts mid)
        as [[[[failed exr] ppr] [err |]] | e | p] eqn:Ep; try discriminate.
      * inversion H; subst. simpl. split; [reflexivity |].
        destruct (executeRip7560Execution_shape _ _ _ _ _ _ _ Ep)
          as [(-> & -> & ->) | (_ & _ & Hn)]; [| discriminate].
        eauto.
      * destruct (executeRip7560Execution_shape _ _ _ _ _ _ _ Ep)
          as [(-> & -> & ->) | (-> & [r ->] & _)].
        -- apply IH in H; [exact H | lia | lia | exact Hs].
        -- apply IH in H; [| lia | lia | eauto].
           destruct res as [hi' | revert err]; simpl in *; [| exact H].
           destruct H as (Hr & Hp). split; [lia | exact Hp].
  - inversion H; subst. simpl. split; [lia | exact Hs].
Qed.

(** X24.  An estimate returned by [EstimateRip7560Execution] is a gas limit
    at which a probe of the execution phase did not fail, within the highest
    gas limit (hence within the caller's cap, when there is one).  A failure
    it reports never carries revert data: it is the error of the processor
    at some probe, or that the gas required exceeds the allowance. *)
Theorem estimate_execution_sound (fuel : nat) (opts : Options) (gasCap : Z)
    (res : Estimate) :
  0 <= opt_HeaderGasLimit opts < 2 ^ 64 -> 0 <= gasCap < 2 ^ 64 ->
  EstimateRip7560Execution TxGas CallStipend applyExecutionPhase errIsIntrinsicGas
    fuel opts gasCap = Some (Ok res) ->
  exists vpr,
    opt_ValidationPhaseResult opts = Some vpr /\
    match res with
    | Estimated hi =>
        (exists exr ppr,
           executeRip7560Execution applyExecutionPhase errIsIntrinsicGas (vpr_Tx vpr) opts hi
           = Ok (false, Some exr, ppr, None)) /\
        0 <= hi /\ (gasCap <> 0 -> hi <= gasCap)
    | Failure revert err =>
        revert = None /\
        (err = inl (Base (Msg "gas required exceeds allowance (%d)")) \/
         exists g e,
           executeRip7560Execution applyExecutionPhase errIsIntrinsicGas (vpr_Tx vpr) opts g
           = Ok (true, None, None, Some e) /\ err = inl e)
    end.
Proof.
  intros Hh Hc H. unfold EstimateRip7560Execution in H.
  destruct (opt_ValidationPhaseResult opts) as [vpr |] eqn:Hv; [| discriminate].
  exists vpr. split; [reflexivity |].
  set (st := vpr_Tx vpr) in *.
  destruct (highestGasLimit TxGas st opts gasCap (add64 (Gas st) (PostOpGas st)))
    as [cap | e | p] eqn:Hcap; try discriminate.
  destruct (highestGasLimit_range _ _ _ _ _ Hh Hc (wrap64_range _) Hcap) as (Hcr & Hcc & _).
  assert (Hfin : forall bound, 0 <= bound <= cap -> soundEstimate applyExecutionPhase errIsIntrinsicGas st opts bound res ->
            match res with
            | Estimated hi =>
                (exists exr ppr,
                   executeRip7560Execution applyExecutionPhase errIsIntrinsicGas st opts hi
                   = Ok (false, Some exr, ppr, None)) /\
                0 <= hi /\ (gasCap <> 0 -> hi <= gasCap)
            | Failure revert err =>
                revert = None /\
                (err = inl (Base (Msg "gas required exceeds allowance (%d)")) \/
                 exists g e,
                   executeRip7560Execution applyExecutionPhase errIsIntrinsicGas st opts g
                   = Ok (true, None, None, Some e) /\ err = inl e)
            end).
  { intros bound Hb Hsound. destruct res as [hi | revert err]; simpl in Hsound.
    - destruct Hsound as (Hr & Hp). split; [exact Hp |]. split; [lia |].
      intros Hne. specialize (Hcc Hne). lia.
    - destruct Hsound as (-> & Hp). split; [reflexivity |]. right. exact Hp. }
  destruct (executeRip7560Execution applyExecutionPhase errIsIntrinsicGas st opts cap)
    as [[[[failed exr] ppr] err] | e | p] eqn:Ep; try discriminate.
  destruct (executeRip7560Execution_shape _ _ _ _ _ _ _ Ep)
    as [(-> & -> & ->) | (-> & [exr1 ->] & ->)].
  - destruct err as [err |]; injection H as <-; (split; [reflexivity |]);
      [right; eauto | left; reflexivity].
  - match type of H with
    | (if ?o <? cap then _ else _) = _ => set (optimistic := o) in *
    end.
    match type of H with
    | (if _ then _ else searchExecution _ _ fuel st opts ?l cap) = _ => set (lo := l) in *
    end.
    assert (Hlo : 0 <= lo < 2 ^ 64) by (subst lo; destruct ppr; apply wrap64_range).
    assert (Ho : 0 <= optimistic).
    { subst optimistic. destruct ppr; (apply Z.div_pos; [apply wrap64_range | lia]). }
    destruct (optimistic <? cap) eqn:Eo.
    + apply Z.ltb_lt in Eo.
      destruct (executeRip7560Execution applyExecutionPhase errIsIntrinsicGas st opts
                  optimistic) as [[[[failed2 exr2] ppr2] err2] | e | p] eqn:Ep2;
        try discriminate.
      destruct (executeRip7560Execution_shape _ _ _ _ _ _ _ Ep2)
        as [(-> & -> & ->) | (-> & [r2 ->] & ->)].
      * destruct err2 as [err2 |].
        -- injection H as <-. split; [reflexivity |]. right. eauto.
        -- apply searchExecution_sound in H; [| lia | lia | eauto].
           apply (Hfin cap); [lia | exact H].
      * apply searchExecution_sound in H; [| lia | lia | eauto].
        apply (Hfin optimistic); [lia | exact H].
    + apply searchExecution_sound in H; [| lia | lia | eauto].
      apply (Hfin cap); [lia | exact H].
Qed.

End EstimatorProperties.

Lemma estimate_validation_sound_witness :
  exists opts',
    exEstimateValidation = Some (Ok (50000, opts')) /\
    GasEstimator.opt_ValidationPhaseResult opts' = None /\
    (exists r, GasEstimator.executeRip7560Validation (exApplyValidationPhases 50000 30000)
                 exErrIsOutOfGas txSimple (exOptions None) 50000 = Ok (Some r)) /\
    forall fuel gasCap,
      GasEstimator.EstimateRip7560Execution 21000 2300 (exApplyExecutionPhase 40000 30000)
        exErrIsIntrinsicGas fuel opts' gasCap
      = Some (Panicked "invalid memory address or nil pointer dereference").
Proof.
  destruct exEstimateValidation as [[[hi opts'] | e | p] |] eqn:E;
    try (vm_compute in E; discriminate).
  assert (Hhi : hi = 50000) by (vm_compute in E; congruence). subst hi.
  exists opts'. split; [reflexivity |].
  assert (Hn : GasEstimator.opt_ValidationPhaseResult opts' = None)
    by (vm_compute in E; inversion E; reflexivity).
  split; [exact Hn |].
  unfold exEstimateValidation in E.
  destruct (estimate_validation_sound 15000 21000 2300 (exApplyValidationPhases 50000 30000)
              (exApplyExecutionPhase 40000 30000) exErrIsOutOfGas exErrIsIntrinsicGas
              64 txSimple (exOptions None) opts' 50000 50000
              ltac:(simpl; lia) ltac:(lia) E) as (Hp & _ & _ & Hx).
  split; [exact Hp | exact (Hx Hn)].
Defined.

Lemma estimate_validation_terminates_witness :
  GasEstimator.EstimateRip7560Validation 15000 21000 2300
    (exApplyValidationPhases 60 30) exErrIsOutOfGas 100 txSimple (exOptions None) 100
  <> None.
Proof.
  apply estimate_validation_terminates.
  - simpl; lia.
  - lia.
  - lia.
  - intros g vpr state H. unfold GasEstimator.executeRip7560Validation in H. simpl in H.
    unfold exApplyValidationPhases in H. simpl in H.
    destruct (g <? 60); [discriminate |]. inversion H; subst.
    vm_compute. split; [discriminate | reflexivity].
  - simpl; lia.
Defined.

Lemma estimate_execution_sound_witness :
  exEstimateExecution = Some (Ok (GasEstimator.Estimated 40000)) /\
  exists exr ppr,
    GasEstimator.executeRip7560Execution (exApplyExecutionPhase 40000 30000)
      exErrIsIntrinsicGas txSimple (exOptions (Some (exVpr txSimple 30000))) 40000
    = Ok (false, Some exr, ppr, None).
Proof.
  assert (E : exEstimateExecution = Some (Ok (GasEstimator.Estimated 40000)))
    by (vm_compute; reflexivity).
  split; [exact E |].
  unfold exEstimateExecution in E.
  destruct (estimate_execution_sound 21000 2300 (exApplyExecutionPhase 40000 30000)
              exErrIsIntrinsicGas 64 (exOptions (Some (exVpr txSimple 30000))) 50000
              (GasEstimator.Estimated 40000) ltac:(simpl; lia) ltac:(lia) E)
    as (vpr & Hv & Hp & _).
  simpl in Hv. inversion Hv; subst vpr. exact Hp.
Defined.

(** ** The gas a transaction is charged *)

Section ChargedGas.

Context {abi : AbiCodec}.
Variable base : Z.
Variable config : ChainConfig.
Variable evm : EVM.
Variable header : Header.




End ChargedGas.


(** ** The estimate for a threshold *)

Section EstimatorThreshold.

Import GasEstimator.

Variable Rip7560TxGas : Z.
Variable TxGas : Z.
Variable CallStipend : Z.
Variable applyValidationPhases :
  Rip7560AccountAbstractionTx -> StateDB -> outcome (ValidationPhaseResult * StateDB).
Variable errIsOutOfGas : error -> bool.

Lemma searchValidation_exact (st : Rip7560AccountAbstractionTx) (opts : Options)
    (need : Z) (fuel : nat) : forall lo hi last hi' last',
  validationThreshold applyValidationPhases errIsOutOfGas st opts need ->
  ErrorRatioPositive opts = false ->
  0 <= lo < need -> need <= hi < 2 ^ 64 ->
  searchValidation applyValidationPhases errIsOutOfGas fuel st opts lo hi last
    = Some (Ok (hi', last')) ->
  hi' = need.
Proof.
  induction fuel as [| fuel IH]; intros lo hi last hi' last' Hth Her Hlo Hhi H;
    simpl in H; [discriminate |].
  rewrite Her in H. simpl in H.
  assert (Hlo1 : add64 lo 1 = lo + 1) by (unfold add64; apply wrap64_small; lia).
  destruct (add64 lo 1 <? hi) eqn:Elt.
  - apply Z.ltb_lt in Elt.
    pose proof (bisect_mid lo hi ltac:(lia) ltac:(lia) Elt) as Hmid. simpl in Hmid.
    set (mid := if mul64 lo 2 <? add64 hi lo / 2 then mul64 lo 2 else add64 hi lo / 2)
      in *.
    destruct (Hth mid ltac:(lia)) as [Hge Hlt].
    destruct (Z_lt_ge_dec mid need) as [Hm | Hm].
    + rewrite (Hlt Hm) in H. apply IH in H; [exact H | exact Hth | exact Her | lia | lia].
    + destruct (Hge ltac:(lia)) as [r Hr]. rewrite Hr in H.
      apply IH in H; [exact H | exact Hth | exact Her | lia | lia].
  - apply Z.ltb_ge in Elt. inversion H; subst. lia.
Qed.

(** X26.  Without an error ratio, when the validation phases run through
    exactly from a gas limit of [need] on, run out of gas below it, and
    report a gas use between one and [need], the estimate that
    [EstimateRip7560Validation] returns is [need]. *)
Theorem estimate_validation_exact (fuel : nat) (st : Rip7560AccountAbstractionTx)
    (opts opts' : Options) (gasCap need hi : Z) :
  0 <= opt_HeaderGasLimit opts < 2 ^ 64 -> 0 <= gasCap < 2 ^ 64 ->
  ErrorRatioPositive opts = false ->
  validationThreshold applyValidationPhases errIsOutOfGas st opts need ->
  (forall g vpr state,
     executeRip7560Validation applyValidationPhases errIsOutOfGas st opts g
     = Ok (Some (vpr, state)) ->
     1 <= dropErr (validationPhaseUsedGas vpr) <= need) ->
  EstimateRip7560Validation Rip7560TxGas TxGas CallStipend applyValidationPhases
    errIsOutOfGas fuel st opts gasCap = Some (Ok (hi, opts')) ->
  hi = need.
Proof.
  intros Hh Hc Her Hth Hused H. unfold EstimateRip7560Validation in H.
  destruct (TotalGasLimit Rip7560TxGas st) as [total | e | p]; try discriminate.
  destruct (highestGasLimit TxGas st opts gasCap (sub64 total (PostOpGas st)))
    as [cap | e | p] eqn:Hcap; try discriminate.
  destruct (highestGasLimit_range _ _ _ _ _ _ Hh Hc (wrap64_range _) Hcap) as (Hcr & _).
  destruct (executeRip7560Validation applyValidationPhases errIsOutOfGas st opts cap)
    as [[[vpr statedb] |] | e | p] eqn:Ep; try discriminate.
  assert (Hneed : need <= cap).
  { destruct (Z_lt_ge_dec cap need) as [Hlt | Hge]; [| lia].
    destruct (Hth cap Hcr) as [_ Hn]. rewrite (Hn Hlt) in Ep. discriminate. }
  destruct (Hused _ _ _ Ep) as [Hu1 Hu2].
  set (used := dropErr (validationPhaseUsedGas vpr)) in *.
  assert (Hlo : sub64 used 1 = used - 1) by (unfold sub64; apply wrap64_small; lia).
  rewrite Hlo in H.
  set (optimistic := mul64 (add64 used CallStipend) 64 / 63) in *.
  assert (Ho : 0 <= optimistic).
  { subst optimistic. apply Z.div_pos; [apply wrap64_range | lia]. }
  assert (Hfin : forall lo0 hi0 last0,
             0 <= lo0 < need -> need <= hi0 < 2 ^ 64 ->
             match searchValidation applyValidationPhases errIsOutOfGas fuel st opts lo0 hi0
                     last0 with
             | Some (Ok (hi1, last1)) =>
                 Some (Ok (hi1,
                           {| opt_HeaderGasLimit := opt_HeaderGasLimit opts;
                              opt_State := snd <$> last1;
                              ErrorRatioPositive := ErrorRatioPositive opts;
                              belowErrorRatio := belowErrorRatio opts;
                              opt_ValidationPhaseResult := fst <$> last1 |}))
             | Some (Err err) => Some (Err err)
             | Some (Panicked p) => Some (Panicked p)
             | None => None
             end = Some (Ok (hi, opts')) -> hi = need).
  { intros lo0 hi0 last0 Hl0 Hh0 Hs.
    destruct (searchValidation _ _ fuel st opts lo0 hi0 last0)
      as [[[hi1 last1] | e | p] |] eqn:Es; try discriminate.
    injection Hs as <- _.
    exact (searchValidation_exact st opts need fuel lo0 hi0 last0 hi1 last1
             Hth Her Hl0 Hh0 Es). }
  destruct (optimistic <? cap) eqn:Eo.
  - apply Z.ltb_lt in Eo.
    destruct (Hth optimistic ltac:(lia)) as [Hge Hlt].
    destruct (Z_lt_ge_dec optimistic need) as [Hm | Hm].
    + rewrite (Hlt Hm) in H. apply Hfin in H; [exact H | lia | lia].
    + destruct (Hge ltac:(lia)) as [r Hr]. rewrite Hr in H.
      apply Hfin in H; [exact H | lia | lia].
  - apply Hfin in H; [exact H | lia | lia].
Qed.

End EstimatorThreshold.

Lemma estimate_validation_exact_witness :
  exists opts', exEstimateValidation = Some (Ok (50000, opts')).
Proof.
  destruct exEstimateValidation as [[[hi opts'] | e | p] |] eqn:E;
    try (vm_compute in E; discriminate).
  exists opts'. unfold exEstimateValidation in E.
  rewrite (estimate_validation_exact 15000 21000 2300 (exApplyValidationPhases 50000 30000)
             exErrIsOutOfGas 64 txSimple (exOptions None) opts' 50000 50000 hi); try exact E.
  - reflexivity.
  - simpl; lia.
  - lia.
  - reflexivity.
  - intros g Hg. unfold GasEstimator.executeRip7560Validation, exApplyValidationPhases.
    simpl. split; intros Hn.
    + destruct (g <? 50000) eqn:El; [lia |]. eauto.
    + destruct (g <? 50000) eqn:El; [reflexivity | lia].
  - intros g vpr state H.
    unfold GasEstimator.executeRip7560Validation, exApplyValidationPhases in H.
    simpl in H. destruct (g <? 50000); [discriminate |]. inversion H; subst.
    vm_compute. split; discriminate.
Defined.
